(** * Tweepify: the background job subsystem of TweetCampaigner

    A shallow embedding of the scheduling, publishing, maintenance and
    analytics code of [TweetCampaigner] (tasks.py, models.py, routes.py,
    services/campaign_service.py, services/analytics_service.py,
    services/twitter_service.py, services/ai_service.py), and the
    properties of its specification checked against it.

    Conventions of the embedding:
    - Python [int] is [Z]; [//] is [Z.div] (both floor); [**] is [Z.pow].
    - A [datetime] is a record of its fields; the date part is the
      proleptic ordinal of the day ([date.toordinal()]).
    - A nullable column is an [option]; a [String]/[Text] column is a
      [string]; the [status] column keeps the strings of the source.
    - A Python [str] is the [string] of the bytes of its UTF-8 encoding;
      [len] and slices count code points, not bytes.
    - Code that raises returns a [result]; code that mutates the ORM
      session and talks to the broker runs in the [task] monad. *)

From Stdlib Require Import ZArith List Ascii String Bool Lia Floats Uint63.
From stdpp Require Import base option list strings gmap.
From Equations Require Import Equations.

Import ListNotations.
Local Open Scope string_scope.
Local Open Scope Z_scope.

(** ** Exceptions and results *)

(** The exceptions the modelled code raises or receives.  All of them are
    subclasses of Python's [Exception], so [except Exception] catches
    every constructor. *)
Inductive exn : Type :=
| Exception (msg : string)          (* raise Exception(msg) *)
| ValueError (msg : string)         (* datetime.replace out of range *)
| TypeError (msg : string)          (* arithmetic on None, join of non-strings *)
| ZeroDivisionError
| OverflowError (msg : string)      (* a date past 9999-12-31 *)
| OperationalError (msg : string)   (* database or broker unavailable *)
| Retry (countdown : Z)             (* celery.exceptions.Retry *)
| MaxRetriesExceededError           (* celery.exceptions.MaxRetriesExceededError *)
| Reject (msg : string).            (* celery.exceptions.Reject *)

(** [str(e)] *)
Definition exn_str (e : exn) : string :=
  match e with
  | Exception m | ValueError m | TypeError m | OverflowError m
  | OperationalError m | Reject m => m
  | ZeroDivisionError => "integer division or modulo by zero"
  | Retry _ => "Retry"
  | MaxRetriesExceededError => "Can't retry"
  end.

Inductive result (A : Type) : Type :=
| Ok (a : A)
| Raise (e : exn).
Arguments Ok {A} a.
Arguments Raise {A} e.

(** ** Python strings

    A [str] is held as the bytes of its UTF-8 encoding.  In that encoding
    every code point is one byte that is not a continuation byte
    ([10xxxxxx]), followed by its continuation bytes. *)
Definition is_continuation (c : ascii) : bool :=
  match c with
  | Ascii _ _ _ _ _ _ b6 b7 => b7 && negb b6
  end.

(** [len(s)]: the number of code points. *)
Fixpoint str_len (s : string) : nat :=
  match s with
  | EmptyString => O
  | String c s => if is_continuation c then str_len s else S (str_len s)
  end.

(** [s[:n]]: the first [n] code points. *)
Fixpoint str_prefix (n : nat) (s : string) : string :=
  match s with
  | EmptyString => EmptyString
  | String c s' =>
      if is_continuation c then String c (str_prefix n s')
      else match n with
           | O => EmptyString
           | S n' => String c (str_prefix n' s')
           end
  end.

(** [list(s)]: the code points of [s], each a string of its own. *)
Definition starts_continuation (s : string) : bool :=
  match s with
  | String c _ => is_continuation c
  | EmptyString => false
  end.

Fixpoint code_points (s : string) : list string :=
  match s with
  | EmptyString => []
  | String c s' =>
      if starts_continuation s'
      then match code_points s' with
           | p :: ps => String c p :: ps
           | [] => [String c EmptyString]
           end
      else String c EmptyString :: code_points s'
  end.

(** ** Dates and times *)

Module Datetime.

Record datetime : Type := mk_datetime {
  day : Z;          (* date().toordinal() *)
  hour : Z;
  minute : Z;
  second : Z;
  microsecond : Z
}.

(** The fields of a constructed [datetime] are always in range. *)
Definition wf (d : datetime) : Prop :=
  0 <= hour d < 24 /\ 0 <= minute d < 60 /\ 0 <= second d < 60
  /\ 0 <= microsecond d < 1000000.

Definition us_per_day : Z := 86400000000.

(** Microseconds since the start of day 0: comparisons and differences
    of datetimes are those of this number. *)
Definition micros (d : datetime) : Z :=
  (((day d * 24 + hour d) * 60 + minute d) * 60 + second d) * 1000000
  + microsecond d.

(** The order of Python on datetimes: the fields compared in turn. *)
Definition lex_lt (a b : datetime) : Prop :=
  day a < day b
  \/ day a = day b
     /\ (hour a < hour b
         \/ hour a = hour b
            /\ (minute a < minute b
                \/ minute a = minute b
                   /\ (second a < second b
                       \/ second a = second b
                          /\ microsecond a < microsecond b))).

Definition leb (a b : datetime) : bool := micros a <=? micros b.
Definition ltb (a b : datetime) : bool := micros a <? micros b.

(** [(a - b).days]: a [timedelta] is normalised so that its seconds and
    microseconds are non-negative, hence the floor. *)
Definition sub_days (a b : datetime) : Z := (micros a - micros b) / us_per_day.

(** [d + timedelta(days=n)] *)
Definition add_days (d : datetime) (n : Z) : datetime :=
  mk_datetime (day d + n) (hour d) (minute d) (second d) (microsecond d).

(** [date.max.toordinal()]: the ordinal of 9999-12-31, the last day a
    [datetime] can hold. *)
Definition max_ordinal : Z := 3652059.

(** [d + timedelta(days=1)]: past the last day the addition raises
    [OverflowError]. *)
Definition next_day (d : datetime) : result datetime :=
  if day d + 1 <=? max_ordinal
  then Ok (add_days d 1)
  else Raise (OverflowError "date value out of range").

(** [d.replace(hour=h, minute=0, second=0)]: the constructor checks the
    range of the new hour and raises [ValueError] outside it. *)
Definition replace_hour (d : datetime) (h : Z) : result datetime :=
  if (0 <=? h) && (h <=? 23)
  then Ok (mk_datetime (day d) h 0 0 (microsecond d))
  else Raise (ValueError "hour must be in 0..23").

End Datetime.
Import Datetime.

(** ** models.py *)

Module User.
Record t : Type := mk {
  id : Z;
  twitter_access_token : option string;
  twitter_access_token_secret : option string
}.
End User.

Module Campaign.
Record t : Type := mk {
  id : Z;
  keywords : option string;      (* JSON string of keywords *)
  hashtags : option string;      (* JSON string of hashtags *)
  tweet_frequency : option Z;    (* tweets per day, default 3 *)
  is_active : bool;
  updated_at : datetime;         (* onupdate=datetime.utcnow *)
  user_id : Z
}.

Definition set_is_active (b : bool) (c : t) : t :=
  mk (id c) (keywords c) (hashtags c) (tweet_frequency c) b (updated_at c)
     (user_id c).
Definition set_updated_at (d : datetime) (c : t) : t :=
  mk (id c) (keywords c) (hashtags c) (tweet_frequency c) (is_active c) d
     (user_id c).
End Campaign.

Module ScheduledTweet.
Record t : Type := mk {
  id : Z;
  content : string;
  scheduled_time : datetime;
  status : string;               (* scheduled, posted, failed, cancelled *)
  tweet_id : option string;      (* Twitter tweet ID after posting *)
  error_message : option string;
  created_at : datetime;
  posted_at : option datetime;
  user_id : Z;
  campaign_id : option Z
}.

Definition set_status (s : string) (x : t) : t :=
  mk (id x) (content x) (scheduled_time x) s (tweet_id x) (error_message x)
     (created_at x) (posted_at x) (user_id x) (campaign_id x).
Definition set_tweet_id (v : option string) (x : t) : t :=
  mk (id x) (content x) (scheduled_time x) (status x) v (error_message x)
     (created_at x) (posted_at x) (user_id x) (campaign_id x).
Definition set_error_message (v : option string) (x : t) : t :=
  mk (id x) (content x) (scheduled_time x) (status x) (tweet_id x) v
     (created_at x) (posted_at x) (user_id x) (campaign_id x).
Definition set_posted_at (v : option datetime) (x : t) : t :=
  mk (id x) (content x) (scheduled_time x) (status x) (tweet_id x)
     (error_message x) (created_at x) v (user_id x) (campaign_id x).
End ScheduledTweet.

Module TrendingHashtag.
Record t : Type := mk {
  id : Z;
  hashtag : string;
  updated_at : datetime
}.
End TrendingHashtag.

(** Python truthiness of an optional string and of an optional int. *)
Definition truthy_str (s : option string) : bool :=
  match s with
  | Some s => negb (String.eqb s "")
  | None => false
  end.

Definition truthy_int (z : option Z) : bool :=
  match z with
  | Some z => negb (z =? 0)
  | None => false
  end.

(** [User.has_twitter_auth] *)
Definition has_twitter_auth (u : User.t) : bool :=
  truthy_str (User.twitter_access_token u)
  && truthy_str (User.twitter_access_token_secret u).

(** [TweetAnalytics.engagement_rate] is a [Float] column: an IEEE 754
    binary64 number, as Python's [float]. *)
Definition float_of_int (z : Z) : PrimFloat.float :=
  if z <? 0
  then PrimFloat.opp (PrimFloat.of_uint63 (Uint63.of_Z (- z)))
  else PrimFloat.of_uint63 (Uint63.of_Z z).

(** [a / b] on Python ints (true division) and [x * n] for a float [x] and
    an int [n].  The conversion is exact for counts below [2^53], where
    Python's int/int division and the division of the converted floats
    agree. *)
Definition truediv (a b : Z) : PrimFloat.float :=
  PrimFloat.div (float_of_int a) (float_of_int b).

Definition fmul_int (x : PrimFloat.float) (n : Z) : PrimFloat.float :=
  PrimFloat.mul x (float_of_int n).

Module TweetAnalytics.
Record t : Type := mk {
  id : Z;
  tweet_id : string;
  likes : Z;
  retweets : Z;
  replies : Z;
  impressions : Z;
  engagement_rate : PrimFloat.float;
  last_updated : datetime;
  campaign_id : option Z;
  user_id : Z
}.
End TweetAnalytics.

(** ** The database

    The committed rows of the tables the modelled code reads or writes,
    each table in insertion order. *)
Record database : Type := mk_db {
  users : list User.t;
  campaigns : list Campaign.t;
  tweets : list ScheduledTweet.t;
  analytics : list TweetAnalytics.t;
  trends : list TrendingHashtag.t
}.

Definition with_tweets (l : list ScheduledTweet.t) (db : database) : database :=
  mk_db (users db) (campaigns db) l (analytics db) (trends db).
Definition with_campaigns (l : list Campaign.t) (db : database) : database :=
  mk_db (users db) l (tweets db) (analytics db) (trends db).
Definition with_analytics (l : list TweetAnalytics.t) (db : database) : database :=
  mk_db (users db) (campaigns db) (tweets db) l (trends db).
Definition with_trends (l : list TrendingHashtag.t) (db : database) : database :=
  mk_db (users db) (campaigns db) (tweets db) (analytics db) l.

(** [Model.query.get(pk)] *)
Definition get_user (db : database) (pk : Z) : option User.t :=
  List.find (fun u => User.id u =? pk) (users db).
Definition get_campaign (db : database) (pk : Z) : option Campaign.t :=
  List.find (fun c => Campaign.id c =? pk) (campaigns db).
Definition get_tweet (db : database) (pk : Z) : option ScheduledTweet.t :=
  List.find (fun t => ScheduledTweet.id t =? pk) (tweets db).

(** Equality test on a nullable integer column against a value. *)
Definition opt_eqb (o : option Z) (z : Z) : bool :=
  match o with
  | Some x => x =? z
  | None => false
  end.

(** The primary key an autoincrement column gives the next inserted row. *)
Definition next_tweet_id (l : list ScheduledTweet.t) : Z :=
  1 + fold_right Z.max 0 (map ScheduledTweet.id l).

(** ** services/campaign_service.py *)

(** A [ScheduledTweet(...)] constructed and added to the session, before
    the commit gives it its primary key and column defaults. *)
Record pending_tweet : Type := mk_pending {
  p_content : string;
  p_scheduled_time : datetime;
  p_user_id : Z;
  p_campaign_id : option Z
}.

(** The [INSERT] of a pending row at commit time [now]: [status] defaults
    to ['scheduled'], [created_at] to [utcnow], the other columns to NULL. *)
Definition insert_tweet (now : datetime) (pk : Z) (p : pending_tweet) : ScheduledTweet.t :=
  ScheduledTweet.mk pk (p_content p) (p_scheduled_time p) "scheduled" None None
                    now None (p_user_id p) (p_campaign_id p).

Fixpoint insert_tweets (now : datetime) (pk : Z) (ps : list pending_tweet)
  : list ScheduledTweet.t :=
  match ps with
  | [] => []
  | p :: ps => insert_tweet now pk p :: insert_tweets now (pk + 1) ps
  end.

(** [db.session.add(...)] for each pending row, then [db.session.commit()]. *)
Definition commit_tweets (now : datetime) (ps : list pending_tweet) (db : database)
  : database :=
  with_tweets (tweets db ++ insert_tweets now (next_tweet_id (tweets db)) ps) db.

(** The content generation gateway: the outcome of the [n]-th call of
    [AIService.generate_tweet_content] made by one request, which returns
    a text or raises. *)
Definition ai_service : Type := nat -> result string.

(** [content not in generated_tweets] *)
Definition str_in (s : string) (l : list string) : bool :=
  existsb (String.eqb s) l.

(** The [for i in range(num_tweets)] loop of [generate_campaign_content];
    [n] counts the iterations left and [i] the calls made. *)
Fixpoint generate_loop (ai : ai_service) (n : nat) (i : nat)
    (generated_tweets : list string) : result (list string) :=
  match n with
  | O => Ok generated_tweets
  | S n =>
      match ai i with
      | Raise e => Raise e
      | Ok content =>
          if negb (String.eqb content "") && negb (str_in content generated_tweets)
          then generate_loop ai n (S i) (generated_tweets ++ [content])
          else generate_loop ai n (S i) generated_tweets
      end
  end.

(** What [json.loads] gives, as far as [', '.join] looks at it: a list
    with its items, each a string or not; a string; a dict with its keys
    in order; or a value that cannot be iterated (a number, a boolean,
    [None]). *)
Inductive json_item : Type :=
| ItemStr (s : string)
| ItemOther.

Inductive json_value : Type :=
| JsonList (items : list json_item)
| JsonStr (s : string)
| JsonDict (keys : list string)
| JsonScalar.

(** [json.loads]: the value of a text, or the exception it raises on a
    text that is not JSON. *)
Definition json_loader : Type := string -> result json_value.

(** The strings of a list whose items are all strings. *)
Fixpoint item_strings (items : list json_item) : option (list string) :=
  match items with
  | [] => Some []
  | ItemStr s :: items => option_map (cons s) (item_strings items)
  | ItemOther :: _ => None
  end.

(** [sep.join(v)]: the strings of a list, the code points of a string or
    the keys of a dict, with [sep] between them; [TypeError] for a list
    with an item that is no string and for a value that is not iterable. *)
Definition join (sep : string) (v : json_value) : result string :=
  match v with
  | JsonList items =>
      match item_strings items with
      | Some l => Ok (String.concat sep l)
      | None => Raise (TypeError "sequence item: expected str instance")
      end
  | JsonStr s => Ok (String.concat sep (code_points s))
  | JsonDict keys => Ok (String.concat sep keys)
  | JsonScalar => Raise (TypeError "can only join an iterable")
  end.

(** [json.loads(column) if column else []] *)
Definition loads_or_empty (json_loads : json_loader) (column : option string)
  : result json_value :=
  match column with
  | Some text => if String.eqb text "" then Ok (JsonList []) else json_loads text
  | None => Ok (JsonList [])
  end.

(** The call of the generator in the loop of [generate_campaign_content]:
    the arguments [', '.join(keywords)] and [', '.join(hashtags)] are
    evaluated first, and are the same in every call; [ai] gives the
    outcome of the call. *)
Definition generate_call (ai : ai_service) (keywords hashtags : json_value)
  : ai_service :=
  fun i =>
    match join ", " keywords with
    | Raise e => Raise e
    | Ok _ =>
        match join ", " hashtags with
        | Raise e => Raise e
        | Ok _ => ai i
        end
    end.

(** [CampaignService.generate_campaign_content]: every exception is caught
    and turned into the empty list. *)
Definition generate_campaign_content (json_loads : json_loader) (ai : ai_service)
    (db : database) (campaign_id : Z) (num_tweets : Z) : list string :=
  match get_campaign db campaign_id with
  | None => []                          (* raise Exception("Campaign not found") *)
  | Some campaign =>
      (* Parse campaign data *)
      match loads_or_empty json_loads (Campaign.keywords campaign) with
      | Raise _ => []
      | Ok keywords =>
          match loads_or_empty json_loads (Campaign.hashtags campaign) with
          | Raise _ => []
          | Ok hashtags =>
              (* Generate multiple variations *)
              match generate_loop (generate_call ai keywords hashtags)
                                  (Z.to_nat num_tweets) 0 [] with
              | Ok generated_tweets => generated_tweets
              | Raise _ => []
              end
          end
      end
  end.

(** [hour_offset = (i + 1) * (24 // (frequency + 1))] *)
Definition hour_offset (frequency i : Z) : result Z :=
  if frequency + 1 =? 0 then Raise ZeroDivisionError
  else Ok ((i + 1) * (24 / (frequency + 1))).

(** The local variables of the scheduling loops. *)
Record sched_state : Type := mk_sched {
  session : list pending_tweet;     (* rows added to the session, oldest first *)
  scheduled_count : Z;
  content_index : nat
}.

(** The [for i in range(frequency)] loop over one day; [idxs] is the rest of
    the range.  The [break] leaves the state as it is. *)
Fixpoint schedule_day (campaign : Campaign.t) (campaign_id : Z) (frequency : Z)
    (tweet_contents : list string) (current_date : datetime)
    (idxs : list Z) (st : sched_state) : result sched_state :=
  match idxs with
  | [] => Ok st
  | i :: idxs =>
      match nth_error tweet_contents (content_index st) with
      | None => Ok st                                     (* break *)
      | Some text =>
          match hour_offset frequency i with
          | Raise e => Raise e
          | Ok h =>
              match replace_hour current_date h with
              | Raise e => Raise e
              | Ok posting_time =>
                  let scheduled_tweet :=
                    mk_pending text posting_time (Campaign.user_id campaign)
                               (Some campaign_id) in
                  schedule_day campaign campaign_id frequency tweet_contents
                    current_date idxs
                    (mk_sched (session st ++ [scheduled_tweet])
                              (scheduled_count st + 1)
                              (S (content_index st)))
              end
          end
      end
  end.

(** [range(n)] *)
Definition range (n : Z) : list Z := map Z.of_nat (seq 0 (Z.to_nat n)).

(** The loop condition
    [current_date <= end_date and content_index < len(tweet_contents)]. *)
Definition sched_continue (end_date current_date : datetime)
    (tweet_contents : list string) (st : sched_state) : bool :=
  leb current_date end_date && (content_index st <? length tweet_contents)%nat.

(** The days left until [current_date] passes [end_date]: the measure that
    makes the [while] loop terminate. *)
Definition days_left (end_date current_date : datetime) : nat :=
  Z.to_nat ((micros end_date - micros current_date) / us_per_day + 1).

(** A value together with the equation that it is the value of the
    tested expression, for the termination proof of the loop below. *)
Definition inspect {A : Type} (a : A) : {b : A | a = b} := exist _ a eq_refl.

(** The [while] loop of [schedule_campaign_tweets]: the posts of the day,
    then [current_date += timedelta(days=1)]. *)
Equations schedule_loop (campaign : Campaign.t) (campaign_id : Z) (frequency : Z)
    (tweet_contents : list string) (end_date : datetime)
    (current_date : datetime) (st : sched_state)
  : result sched_state by wf (days_left end_date current_date) lt :=
schedule_loop campaign campaign_id frequency tweet_contents end_date current_date st
  with inspect (sched_continue end_date current_date tweet_contents st) := {
  | exist _ false _ => Ok st
  | exist _ true Hc
      with schedule_day campaign campaign_id frequency tweet_contents
                        current_date (range frequency) st := {
      | Raise e => Raise e
      | Ok st' with inspect (next_day current_date) := {
          | exist _ (Raise e) _ => Raise e
          | exist _ (Ok tomorrow) Hn =>
              schedule_loop campaign campaign_id frequency tweet_contents end_date
                            tomorrow st'
        }
    }
  }.
Next Obligation.
  unfold next_day in Hn.
  destruct (day current_date + 1 <=? max_ordinal); [|discriminate].
  injection Hn as <-.
  unfold sched_continue in Hc. apply andb_true_iff in Hc. destruct Hc as [H _].
  revert H.
  unfold leb, days_left, add_days, micros, us_per_day;
    cbn [day hour minute second microsecond].
  intros H%Z.leb_le.
  set (e := (((day end_date * 24 + hour end_date) * 60 + minute end_date) * 60
             + second end_date) * 1000000 + microsecond end_date) in *.
  set (c := (((day current_date * 24 + hour current_date) * 60 + minute current_date) * 60
             + second current_date) * 1000000 + microsecond current_date) in *.
  match goal with
  | |- (Z.to_nat (?x / _ + 1) < _)%nat =>
      replace x with (e - c + (-1) * 86400000000) by (subst e c; lia)
  end.
  rewrite Z.div_add by lia.
  assert (0 <= (e - c) / 86400000000) by (apply Z.div_pos; lia).
  lia.
Qed.

(** [a or b] on optional ints. *)
Definition py_or (a b : option Z) : option Z :=
  if truthy_int a then a else b.

(** The [try] block of [schedule_campaign_tweets] up to, and without, the
    commit: the scheduled count and the rows added to the session. *)
Definition schedule_campaign_tweets_body (json_loads : json_loader)
    (ai : ai_service) (db : database) (campaign_id : Z)
    (start_date end_date : datetime) (tweets_per_day : option Z)
  : result (Z * list pending_tweet) :=
  match get_campaign db campaign_id with
  | None => Raise (Exception "Campaign not found")
  | Some campaign =>
      match py_or tweets_per_day (Campaign.tweet_frequency campaign) with
      | None => Raise (TypeError "unsupported operand type(s) for *: 'int' and 'NoneType'")
      | Some frequency =>
          let total_days := sub_days end_date start_date + 1 in
          let total_tweets_needed := total_days * frequency in
          let tweet_contents :=
            generate_campaign_content json_loads ai db campaign_id
                                      total_tweets_needed in
          match tweet_contents with
          | [] => Raise (Exception "Failed to generate tweet content")
          | _ :: _ =>
              match schedule_loop campaign campaign_id frequency tweet_contents
                                  end_date start_date (mk_sched [] 0 0) with
              | Raise e => Raise e
              | Ok st => Ok (scheduled_count st, session st)
              end
          end
      end
  end.

(** [CampaignService.schedule_campaign_tweets]: the result and the database
    afterwards.  On any exception the session is rolled back and
    [Exception("Failed to schedule tweets")] is raised. *)
Definition schedule_campaign_tweets (json_loads : json_loader) (ai : ai_service)
    (now : datetime) (db : database) (campaign_id : Z)
    (start_date end_date : datetime) (tweets_per_day : option Z)
  : result Z * database :=
  match schedule_campaign_tweets_body json_loads ai db campaign_id start_date
                                      end_date tweets_per_day with
  | Ok (scheduled_count, added) => (Ok scheduled_count, commit_tweets now added db)
  | Raise _ => (Raise (Exception "Failed to schedule tweets"), db)
  end.


(** The row the scheduler makes of a text for slot [i] of the day of
    [current_date]. *)
Definition day_row (campaign : Campaign.t) (campaign_id : Z) (frequency : Z)
    (current_date : datetime) (i : nat) (text : string) : pending_tweet :=
  mk_pending text
    (mk_datetime (day current_date)
                 ((Z.of_nat i + 1) * (24 / (frequency + 1))) 0 0
                 (microsecond current_date))
    (Campaign.user_id campaign) (Some campaign_id).

(** The row the scheduler makes of the [i]-th text it places from
    [current_date] on: day [i / frequency], slot [i mod frequency]. *)
Definition loop_row (campaign : Campaign.t) (campaign_id : Z) (frequency : Z)
    (current_date : datetime) (i : nat) (text : string) : pending_tweet :=
  mk_pending text
    (mk_datetime (day current_date + Z.of_nat i / frequency)
                 ((Z.of_nat i mod frequency + 1) * (24 / (frequency + 1))) 0 0
                 (microsecond current_date))
    (Campaign.user_id campaign) (Some campaign_id).

(** [CampaignService.pause_campaign]: the returned flag and the database
    afterwards.  The rows selected by
    [filter_by(campaign_id=campaign_id, status='scheduled')] get the status
    ['cancelled']. *)
Definition pause_selects (campaign_id : Z) (t : ScheduledTweet.t) : bool :=
  opt_eqb (ScheduledTweet.campaign_id t) campaign_id
  && String.eqb (ScheduledTweet.status t) "scheduled".

(** The [UPDATE] that a commit issues for a campaign whose [is_active]
    was assigned [b].  It is issued only when the value changed, and then
    sets [updated_at] to the time of the commit
    ([onupdate=datetime.utcnow]). *)
Definition update_is_active (now : datetime) (b : bool) (c : Campaign.t)
  : Campaign.t :=
  if Bool.eqb (Campaign.is_active c) b
  then c
  else Campaign.set_updated_at now (Campaign.set_is_active b c).

(** [now] is the time of the commit. *)
Definition pause_campaign (now : datetime) (db : database) (campaign_id : Z)
  : bool * database :=
  match get_campaign db campaign_id with
  | None => (false, db)
  | Some campaign =>
      let campaigns' :=
        map (fun c => if Campaign.id c =? Campaign.id campaign
                      then update_is_active now false c else c) (campaigns db) in
      let tweets' :=
        map (fun tweet => if pause_selects campaign_id tweet
                          then ScheduledTweet.set_status "cancelled" tweet
                          else tweet) (tweets db) in
      (true, with_tweets tweets' (with_campaigns campaigns' db))
  end.

(** [CampaignService.resume_campaign]: the rows with the campaign's id,
    status ['cancelled'] and [scheduled_time > now] get the status
    ['scheduled'], where [now] is the [datetime.utcnow()] of the filter;
    [now'] is the time of the commit. *)
Definition resume_selects (now : datetime) (campaign_id : Z) (t : ScheduledTweet.t)
  : bool :=
  opt_eqb (ScheduledTweet.campaign_id t) campaign_id
  && String.eqb (ScheduledTweet.status t) "cancelled"
  && ltb now (ScheduledTweet.scheduled_time t).

Definition resume_campaign (now now' : datetime) (db : database)
    (campaign_id : Z) : bool * database :=
  match get_campaign db campaign_id with
  | None => (false, db)
  | Some campaign =>
      let campaigns' :=
        map (fun c => if Campaign.id c =? Campaign.id campaign
                      then update_is_active now' true c else c) (campaigns db) in
      let tweets' :=
        map (fun tweet => if resume_selects now campaign_id tweet
                          then ScheduledTweet.set_status "scheduled" tweet
                          else tweet) (tweets db) in
      (true, with_tweets tweets' (with_campaigns campaigns' db))
  end.

(** ** tasks.py: cleanup_old_data *)

(** The filter of [old_tweets]:
    [posted_at < cutoff_date] and [status.in_(['posted', 'failed'])].  In SQL
    a comparison with a NULL [posted_at] is not true, so such a row is not
    selected. *)
Definition is_old_tweet (cutoff_date : datetime) (t : ScheduledTweet.t) : bool :=
  match ScheduledTweet.posted_at t with
  | Some p => ltb p cutoff_date
  | None => false
  end
  && (String.eqb (ScheduledTweet.status t) "posted"
      || String.eqb (ScheduledTweet.status t) "failed").

Definition is_old_trend (yesterday : datetime) (h : TrendingHashtag.t) : bool :=
  ltb (TrendingHashtag.updated_at h) yesterday.

(** One run of [cleanup_old_data]; [now] and [now'] are the two readings of
    [datetime.utcnow()]. *)
Definition cleanup_old_data (now now' : datetime) (db : database) : database :=
  let cutoff_date := add_days now (-30) in
  let yesterday := add_days now' (-1) in
  with_trends (List.filter (fun h => negb (is_old_trend yesterday h)) (trends db))
    (with_tweets (List.filter (fun t => negb (is_old_tweet cutoff_date t)) (tweets db)) db).



(** ** services/analytics_service.py: update_tweet_analytics *)

(** [analytics_data.get(key, 0)] on the metrics dictionary. *)
Definition dict_get (d : gmap string Z) (key : string) (dflt : Z) : Z :=
  default dflt (d !! key).

(** The filter [filter_by(tweet_id=tweet_id, user_id=user_id)]. *)
Definition analytics_key (tweet_id : string) (user_id : Z) (a : TweetAnalytics.t)
  : bool :=
  String.eqb (TweetAnalytics.tweet_id a) tweet_id
  && (TweetAnalytics.user_id a =? user_id).

(** The engagement rate: [(total_engagement / impressions * 100) if
    impressions > 0 else 0]. *)
Definition engagement_rate_of (analytics_data : gmap string Z) : PrimFloat.float :=
  let total_engagement :=
    dict_get analytics_data "likes" 0 + dict_get analytics_data "retweets" 0
    + dict_get analytics_data "replies" 0 in
  let impressions := dict_get analytics_data "impressions" 0 in
  if impressions >? 0
  then fmul_int (truediv total_engagement impressions) 100
  else float_of_int 0.

(** The assignments to the existing record. *)
Definition overwrite_analytics (now : datetime) (analytics_data : gmap string Z)
    (a : TweetAnalytics.t) : TweetAnalytics.t :=
  TweetAnalytics.mk (TweetAnalytics.id a) (TweetAnalytics.tweet_id a)
    (dict_get analytics_data "likes" 0)
    (dict_get analytics_data "retweets" 0)
    (dict_get analytics_data "replies" 0)
    (dict_get analytics_data "impressions" 0)
    (engagement_rate_of analytics_data)
    now
    (TweetAnalytics.campaign_id a) (TweetAnalytics.user_id a).

(** The update of the row that [.first()] returned: the first row of the
    table that the filter selects. *)
Fixpoint update_first (p : TweetAnalytics.t -> bool)
    (f : TweetAnalytics.t -> TweetAnalytics.t) (l : list TweetAnalytics.t)
  : list TweetAnalytics.t :=
  match l with
  | [] => []
  | a :: l => if p a then f a :: l else a :: update_first p f l
  end.

Definition next_analytics_id (l : list TweetAnalytics.t) : Z :=
  1 + fold_right Z.max 0 (map TweetAnalytics.id l).

(** [AnalyticsService.update_tweet_analytics] at time [now]. *)
Definition update_tweet_analytics (now : datetime) (db : database)
    (tweet_id : string) (analytics_data : gmap string Z) (user_id : Z)
    (campaign_id : option Z) : database :=
  let existing_analytics :=
    List.find (analytics_key tweet_id user_id) (analytics db) in
  match existing_analytics with
  | Some _ =>
      with_analytics
        (update_first (analytics_key tweet_id user_id)
                      (overwrite_analytics now analytics_data) (analytics db)) db
  | None =>
      let new_analytics :=
        TweetAnalytics.mk (next_analytics_id (analytics db)) tweet_id
          (dict_get analytics_data "likes" 0)
          (dict_get analytics_data "retweets" 0)
          (dict_get analytics_data "replies" 0)
          (dict_get analytics_data "impressions" 0)
          (engagement_rate_of analytics_data)
          now campaign_id user_id in
      with_analytics (analytics db ++ [new_analytics]) db
  end.

(** The metrics records of a tweet and an owner. *)
Definition records_for (tweet_id : string) (user_id : Z) (db : database)
  : list TweetAnalytics.t :=
  List.filter (analytics_key tweet_id user_id) (analytics db).

(** The metrics records of every other key. *)
Definition records_besides (tweet_id : string) (user_id : Z) (db : database)
  : list TweetAnalytics.t :=
  List.filter (fun a => negb (analytics_key tweet_id user_id a)) (analytics db).

(** ** tasks.py: the publish task

    The task runs against the outside world: the Twitter API, the
    database and the message broker.  One execution sees one
    [environment]. *)

(** What a call of the Twitter client gives: a response with data, a
    response without, or an exception of tweepy. *)
Inductive api_response : Type :=
| ApiData (id : string)
| ApiNoData
| ApiError (msg : string).

Record environment : Type := mk_env {
  utcnow : datetime;
  (* tweepy.Client.create_tweet(text) under the user's token and secret *)
  create_tweet : string -> string -> string -> api_response;
  (* tweepy.Client.get_me() under the user's token and secret *)
  get_me : string -> string -> api_response;
  (* the database fails from its [k]-th operation of the execution on *)
  db_fault : option nat;
  (* the broker accepts messages *)
  broker_up : bool
}.

(** The messages of the two Celery tasks of the pipeline, with the
    [countdown] they are sent with. *)
Inductive message : Type :=
| schedule_tweet_msg (scheduled_tweet_id : Z) (retries : Z) (countdown : Z)
| collect_tweet_analytics_msg (tweet_id : string) (user_id : Z)
                              (campaign_id : option Z) (countdown : Z).

(** The effects of an execution that the outside can observe, in the
    order they happen. *)
Inductive event : Type :=
| EvCreateTweet (text : string)          (* the call of the Twitter API *)
| EvCommit (row : ScheduledTweet.t)      (* a commit that wrote this row *)
| EvSend (m : message)                   (* a message accepted by the broker *)
| EvTaskError (e : exn).                 (* logging.error("Tweet posting task error") *)

(** The state an execution threads through: the committed database, the
    [scheduled_tweet] object loaded in the session (attribute assignments
    change it, commits write it), the effects so far and the number of
    database operations issued. *)
Record tstate : Type := mk_tstate {
  st_db : database;
  st_tweet : option ScheduledTweet.t;
  st_trace : list event;
  st_ops : nat
}.

Definition task (A : Type) : Type := environment -> tstate -> result A * tstate.

Definition ret {A : Type} (a : A) : task A := fun _ s => (Ok a, s).

Definition bind {A B : Type} (c : task A) (k : A -> task B) : task B :=
  fun env s =>
    match c env s with
    | (Ok a, s') => k a env s'
    | (Raise e, s') => (Raise e, s')
    end.

Definition raise {A : Type} (e : exn) : task A := fun _ s => (Raise e, s).

(** [try: c except Exception as e: h e].  What [c] did to the state before
    it raised stays done. *)
Definition try_except {A : Type} (c : task A) (h : exn -> task A) : task A :=
  fun env s =>
    match c env s with
    | (Ok a, s') => (Ok a, s')
    | (Raise e, s') => h e env s'
    end.

Declare Scope task_scope.
Delimit Scope task_scope with task.
Notation "x <- c ;; k" := (bind c (fun x => k))
  (at level 100, c at next level, right associativity) : task_scope.
Notation "c ;; k" := (bind c (fun _ => k))
  (at level 100, right associativity) : task_scope.
Local Open Scope task_scope.

Definition emit (ev : event) : task unit :=
  fun _ s => (Ok tt, mk_tstate (st_db s) (st_tweet s) (st_trace s ++ [ev]) (st_ops s)).

(** A database operation: it raises when the database is down, which it
    is from operation [k] on when [db_fault = Some k]. *)
Definition db_down (env : environment) (s : tstate) : bool :=
  match db_fault env with
  | Some k => (k <=? st_ops s)%nat
  | None => false
  end.

Definition db_op {A : Type} (f : tstate -> A * tstate) : task A :=
  fun env s =>
    let s1 := mk_tstate (st_db s) (st_tweet s) (st_trace s) (S (st_ops s)) in
    if db_down env s
    then (Raise (OperationalError "database unavailable"), s1)
    else let (a, s2) := f s1 in (Ok a, s2).

(** [ScheduledTweet.query.get(pk)]: the row, which the session now holds. *)
Definition query_get_tweet (pk : Z) : task (option ScheduledTweet.t) :=
  db_op (fun s =>
    let row := get_tweet (st_db s) pk in
    (row, mk_tstate (st_db s) row (st_trace s) (st_ops s))).

(** [User.query.get(pk)] *)
Definition query_get_user (pk : Z) : task (option User.t) :=
  db_op (fun s => (get_user (st_db s) pk, s)).

(** An attribute assignment on [scheduled_tweet]. *)
Definition assign (f : ScheduledTweet.t -> ScheduledTweet.t) : task unit :=
  fun _ s =>
    (Ok tt, mk_tstate (st_db s) (option_map f (st_tweet s)) (st_trace s) (st_ops s)).

(** The [UPDATE] a commit issues for the session's object. *)
Definition write_row (row : ScheduledTweet.t) (l : list ScheduledTweet.t)
  : list ScheduledTweet.t :=
  map (fun t => if ScheduledTweet.id t =? ScheduledTweet.id row then row else t) l.

(** [db.session.commit()] *)
Definition commit : task unit :=
  db_op (fun s =>
    match st_tweet s with
    | Some row =>
        (tt, mk_tstate (with_tweets (write_row row (tweets (st_db s))) (st_db s))
                       (st_tweet s) (st_trace s ++ [EvCommit row]) (st_ops s))
    | None => (tt, s)
    end).

(** [task.apply_async(args, countdown)]: the broker takes the message or
    the call raises. *)
Definition apply_async (m : message) : task unit :=
  fun env s =>
    if broker_up env
    then emit (EvSend m) env s
    else (Raise (OperationalError "broker unavailable"), s).

(** [TwitterService.post_tweet] *)
Definition post_tweet (content access_token access_token_secret : string)
  : task string :=
  emit (EvCreateTweet content) ;;
  fun env s =>
    match create_tweet env content access_token access_token_secret with
    | ApiData id => (Ok id, s)
    | ApiNoData =>
        (Raise (Exception ("Failed to post tweet: " ++ "No tweet ID returned")), s)
    | ApiError msg => (Raise (Exception ("Failed to post tweet: " ++ msg)), s)
    end.

(** [TwitterService.validate_credentials]: [me.data is not None], and
    [False] on any exception. *)
Definition validate_credentials (access_token access_token_secret : string)
  : task bool :=
  fun env s =>
    match get_me env access_token access_token_secret with
    | ApiData _ => (Ok true, s)
    | ApiNoData => (Ok false, s)
    | ApiError _ => (Ok false, s)
    end.

(** [self.request] of a bound task. *)
Record request : Type := mk_request { retries : Z }.

(** [@celery_app.task(bind=True, max_retries=3)] *)
Definition max_retries : Z := 3.

(** Celery's [Task.retry(countdown=...)] for the publish task: past
    [max_retries] it raises [MaxRetriesExceededError]; otherwise it sends
    the task again, with the same arguments and one more retry, and raises
    [Retry]; when the broker refuses the message it raises [Reject]. *)
Definition retry (self : request) (scheduled_tweet_id : Z) (countdown : Z)
  : task unit :=
  let retries' := retries self + 1 in
  if max_retries <? retries'
  then raise MaxRetriesExceededError
  else
    try_except
      (apply_async (schedule_tweet_msg scheduled_tweet_id retries' countdown))
      (fun exc => raise (Reject (exn_str exc))) ;;
    raise (Retry countdown).

(** [str] of an optional string column used as an argument. *)
Definition str_of (s : option string) : string := default "" s.

(** The inner [try] block of [schedule_tweet_task] and its handler. *)
Definition post_and_record (self : request) (scheduled_tweet_id : Z)
    (scheduled_tweet : ScheduledTweet.t) (user : User.t) : task unit :=
  try_except
    (tweet_id <- post_tweet (ScheduledTweet.content scheduled_tweet)
                            (str_of (User.twitter_access_token user))
                            (str_of (User.twitter_access_token_secret user)) ;;
     (* Update the scheduled tweet record *)
     assign (ScheduledTweet.set_status "posted") ;;
     assign (ScheduledTweet.set_tweet_id (Some tweet_id)) ;;
     (fun env => assign (ScheduledTweet.set_posted_at (Some (utcnow env))) env) ;;
     assign (ScheduledTweet.set_error_message None) ;;
     commit ;;
     (* Schedule analytics collection *)
     apply_async (collect_tweet_analytics_msg tweet_id (User.id user)
                    (ScheduledTweet.campaign_id scheduled_tweet) 300))
    (fun e =>
     (* Handle posting error *)
     assign (ScheduledTweet.set_status "failed") ;;
     assign (ScheduledTweet.set_error_message (Some (exn_str e))) ;;
     commit ;;
     retry self scheduled_tweet_id (60 * 2 ^ retries self)).

(** The outer [try] block of [schedule_tweet_task]. *)
Definition schedule_tweet_task_body (self : request) (scheduled_tweet_id : Z)
  : task unit :=
  (* Get the scheduled tweet *)
  found <- query_get_tweet scheduled_tweet_id ;;
  match found with
  | None => ret tt
  | Some scheduled_tweet =>
      (* Check if already posted or cancelled *)
      if negb (String.eqb (ScheduledTweet.status scheduled_tweet) "scheduled")
      then ret tt
      else
        (* Get user's Twitter credentials *)
        user <- query_get_user (ScheduledTweet.user_id scheduled_tweet) ;;
        match user with
        | None =>
            assign (ScheduledTweet.set_status "failed") ;;
            assign (ScheduledTweet.set_error_message
                      (Some "Twitter authentication required")) ;;
            commit
        | Some user =>
            if negb (has_twitter_auth user)
            then
              assign (ScheduledTweet.set_status "failed") ;;
              assign (ScheduledTweet.set_error_message
                        (Some "Twitter authentication required")) ;;
              commit
            else
              (* Validate credentials before posting *)
              valid <- validate_credentials
                         (str_of (User.twitter_access_token user))
                         (str_of (User.twitter_access_token_secret user)) ;;
              if negb valid
              then
                assign (ScheduledTweet.set_status "failed") ;;
                assign (ScheduledTweet.set_error_message
                          (Some "Invalid Twitter credentials")) ;;
                commit
              else
                (* Post the tweet *)
                post_and_record self scheduled_tweet_id scheduled_tweet user
        end
  end.

(** [schedule_tweet_task]: the outer handler logs the exception and
    returns; it does not retry. *)
Definition schedule_tweet_task (self : request) (scheduled_tweet_id : Z)
  : task unit :=
  try_except (schedule_tweet_task_body self scheduled_tweet_id)
             (fun e => emit (EvTaskError e)).

(** One execution of the publish task by a worker, from a fresh session:
    the database and the effects it leaves. *)
Definition run_schedule_tweet_task (env : environment) (self : request)
    (scheduled_tweet_id : Z) (db : database) : database * list event :=
  let '(_, s) := schedule_tweet_task self scheduled_tweet_id env
                   (mk_tstate db None [] 0) in
  (st_db s, st_trace s).

(** The messages an execution sent. *)
Fixpoint sent (tr : list event) : list message :=
  match tr with
  | [] => []
  | EvSend m :: tr => m :: sent tr
  | _ :: tr => sent tr
  end.

(** The number of calls of the Twitter API in a trace. *)
Fixpoint api_calls (tr : list event) : nat :=
  match tr with
  | [] => O
  | EvCreateTweet _ :: tr => S (api_calls tr)
  | _ :: tr => api_calls tr
  end.

(** Every message of the analytics task in the trace [tr] comes after a
    commit, in [tr] or among the rows [committed] before it, that wrote
    the post [scheduled_tweet_id] in state posted with the tweet id, owner
    and campaign the message carries, and has a countdown of 300. *)
Fixpoint analytics_follow_commit (scheduled_tweet_id : Z)
    (committed : list ScheduledTweet.t) (tr : list event) : Prop :=
  match tr with
  | [] => True
  | EvCommit row :: tr =>
      analytics_follow_commit scheduled_tweet_id (row :: committed) tr
  | EvSend (collect_tweet_analytics_msg tweet_id user_id campaign_id countdown)
    :: tr =>
      (countdown = 300
       /\ exists row : ScheduledTweet.t,
           In row committed
           /\ ScheduledTweet.id row = scheduled_tweet_id
           /\ ScheduledTweet.status row = "posted"
           /\ ScheduledTweet.tweet_id row = Some tweet_id
           /\ ScheduledTweet.user_id row = user_id
           /\ ScheduledTweet.campaign_id row = campaign_id)
      /\ analytics_follow_commit scheduled_tweet_id committed tr
  | _ :: tr => analytics_follow_commit scheduled_tweet_id committed tr
  end.

(** The owner of a post exists, has a token and a secret, and Twitter
    accepts them: the two checks the publish task makes before it posts. *)
Definition credentials_ok (env : environment) (db : database)
    (t : ScheduledTweet.t) : bool :=
  match get_user db (ScheduledTweet.user_id t) with
  | None => false
  | Some user =>
      has_twitter_auth user
      && match get_me env (str_of (User.twitter_access_token user))
                      (str_of (User.twitter_access_token_secret user)) with
         | ApiData _ => true
         | _ => false
         end
  end.

(** The call of Twitter for a post raises: [post_tweet] gets an exception
    of the client or a response without data. *)
Definition publish_raises (env : environment) (db : database)
    (t : ScheduledTweet.t) : bool :=
  match get_user db (ScheduledTweet.user_id t) with
  | None => false
  | Some user =>
      match create_tweet env (ScheduledTweet.content t)
                         (str_of (User.twitter_access_token user))
                         (str_of (User.twitter_access_token_secret user)) with
      | ApiData _ => false
      | _ => true
      end
  end.

(** The invariant of the specification on a row: a tweet id is recorded
    if and only if the status is ['posted']. *)
Definition tweet_id_iff_posted (t : ScheduledTweet.t) : Prop :=
  ScheduledTweet.tweet_id t <> None <-> ScheduledTweet.status t = "posted".

(** The worker of the publish queue: it takes the messages in order,
    executes the publish task for each with the retry count the message
    carries, and queues the messages the execution sent; a message of the
    analytics task belongs to another queue and is passed over.  [fuel]
    bounds the number of deliveries; the result is the database, the
    effects of all deliveries and the messages still queued. *)
Fixpoint worker (fuel : nat) (env : environment) (db : database)
    (queue : list message) : database * list event * list message :=
  match fuel, queue with
  | O, _ => (db, [], queue)
  | _, [] => (db, [], [])
  | S fuel, schedule_tweet_msg pk n _ :: queue =>
      let '(db1, tr1) := run_schedule_tweet_task env (mk_request n) pk db in
      let '(db2, tr2, pending) := worker fuel env db1 (queue ++ sent tr1) in
      (db2, (tr1 ++ tr2)%list, pending)
  | S fuel, collect_tweet_analytics_msg _ _ _ _ :: queue =>
      worker fuel env db queue
  end.

(** ** Further definitions, for the properties beyond the claims *)

(** The rows an execution committed, in order. *)
Fixpoint commits (tr : list event) : list ScheduledTweet.t :=
  match tr with
  | [] => []
  | EvCommit row :: tr => row :: commits tr
  | _ :: tr => commits tr
  end.

(** Two rows are the same post: they agree on the columns no code assigns
    after the insert. *)
Definition same_post (t t' : ScheduledTweet.t) : Prop :=
  ScheduledTweet.id t' = ScheduledTweet.id t
  /\ ScheduledTweet.content t' = ScheduledTweet.content t
  /\ ScheduledTweet.scheduled_time t' = ScheduledTweet.scheduled_time t
  /\ ScheduledTweet.created_at t' = ScheduledTweet.created_at t
  /\ ScheduledTweet.user_id t' = ScheduledTweet.user_id t
  /\ ScheduledTweet.campaign_id t' = ScheduledTweet.campaign_id t.

(** The table after the given rows were written one after the other. *)
Definition write_rows (rows : list ScheduledTweet.t) (l : list ScheduledTweet.t)
  : list ScheduledTweet.t :=
  fold_left (fun acc row => write_row row acc) rows l.

(** *** services/ai_service.py: generate_tweet_content

    [response] is what the call of the model gave: a response with its
    [text], which may be [None], or an exception.  [strip] is [str.strip];
    the properties below hold for whatever it removes. *)
Section GenerateTweetContent.

Variable strip : string -> string.

(** [response.text.strip() if response.text else ""] *)
Definition response_content (text : option string) : string :=
  match text with
  | Some s => if String.eqb s "" then "" else strip s
  | None => ""
  end.

Definition generate_tweet_content (response : result (option string))
  : result string :=
  match response with
  | Raise e => Raise (Exception ("Failed to generate content: " ++ exn_str e))
  | Ok text =>
      let content := response_content text in
      (* Ensure content is within Twitter's character limit *)
      if (280 <? str_len content)%nat
      then Ok (str_prefix 277 content ++ "...")
      else Ok content
  end.

(** The content generation gateway of a request whose [n]-th call of the
    model gives [responses n]. *)
Definition ai_of (responses : nat -> result (option string)) : ai_service :=
  fun n => generate_tweet_content (responses n).

End GenerateTweetContent.

(** A row the batch scheduler may add: one of the given texts, for the
    campaign and its owner, on the hour. *)
Definition campaign_row (campaign : Campaign.t) (campaign_id : Z)
    (tweet_contents : list string) (p : pending_tweet) : Prop :=
  In (p_content p) tweet_contents
  /\ p_user_id p = Campaign.user_id campaign
  /\ p_campaign_id p = Some campaign_id
  /\ 0 <= hour (p_scheduled_time p) <= 23
  /\ minute (p_scheduled_time p) = 0
  /\ second (p_scheduled_time p) = 0.

(** The loop invariant of the batch scheduler: the count is the number of
    rows added, and the rows are rows of the campaign. *)
Definition sched_inv (campaign : Campaign.t) (campaign_id : Z)
    (tweet_contents : list string) (st : sched_state) : Prop :=
  scheduled_count st = Z.of_nat (length (session st))
  /\ List.Forall (campaign_row campaign campaign_id tweet_contents) (session st).

(** *** routes.py: schedule_tweet

    The form gives the content, the scheduled time, which
    [datetime.fromisoformat] parses or rejects with an exception, and the
    campaign id, [None] when the field is missing or empty.
    [check_spam_content] is the answer of [AIService.check_spam_content],
    which returns a flag and raises nothing.  [database_accepts] tells
    whether the commit goes through or raises, and [broker_accepts]
    whether [apply_async] does; after either exception the handler rolls
    back, which undoes a commit that did not go through and nothing of one
    that did.  The route answers with a flashed message and its category,
    and the tasks it queued: the id given to [schedule_tweet_task] and the
    [eta]. *)
Record route_result : Type := mk_route_result {
  flashed : string * string;
  queued : list (Z * datetime)
}.

Definition schedule_tweet (check_spam_content : string -> bool)
    (database_accepts broker_accepts : bool) (now : datetime)
    (current_user_id : Z) (content : string) (scheduled_time : result datetime)
    (campaign_id : option Z) (db : database) : route_result * database :=
  match scheduled_time with
  | Raise _ =>
      (mk_route_result ("Failed to schedule tweet. Please try again.", "error") [],
       db)
  | Ok scheduled_time =>
      (* Check content length *)
      if (280 <? str_len content)%nat
      then (mk_route_result ("Tweet content exceeds 280 characters", "error") [], db)
      (* Check for spam patterns *)
      else if check_spam_content content
      then (mk_route_result
              ("Content flagged as potential spam. Please revise.", "warning") [],
            db)
      else
        let scheduled_tweet :=
          mk_pending content scheduled_time current_user_id campaign_id in
        if negb database_accepts
        then (mk_route_result
                ("Failed to schedule tweet. Please try again.", "error") [],
              db)
        else
          let pk := next_tweet_id (tweets db) in
          let db' := commit_tweets now [scheduled_tweet] db in
          (* Schedule the background task *)
          if broker_accepts
          then (mk_route_result ("Tweet scheduled successfully!", "success")
                                [(pk, scheduled_time)],
                db')
          else (mk_route_result
                  ("Failed to schedule tweet. Please try again.", "error") [],
                db')
  end.

(** *** services/twitter_service.py: get_tweet_analytics

    What [tweepy.Client.get_tweet] gives: a tweet with its public metrics,
    a response without data, or an exception. *)
Inductive metrics_response : Type :=
| MetricsData (public_metrics : gmap string Z)
| MetricsNoData
| MetricsError (msg : string).

(** The counters of the returned dictionary; its [created_at] entry, which
    no reader of the dictionary uses, is left out. *)
Definition get_tweet_analytics (response : metrics_response) : gmap string Z :=
  match response with
  | MetricsData metrics =>
      {[ "likes" := dict_get metrics "like_count" 0;
         "retweets" := dict_get metrics "retweet_count" 0;
         "replies" := dict_get metrics "reply_count" 0;
         "impressions" := dict_get metrics "impression_count" 0 ]}
  | MetricsNoData => ∅
  | MetricsError _ => ∅
  end.

(** The truth value of a dictionary: it is not empty. *)
Definition dict_truthy (d : gmap string Z) : bool := negb (bool_decide (d = ∅)).

(** *** tasks.py: collect_tweet_analytics *)

(** [@celery_app.task(bind=True, max_retries=2)] *)
Definition collect_max_retries : Z := 2.

(** Celery's [Task.retry(countdown=...)] for the analytics task. *)
Definition retry_collect (self : request) (tweet_id : string) (user_id : Z)
    (campaign_id : option Z) (countdown : Z) : task unit :=
  let retries' := retries self + 1 in
  if collect_max_retries <? retries'
  then raise MaxRetriesExceededError
  else
    try_except
      (apply_async (collect_tweet_analytics_msg tweet_id user_id campaign_id
                                                countdown))
      (fun exc => raise (Reject (exn_str exc))) ;;
    raise (Retry countdown).

(** [AnalyticsService.update_tweet_analytics] as the task runs it: the
    query of the existing record and the commit are operations of the
    database; when one raises, the handler rolls back and the database
    stays as it was. *)
Definition update_tweet_analytics_in_task (tweet_id : string)
    (analytics_data : gmap string Z) (user_id : Z) (campaign_id : option Z)
  : task unit :=
  try_except
    (db_op (fun s => (tt, s)) ;;
     fun env =>
       db_op (fun s =>
         (tt, mk_tstate (update_tweet_analytics (utcnow env) (st_db s) tweet_id
                           analytics_data user_id campaign_id)
                        (st_tweet s) (st_trace s) (st_ops s))) env)
    (fun _ => ret tt).

(** [collect_tweet_analytics]; [metrics_api] is the answer of Twitter for
    a tweet id under a token and a secret. *)
Definition collect_tweet_analytics
    (metrics_api : string -> string -> string -> metrics_response)
    (self : request) (tweet_id : string) (user_id : Z) (campaign_id : option Z)
  : task unit :=
  try_except
    (user <- query_get_user user_id ;;
     match user with
     | None => ret tt
     | Some user =>
         if negb (has_twitter_auth user)
         then ret tt
         else
           (* Get tweet analytics from Twitter *)
           let analytics_data :=
             get_tweet_analytics
               (metrics_api tweet_id (str_of (User.twitter_access_token user))
                            (str_of (User.twitter_access_token_secret user))) in
           if dict_truthy analytics_data
           then update_tweet_analytics_in_task tweet_id analytics_data user_id
                                               campaign_id
           else ret tt
     end)
    (fun e =>
       if retries self <? collect_max_retries
       then retry_collect self tweet_id user_id campaign_id 300
       else ret tt).

(** One execution of the analytics task by a worker: what it returns or
    raises, the database and the effects it leaves. *)
Definition run_collect_tweet_analytics (env : environment)
    (metrics_api : string -> string -> string -> metrics_response)
    (self : request) (tweet_id : string) (user_id : Z) (campaign_id : option Z)
    (db : database) : result unit * database * list event :=
  let '(r, s) := collect_tweet_analytics metrics_api self tweet_id user_id
                   campaign_id env (mk_tstate db None [] 0) in
  (r, st_db s, st_trace s).

(** *** services/campaign_service.py: _get_campaign_recommendations

    [avg_engagement], [tweet_count] and [likes] are the entries of the
    analytics dictionary, 0 where it has none.  A campaign without a
    frequency makes the comparison with 2 raise [TypeError]. *)
Definition get_campaign_recommendations (campaign : Campaign.t)
    (avg_engagement : PrimFloat.float) (tweet_count likes : Z)
  : result (list string) :=
  match Campaign.tweet_frequency campaign with
  | None =>
      Raise (TypeError "'<' not supported between instances of 'NoneType' and 'int'")
  | Some tweet_frequency =>
      (* Analyze engagement rate *)
      let r1 :=
        if PrimFloat.ltb avg_engagement 2%float
        then ["Consider using more engaging content formats and trending hashtags"]
        else if PrimFloat.ltb 5%float avg_engagement
        then ["Great engagement! Consider increasing posting frequency"]
        else [] in
      (* Analyze posting frequency *)
      let r2 :=
        if tweet_frequency <? 2
        then ["Consider increasing posting frequency to maintain audience engagement"]
        else if 5 <? tweet_frequency
        then ["High posting frequency detected - ensure content quality remains high"]
        else [] in
      (* Analyze content performance *)
      let r3 :=
        if 0 <? tweet_count
        then if PrimFloat.ltb (truediv likes tweet_count) (float_of_int 5)
             then ["Focus on creating more shareable and relatable content"]
             else []
        else [] in
      let recommendations := (r1 ++ r2 ++ r3)%list in
      (* Default recommendations if none generated *)
      match recommendations with
      | [] =>
          Ok ["Continue monitoring campaign performance regularly";
              "Experiment with different posting times";
              "Engage with your audience through replies and interactions"]
      | _ :: _ => Ok recommendations
      end
  end.

(** ** Example data

    A small database and environments on which the definitions above are
    evaluated. *)
Module Examples.

Definition alice : User.t := User.mk 5 (Some "token") (Some "secret").

Definition morning : datetime := mk_datetime 739000 9 30 15 0.

(** A campaign with an empty JSON list of keywords and no hashtags. *)
Definition spring : Campaign.t :=
  Campaign.mk 7 (Some "[]") None (Some 3) true (add_days morning (-3)) 5.

(** A campaign created through the web form: its keywords are the raw
    text of the field, which is no JSON. *)
Definition summer : Campaign.t :=
  Campaign.mk 8 (Some "python, ai") None (Some 3) true (add_days morning (-3)) 5.

(** [json.loads] on the texts of the examples. *)
Definition loads : json_loader := fun text =>
  if String.eqb text "[]" then Ok (JsonList [])
  else if String.eqb text "{}" then Ok (JsonDict [])
  else if String.eqb text "7" then Ok JsonScalar
  else Raise (ValueError "Expecting value: line 1 column 1 (char 0)").

(** A post of the campaign, due on [morning], not yet published. *)
Definition post1 : ScheduledTweet.t :=
  ScheduledTweet.mk 1 "hello" morning "scheduled" None None
                    (add_days morning (-2)) None 5 (Some 7).

(** The post once published as tweet ["99"] at [morning]. *)
Definition post1_posted : ScheduledTweet.t :=
  ScheduledTweet.mk 1 "hello" morning "posted" (Some "99") None
                    (add_days morning (-2)) (Some morning) 5 (Some 7).

(** The post once publishing it failed with a 503 of Twitter. *)
Definition post1_failed : ScheduledTweet.t :=
  ScheduledTweet.mk 1 "hello" morning "failed" None
                    (Some "Failed to post tweet: 503 Service Unavailable")
                    (add_days morning (-2)) None 5 (Some 7).

(** The post published as tweet ["99"] and then marked failed. *)
Definition post1_failed_posted : ScheduledTweet.t :=
  ScheduledTweet.mk 1 "hello" morning "failed" (Some "99")
                    (Some "broker unavailable")
                    (add_days morning (-2)) (Some morning) 5 (Some 7).

Definition db0 : database := mk_db [alice] [spring] [post1] [] [].

(** A database with the campaign and no post yet. *)
Definition db_empty : database := mk_db [alice] [spring] [] [] [].

(** A database whose one campaign was created through the web form. *)
Definition db_summer : database := mk_db [alice] [summer] [] [] [].

(** The letter e with an acute accent: one code point, two bytes. *)
Definition e_acute : string := String "195"%char (String "169"%char EmptyString).

(** A text of 150 accented letters: 150 code points, 300 bytes. *)
Definition accented : string := String.concat "" (repeat e_acute 150).

(** A content generator with six different texts. *)
Definition six_texts : ai_service := fun n =>
  match n with
  | 0%nat => Ok "one" | 1%nat => Ok "two" | 2%nat => Ok "three"
  | 3%nat => Ok "four" | 4%nat => Ok "five" | _ => Ok "six"
  end.

(** A content generator that is down. *)
Definition no_text : ai_service := fun _ =>
  Raise (Exception "Failed to generate content: unavailable").

(** Twitter accepts the credentials; publishing always fails. *)
Definition env_twitter_down : environment :=
  mk_env morning (fun _ _ _ => ApiError "503 Service Unavailable")
         (fun _ _ => ApiData "5") None true.

(** Twitter publishes the tweet as ["99"]; the broker is up. *)
Definition env_ok : environment :=
  mk_env morning (fun _ _ _ => ApiData "99") (fun _ _ => ApiData "5") None true.

(** Twitter publishes the tweet as ["99"]; the broker is down. *)
Definition env_broker_down : environment :=
  mk_env morning (fun _ _ _ => ApiData "99") (fun _ _ => ApiData "5") None false.

(** The database fails at the lookup of the user (its second operation). *)
Definition env_db_down : environment :=
  mk_env morning (fun _ _ _ => ApiData "99") (fun _ _ => ApiData "5")
         (Some 1%nat) true.


(** The metrics of a tweet: 50 engagements on 100 impressions. *)
Definition metrics : gmap string Z :=
  {[ "likes" := 30; "retweets" := 15; "replies" := 5; "impressions" := 100 ]}.

(** Twitter's public metrics of a tweet; the impressions are left out. *)
Definition public_metrics : gmap string Z :=
  {[ "like_count" := 30; "retweet_count" := 15; "reply_count" := 5 ]}.

End Examples.

(** * Properties *)

Local Open Scope list_scope.

(** ** Dates and times *)

(** On datetimes with fields in range, the order of [micros] is the order
    of Python, field by field. *)
Lemma micros_lt_lex (a b : datetime) :
  Datetime.wf a -> Datetime.wf b -> (micros a < micros b <-> lex_lt a b).
Proof.
  unfold Datetime.wf, micros, lex_lt. intros Ha Hb. lia.
Qed.

Lemma add_days_wf (d : datetime) (n : Z) : Datetime.wf d -> Datetime.wf (add_days d n).
Proof. unfold Datetime.wf, add_days. cbn. tauto. Qed.

Lemma replace_hour_wf (d d' : datetime) (h : Z) :
  Datetime.wf d -> replace_hour d h = Ok d' -> Datetime.wf d'.
Proof.
  unfold Datetime.wf, replace_hour.
  destruct (Z.leb_spec 0 h), (Z.leb_spec h 23); cbn; try discriminate.
  intros Hd [= <-]. cbn. lia.
Qed.

(** ** The campaign batch scheduler *)

Section Distribution.

Lemma hour_in_range (frequency i : Z) :
  1 <= frequency -> 0 <= i < frequency ->
  0 <= (i + 1) * (24 / (frequency + 1)) < 24.
Proof.
  intros HN Hi.
  assert (Hq : 0 <= 24 / (frequency + 1)) by (apply Z.div_pos; lia).
  assert (Hm : (frequency + 1) * (24 / (frequency + 1)) <= 24)
    by (apply Z.mul_div_le; lia).
  split; [nia|].
  destruct (Z.eq_dec (24 / (frequency + 1)) 0) as [E|E]; [rewrite E; lia|nia].
Qed.

Lemma nth_error_drop_none {A : Type} (l : list A) (j : nat) :
  nth_error l j = None -> drop j l = [].
Proof.
  revert j; induction l as [|x l IH]; intros [|j]; simpl; intros H;
    try discriminate; auto.
Qed.

Lemma nth_error_drop_some {A : Type} (l : list A) (j : nat) (x : A) :
  nth_error l j = Some x -> drop j l = x :: drop (S j) l.
Proof.
  revert j; induction l as [|y l IH]; intros [|j]; simpl; intros H;
    try discriminate.
  - injection H as ->. destruct l; reflexivity.
  - rewrite (IH _ H). reflexivity.
Qed.

Variables (campaign : Campaign.t) (campaign_id : Z) (frequency : Z).
Variable tweet_contents : list string.
Hypothesis frequency_pos : 1 <= frequency.

Lemma schedule_day_rows (current_date : datetime) (n a : nat) (st : sched_state) :
  (Z.of_nat (a + n) <= frequency) ->
  let texts := take n (drop (content_index st) tweet_contents) in
  schedule_day campaign campaign_id frequency tweet_contents current_date
               (map Z.of_nat (seq a n)) st
  = Ok (mk_sched (session st ++ imap (fun i => day_row campaign campaign_id frequency current_date (a + i)) texts)
                 (scheduled_count st + Z.of_nat (length texts))
                 (content_index st + length texts)).
Proof.
  revert a st; induction n as [|n IH]; intros a st Ha texts.
  - subst texts. simpl. destruct st; simpl.
    rewrite app_nil_r, Z.add_0_r, Nat.add_0_r. reflexivity.
  - simpl map. cbn [schedule_day].
    destruct (nth_error tweet_contents (content_index st)) as [text|] eqn:E.
    + subst texts. rewrite (nth_error_drop_some _ _ _ E).
      unfold hour_offset.
      destruct (Z.eqb_spec (frequency + 1) 0) as [?|_]; [lia|].
      unfold replace_hour.
      pose proof (hour_in_range frequency (Z.of_nat a) frequency_pos ltac:(lia)) as Hh.
      destruct (Z.leb_spec 0 ((Z.of_nat a + 1) * (24 / (frequency + 1)))); [|lia].
      destruct (Z.leb_spec ((Z.of_nat a + 1) * (24 / (frequency + 1))) 23); [|lia].
      cbn [andb].
      rewrite IH by (cbn [session scheduled_count content_index]; lia).
      cbn [session scheduled_count content_index take imap length].
      f_equal. f_equal.
      * rewrite <- app_assoc. cbn [app]. f_equal. f_equal.
        -- unfold day_row. rewrite Nat.add_0_r. reflexivity.
        -- apply imap_ext. intros i x _. cbn. f_equal. lia.
      * lia.
      * lia.
    + subst texts. rewrite (nth_error_drop_none _ _ E).
      destruct st; simpl. rewrite app_nil_r, Z.add_0_r, Nat.add_0_r. reflexivity.
Qed.

Lemma schedule_loop_step (end_date current_date : datetime) (st : sched_state) :
  schedule_loop campaign campaign_id frequency tweet_contents end_date
                current_date st
  = if sched_continue end_date current_date tweet_contents st
    then match schedule_day campaign campaign_id frequency tweet_contents
                            current_date (range frequency) st with
         | Ok st' =>
             match next_day current_date with
             | Ok tomorrow =>
                 schedule_loop campaign campaign_id frequency tweet_contents
                               end_date tomorrow st'
             | Raise e => Raise e
             end
         | Raise e => Raise e
         end
    else Ok st.
Proof.
  destruct (sched_continue end_date current_date tweet_contents st) eqn:Hb;
    rewrite schedule_loop_equation_1;
    destruct (inspect (sched_continue end_date current_date tweet_contents st))
      as [[] Hb']; try congruence.
  - rewrite schedule_loop_clause_1_equation_1.
    destruct (schedule_day campaign campaign_id frequency tweet_contents
                current_date (range frequency) st) as [st'|e].
    + destruct (next_day current_date) as [tomorrow|e] eqn:Hn;
        rewrite schedule_loop_clause_1_clause_2_equation_1;
        destruct (inspect (next_day current_date)) as [[tomorrow'|e'] Hn'];
        try congruence.
      * rewrite schedule_loop_clause_1_clause_2_clause_2_equation_1.
        congruence.
      * rewrite schedule_loop_clause_1_clause_2_clause_2_equation_2.
        congruence.
    + rewrite schedule_loop_clause_1_clause_2_equation_2. reflexivity.
  - rewrite schedule_loop_clause_1_equation_2. reflexivity.
Qed.

Lemma next_day_ok (d : datetime) :
  day d < max_ordinal -> next_day d = Ok (add_days d 1).
Proof.
  unfold next_day. intros H.
  destruct (Z.leb_spec (day d + 1) max_ordinal); [reflexivity|lia].
Qed.

Lemma days_left_zero (end_date current_date : datetime) :
  days_left end_date current_date = O -> leb current_date end_date = false.
Proof.
  unfold days_left, leb. intros H.
  apply Z.leb_gt.
  destruct (Z_lt_le_dec (micros end_date) (micros current_date)) as [?|Hle]; [assumption|].
  assert (0 <= (micros end_date - micros current_date) / us_per_day)
    by (apply Z.div_pos; unfold us_per_day; lia).
  lia.
Qed.

Lemma days_left_succ (end_date current_date : datetime) (D : nat) :
  days_left end_date current_date = S D ->
  leb current_date end_date = true
  /\ days_left end_date (add_days current_date 1) = D.
Proof.
  unfold days_left, leb. intros H.
  assert (Hm : micros (add_days current_date 1) = micros current_date + us_per_day)
    by (unfold micros, add_days, us_per_day;
        cbn [day hour minute second microsecond]; lia).
  rewrite Hm.
  replace (micros end_date - (micros current_date + us_per_day))
    with (micros end_date - micros current_date + (-1) * us_per_day) by lia.
  rewrite Z.div_add by (unfold us_per_day; lia).
  split; [|lia].
  apply Z.leb_le.
  destruct (Z_lt_le_dec (micros end_date) (micros current_date)) as [Hlt|?]; [|assumption].
  assert ((micros end_date - micros current_date) / us_per_day < 0)
    by (apply Z.div_lt_upper_bound; unfold us_per_day; lia).
  lia.
Qed.

Lemma drop_length_take {A : Type} (n : nat) (l : list A) :
  drop (length (take n l)) l = drop n l.
Proof.
  rewrite length_take.
  destruct (Nat.min_spec n (length l)) as [[_ ->]|[Hle ->]]; [reflexivity|].
  rewrite !drop_ge by lia. reflexivity.
Qed.

Lemma schedule_loop_rows (end_date : datetime) (D : nat) :
  forall (current_date : datetime) (st : sched_state),
    days_left end_date current_date = D ->
    day current_date + Z.of_nat D <= max_ordinal ->
    let texts := take (D * Z.to_nat frequency)
                      (drop (content_index st) tweet_contents) in
    schedule_loop campaign campaign_id frequency tweet_contents end_date
                  current_date st
    = Ok (mk_sched (session st ++ imap (loop_row campaign campaign_id frequency current_date) texts)
                   (scheduled_count st + Z.of_nat (length texts))
                   (content_index st + length texts)).
Proof.
  induction D as [|D IH]; intros current_date st HD Hmax texts.
  - rewrite schedule_loop_step. unfold sched_continue.
    rewrite (days_left_zero _ _ HD). cbn [andb].
    subst texts. destruct st; simpl.
    rewrite app_nil_r, Z.add_0_r, Nat.add_0_r. reflexivity.
  - destruct (days_left_succ _ _ _ HD) as [Hle HD'].
    rewrite schedule_loop_step. unfold sched_continue. rewrite Hle. cbn [andb].
    destruct (Nat.ltb_spec (content_index st) (length tweet_contents)) as [Hlt|Hge].
    + set (N := Z.to_nat frequency) in *.
      assert (HN : Z.of_nat N = frequency) by (subst N; lia).
      unfold range. fold N. clearbody N.
      rewrite (schedule_day_rows current_date N 0 st) by lia.
      rewrite next_day_ok by lia.
      set (L := drop (content_index st) tweet_contents) in *.
      set (m := take N L).
      rewrite (IH (add_days current_date 1) _ HD')
        by (unfold add_days; cbn [day]; lia).
      cbn [session scheduled_count content_index].
      assert (Hdrop : drop (content_index st + length m) tweet_contents = drop N L).
      { subst m L. rewrite <- drop_drop. apply drop_length_take. }
      rewrite Hdrop.
      assert (Htexts : texts = m ++ take (D * N) (drop N L)).
      { subst texts m. cbn [Nat.mul]. symmetry. apply take_take_drop. }
      rewrite Htexts. rewrite imap_app, length_app.
      f_equal. f_equal.
      * rewrite <- app_assoc. f_equal. f_equal.
        -- apply imap_ext. intros i x Hi.
           apply lookup_lt_Some in Hi.
           assert (Hi' : (i < N)%nat)
             by (subst m; rewrite length_take in Hi; lia).
           unfold day_row, loop_row. cbn [Nat.add].
           rewrite (Z.div_small (Z.of_nat i) frequency),
             (Z.mod_small (Z.of_nat i) frequency) by lia.
           rewrite Z.add_0_r. reflexivity.
        -- destruct (Nat.le_gt_cases N (length L)) as [HNL|HNL].
           ++ apply imap_ext. intros i x _.
              assert (Hm : length m = N) by (subst m; rewrite length_take; lia).
              rewrite Hm. unfold loop_row, add_days.
              cbn [day hour minute second microsecond].
              replace (Z.of_nat (N + i)) with (Z.of_nat i + 1 * frequency) by lia.
              rewrite Z.div_add, Z.mod_add by lia.
              f_equal. f_equal. lia.
           ++ rewrite (drop_ge L N) by lia. rewrite take_nil. reflexivity.
      * lia.
      * lia.
    + subst texts. rewrite (drop_ge tweet_contents (content_index st)) by lia.
      rewrite take_nil. destruct st; simpl.
      rewrite app_nil_r, Z.add_0_r, Nat.add_0_r. reflexivity.
Qed.

End Distribution.

Lemma generate_loop_length (ai : ai_service) (n : nat) :
  forall (i : nat) (acc l : list string),
    generate_loop ai n i acc = Ok l -> (length l <= length acc + n)%nat.
Proof.
  induction n as [|n IH]; intros i acc l; cbn [generate_loop].
  - intros [= <-]. lia.
  - destruct (ai i) as [content|e]; [|discriminate].
    destruct (negb (String.eqb content "") && negb (str_in content acc)); intros H;
      apply IH in H; [rewrite length_app in H; cbn in H|]; lia.
Qed.

Lemma generate_campaign_content_length (json_loads : json_loader)
    (ai : ai_service) (db : database) (campaign_id num_tweets : Z) :
  (length (generate_campaign_content json_loads ai db campaign_id num_tweets)
   <= Z.to_nat num_tweets)%nat.
Proof.
  unfold generate_campaign_content.
  destruct (get_campaign db campaign_id) as [campaign|]; [|cbn; lia].
  destruct (loads_or_empty json_loads (Campaign.keywords campaign))
    as [keywords|]; [|cbn; lia].
  destruct (loads_or_empty json_loads (Campaign.hashtags campaign))
    as [hashtags|]; [|cbn; lia].
  destruct (generate_loop _ (Z.to_nat num_tweets) 0 []) as [l|e] eqn:E;
    [|cbn; lia].
  apply generate_loop_length in E. cbn in E. lia.
Qed.

Lemma insert_tweets_imap (now : datetime) (texts : list string) :
  forall (pk : Z) (f : nat -> string -> pending_tweet),
    insert_tweets now pk (imap f texts)
    = imap (fun k text => insert_tweet now (pk + Z.of_nat k) (f k text)) texts.
Proof.
  induction texts as [|x l IH]; intros pk f; cbn; [reflexivity|].
  rewrite Z.add_0_r. f_equal. rewrite IH.
  apply imap_ext. intros k y _. cbn. f_equal. lia.
Qed.

Lemma map_content_imap (f : nat -> string -> pending_tweet) (l : list string) :
  (forall i x, p_content (f i x) = x) -> map p_content (imap f l) = l.
Proof.
  revert f; induction l as [|x l IH]; intros f Hf; cbn; [reflexivity|].
  rewrite Hf. f_equal. apply IH. intros i y. apply Hf.
Qed.

(** C9: for a daily frequency of at least one and a slot index within the
    day, the computed posting hour is an hour of the day, and
    [replace(hour=...)] succeeds with it. *)
Theorem posting_hour_valid (frequency i : Z) (current_date : datetime) :
  1 <= frequency -> 0 <= i < frequency ->
  exists h : Z,
    hour_offset frequency i = Ok h
    /\ h = (i + 1) * (24 / (frequency + 1))
    /\ 0 <= h < 24
    /\ replace_hour current_date h
       = Ok (mk_datetime (day current_date) h 0 0 (microsecond current_date)).
Proof.
  intros HN Hi.
  pose proof (hour_in_range frequency i HN Hi) as Hh.
  exists ((i + 1) * (24 / (frequency + 1))).
  unfold hour_offset, replace_hour.
  destruct (Z.eqb_spec (frequency + 1) 0) as [?|_]; [lia|].
  destruct (Z.leb_spec 0 ((i + 1) * (24 / (frequency + 1)))); [|lia].
  destruct (Z.leb_spec ((i + 1) * (24 / (frequency + 1))) 23); [|lia].
  auto.
Qed.

Lemma posting_hour_valid_witness :
  exists h : Z,
    hour_offset 3 2 = Ok h
    /\ h = (2 + 1) * (24 / (3 + 1))
    /\ 0 <= h < 24
    /\ replace_hour (mk_datetime 739000 9 30 15 0) h
       = Ok (mk_datetime 739000 h 0 0 0).
Proof. apply (posting_hour_valid 3 2 (mk_datetime 739000 9 30 15 0)); lia. Defined.

(** C3: the batch scheduler gives the [k]-th generated text the day
    [k / N] of the range and the hour [(k mod N + 1) * floor(24 / (N + 1))].
    When the range does not reach the last day of the calendar, it returns
    the number of generated texts and has added, after the posts there
    were, one post per generated text, in order and without reuse: a
    scheduled post of the campaign and its owner with that text, that day
    and that hour, under the next free ids; the other tables are as they
    were.  There are never more posts than slots in the range; for
    [N = 3] over two days with six texts the hours are 6, 12, 18 on each
    of the two days. *)
Theorem campaign_distribution (json_loads : json_loader) (ai : ai_service)
    (now : datetime) (db : database) (campaign_id : Z)
    (start_date end_date : datetime) (tweets_per_day : option Z)
    (campaign : Campaign.t) (frequency : Z) (tweet_contents : list string) :
  get_campaign db campaign_id = Some campaign ->
  py_or tweets_per_day (Campaign.tweet_frequency campaign) = Some frequency ->
  1 <= frequency ->
  generate_campaign_content json_loads ai db campaign_id
    ((sub_days end_date start_date + 1) * frequency) = tweet_contents ->
  tweet_contents <> [] ->
  day start_date + sub_days end_date start_date < max_ordinal ->
  let post (k : nat) (text : string) :=
    ScheduledTweet.mk (next_tweet_id (tweets db) + Z.of_nat k) text
      (mk_datetime (day start_date + Z.of_nat k / frequency)
                   ((Z.of_nat k mod frequency + 1) * (24 / (frequency + 1))) 0 0
                   (microsecond start_date))
      "scheduled" None None now None (Campaign.user_id campaign)
      (Some campaign_id) in
  let '(scheduled_count, db') :=
    schedule_campaign_tweets json_loads ai now db campaign_id start_date end_date
                             tweets_per_day in
  scheduled_count = Ok (Z.of_nat (length tweet_contents))
  /\ tweets db' = tweets db ++ imap post tweet_contents
  /\ users db' = users db /\ campaigns db' = campaigns db
  /\ analytics db' = analytics db /\ trends db' = trends db
  /\ Z.of_nat (length tweet_contents) <= (sub_days end_date start_date + 1) * frequency
  /\ (frequency = 3 -> length tweet_contents = 6%nat ->
      map (fun t => (day (ScheduledTweet.scheduled_time t) - day start_date,
                     hour (ScheduledTweet.scheduled_time t)))
          (imap post tweet_contents)
      = [(0, 6); (0, 12); (0, 18); (1, 6); (1, 12); (1, 18)]).
Proof.
  intros Hc Hf HN Hgen Hne Hmax post.
  pose proof (generate_campaign_content_length json_loads ai db campaign_id
                ((sub_days end_date start_date + 1) * frequency)) as Hlen.
  rewrite Hgen in Hlen.
  assert (Hpos : (1 <= length tweet_contents)%nat)
    by (destruct tweet_contents; [congruence|cbn; lia]).
  assert (Hdays : 1 <= sub_days end_date start_date + 1) by nia.
  unfold schedule_campaign_tweets, schedule_campaign_tweets_body.
  rewrite Hc, Hf. cbv zeta. rewrite Hgen.
  destruct tweet_contents as [|text rest] eqn:Et; [congruence|]. rewrite <- Et in *.
  rewrite (schedule_loop_rows campaign campaign_id frequency tweet_contents HN
             end_date (days_left end_date start_date) start_date
             (mk_sched [] 0 0) eq_refl)
    by (unfold days_left; fold (sub_days end_date start_date); lia).
  cbv zeta. cbn [session scheduled_count content_index app].
  change (drop 0 tweet_contents) with tweet_contents.
  assert (Htake : take (days_left end_date start_date * Z.to_nat frequency)
                       tweet_contents = tweet_contents).
  { apply take_ge. unfold days_left. fold (sub_days end_date start_date).
    rewrite <- Z2Nat.inj_mul by lia. lia. }
  rewrite Htake, Z.add_0_l.
  unfold commit_tweets. cbn [users campaigns tweets analytics trends with_tweets].
  rewrite insert_tweets_imap.
  split; [reflexivity|]. split; [reflexivity|].
  repeat (split; [reflexivity|]).
  split; [lia|].
  intros -> H6. subst post.
  destruct tweet_contents as [|c1 [|c2 [|c3 [|c4 [|c5 [|c6 [|c7 l]]]]]]];
    try discriminate.
  cbn. repeat f_equal;
    match goal with
    | |- _ + ?b - _ = _ => let v := eval vm_compute in b in change b with v
    end; lia.
Qed.

Lemma campaign_distribution_witness :
  let run := schedule_campaign_tweets Examples.loads Examples.six_texts
               Examples.morning Examples.db_empty 7 Examples.morning
               (add_days Examples.morning 1) None in
  fst run = Ok 6
  /\ map (fun t => (day (ScheduledTweet.scheduled_time t) - day Examples.morning,
                    hour (ScheduledTweet.scheduled_time t)))
         (tweets (snd run))
     = [(0, 6); (0, 12); (0, 18); (1, 6); (1, 12); (1, 18)].
Proof.
  intros run.
  pose proof (campaign_distribution Examples.loads Examples.six_texts
                Examples.morning Examples.db_empty 7 Examples.morning
                (add_days Examples.morning 1) None Examples.spring 3
                ["one"; "two"; "three"; "four"; "five"; "six"]
                eq_refl eq_refl ltac:(lia) eq_refl ltac:(discriminate)
                eq_refl) as H.
  cbv zeta in H. fold run in H. destruct run as [scheduled_count db'].
  destruct H as (Hcount & Htweets & _ & _ & _ & _ & _ & Hinst).
  split; [exact Hcount|].
  cbn [snd]. rewrite Htweets. apply Hinst; reflexivity.
Defined.

(** C10: when content generation yields no text, scheduling raises and
    leaves the database as it was; every raise leaves the database as it
    was; and scheduling returns a count only when at least one text was
    generated. *)
Theorem empty_generation_raises (json_loads : json_loader) (ai : ai_service)
    (now : datetime) (db : database) (campaign_id : Z)
    (start_date end_date : datetime) (tweets_per_day : option Z) :
  (forall (campaign : Campaign.t) (frequency : Z),
      get_campaign db campaign_id = Some campaign ->
      py_or tweets_per_day (Campaign.tweet_frequency campaign) = Some frequency ->
      generate_campaign_content json_loads ai db campaign_id
        ((sub_days end_date start_date + 1) * frequency) = [] ->
      schedule_campaign_tweets json_loads ai now db campaign_id start_date
                               end_date tweets_per_day
      = (Raise (Exception "Failed to schedule tweets"), db))
  /\ (forall (e : exn) (db' : database),
         schedule_campaign_tweets json_loads ai now db campaign_id start_date
                                  end_date tweets_per_day = (Raise e, db') ->
         e = Exception "Failed to schedule tweets" /\ db' = db)
  /\ (forall (n : Z) (db' : database),
         schedule_campaign_tweets json_loads ai now db campaign_id start_date
                                  end_date tweets_per_day = (Ok n, db') ->
         exists (campaign : Campaign.t) (frequency : Z),
           get_campaign db campaign_id = Some campaign
           /\ py_or tweets_per_day (Campaign.tweet_frequency campaign)
              = Some frequency
           /\ generate_campaign_content json_loads ai db campaign_id
                ((sub_days end_date start_date + 1) * frequency) <> []).
Proof.
  unfold schedule_campaign_tweets, schedule_campaign_tweets_body.
  split; [|split].
  - intros campaign frequency -> -> Hgen. cbv zeta. rewrite Hgen. reflexivity.
  - intros e db'.
    destruct (get_campaign db campaign_id) as [campaign|];
      [|intros [= <- <-]; auto].
    destruct (py_or tweets_per_day (Campaign.tweet_frequency campaign))
      as [frequency|]; [|intros [= <- <-]; auto].
    cbv zeta. destruct (generate_campaign_content _ _ _ _ _);
      [intros [= <- <-]; auto|].
    destruct (schedule_loop _ _ _ _ _ _ _); [discriminate|intros [= <- <-]; auto].
  - intros n db' H.
    destruct (get_campaign db campaign_id) as [campaign|] eqn:Ec; [|discriminate].
    destruct (py_or tweets_per_day (Campaign.tweet_frequency campaign))
      as [frequency|] eqn:Ef; [|discriminate].
    exists campaign, frequency. split; [reflexivity|]. split; [assumption|].
    cbv zeta in H. intros Hgen. rewrite Hgen in H. discriminate.
Qed.

Lemma empty_generation_raises_witness :
  schedule_campaign_tweets Examples.loads Examples.no_text Examples.morning
    Examples.db_empty 7 Examples.morning (add_days Examples.morning 1) None
  = (Raise (Exception "Failed to schedule tweets"), Examples.db_empty).
Proof.
  apply (proj1 (empty_generation_raises Examples.loads Examples.no_text
                  Examples.morning Examples.db_empty 7 Examples.morning
                  (add_days Examples.morning 1) None)
           Examples.spring 3); reflexivity.
Defined.

(** ** Pausing and resuming a campaign *)

Lemma lookup_map {A B : Type} (f : A -> B) (l : list A) (k : nat) :
  map f l !! k = option_map f (l !! k).
Proof.
  revert k; induction l as [|x l IH]; intros [|k]; cbn; auto.
Qed.

Lemma opt_eqb_true (o : option Z) (z : Z) : opt_eqb o z = true <-> o = Some z.
Proof.
  destruct o as [x|]; cbn; [|split; discriminate].
  rewrite Z.eqb_eq. split; congruence.
Qed.

Lemma pause_selects_true (campaign_id : Z) (t : ScheduledTweet.t) :
  pause_selects campaign_id t = true
  <-> ScheduledTweet.campaign_id t = Some campaign_id
      /\ ScheduledTweet.status t = "scheduled".
Proof.
  unfold pause_selects. rewrite andb_true_iff, opt_eqb_true, String.eqb_eq. tauto.
Qed.

Lemma resume_selects_true (now : datetime) (campaign_id : Z) (t : ScheduledTweet.t) :
  resume_selects now campaign_id t = true
  <-> ScheduledTweet.campaign_id t = Some campaign_id
      /\ ScheduledTweet.status t = "cancelled"
      /\ micros now < micros (ScheduledTweet.scheduled_time t).
Proof.
  unfold resume_selects, ltb.
  rewrite !andb_true_iff, opt_eqb_true, String.eqb_eq, Z.ltb_lt. tauto.
Qed.

Lemma find_campaign_map (g : Campaign.t -> Campaign.t) (l : list Campaign.t) (pk : Z) :
  (forall c, Campaign.id (g c) = Campaign.id c) ->
  List.find (fun c => Campaign.id c =? pk) (map g l)
  = option_map g (List.find (fun c => Campaign.id c =? pk) l).
Proof.
  intros Hg. induction l as [|c l IH]; cbn; [reflexivity|].
  rewrite Hg. destruct (Campaign.id c =? pk); auto.
Qed.

Lemma update_is_active_id (now : datetime) (b : bool) (c : Campaign.t) :
  Campaign.id (update_is_active now b c) = Campaign.id c.
Proof. unfold update_is_active. destruct (Bool.eqb _ _); reflexivity. Qed.

(** C7: pausing a campaign cancels each of its scheduled posts and leaves
    every other post as it is; resuming it afterwards reschedules its
    cancelled posts whose time is still to come and leaves every other post
    as it is, the past-due cancelled ones among them; no row is added or
    removed and no scheduled time changes. *)
Theorem pause_then_resume (db : database) (campaign_id : Z)
    (paused_at now resumed_at : datetime) (campaign : Campaign.t) :
  get_campaign db campaign_id = Some campaign ->
  exists db1 db2 : database,
    pause_campaign paused_at db campaign_id = (true, db1)
    /\ resume_campaign now resumed_at db1 campaign_id = (true, db2)
    /\ length (tweets db1) = length (tweets db)
    /\ length (tweets db2) = length (tweets db)
    /\ forall (k : nat) (t : ScheduledTweet.t),
        tweets db !! k = Some t ->
        exists t1 t2 : ScheduledTweet.t,
          tweets db1 !! k = Some t1 /\ tweets db2 !! k = Some t2
          (* pause *)
          /\ (ScheduledTweet.campaign_id t = Some campaign_id ->
              ScheduledTweet.status t = "scheduled" ->
              t1 = ScheduledTweet.set_status "cancelled" t)
          /\ (ScheduledTweet.campaign_id t <> Some campaign_id
              \/ ScheduledTweet.status t <> "scheduled" -> t1 = t)
          (* resume *)
          /\ (ScheduledTweet.campaign_id t1 = Some campaign_id ->
              ScheduledTweet.status t1 = "cancelled" ->
              micros now < micros (ScheduledTweet.scheduled_time t1) ->
              t2 = ScheduledTweet.set_status "scheduled" t1)
          /\ (ScheduledTweet.campaign_id t1 <> Some campaign_id
              \/ ScheduledTweet.status t1 <> "cancelled"
              \/ micros (ScheduledTweet.scheduled_time t1) <= micros now ->
              t2 = t1)
          (* the time *)
          /\ ScheduledTweet.scheduled_time t1 = ScheduledTweet.scheduled_time t
          /\ ScheduledTweet.scheduled_time t2 = ScheduledTweet.scheduled_time t.
Proof.
  intros Hc.
  unfold pause_campaign. rewrite Hc.
  eexists. eexists. split; [reflexivity|].
  unfold resume_campaign, get_campaign. cbn [campaigns with_tweets with_campaigns].
  rewrite find_campaign_map
    by (intros c; destruct (Campaign.id c =? Campaign.id campaign);
        [apply update_is_active_id|reflexivity]).
  unfold get_campaign in Hc. rewrite Hc. cbn [option_map].
  split; [reflexivity|].
  cbn [tweets with_tweets with_campaigns].
  rewrite !length_map. split; [reflexivity|]. split; [reflexivity|].
  intros k t Hk.
  rewrite !lookup_map, Hk. cbn [option_map].
  eexists. eexists. split; [reflexivity|]. split; [reflexivity|].
  repeat apply conj.
  - intros H1 H2.
    rewrite (proj2 (pause_selects_true campaign_id t)) by auto. reflexivity.
  - intros H.
    destruct (pause_selects campaign_id t) eqn:E; [|reflexivity].
    apply pause_selects_true in E. tauto.
  - intros H1 H2 H3.
    rewrite (proj2 (resume_selects_true now campaign_id _)) by auto. reflexivity.
  - intros H.
    destruct (resume_selects now campaign_id _) eqn:E; [|reflexivity].
    apply resume_selects_true in E. destruct E as (E1 & E2 & E3).
    destruct H as [H|[H|H]]; [congruence|congruence|lia].
  - destruct (pause_selects campaign_id t); reflexivity.
  - destruct (pause_selects campaign_id t);
      destruct (resume_selects now campaign_id _); reflexivity.
Qed.

Lemma pause_then_resume_witness :
  exists db1 db2 : database,
    pause_campaign (add_days Examples.morning (-2)) Examples.db0 7 = (true, db1)
    /\ resume_campaign (add_days Examples.morning (-1))
                       (add_days Examples.morning (-1)) db1 7 = (true, db2).
Proof.
  destruct (pause_then_resume Examples.db0 7 (add_days Examples.morning (-2))
              (add_days Examples.morning (-1)) (add_days Examples.morning (-1))
              Examples.spring eq_refl) as (db1 & db2 & H1 & H2 & _).
  exists db1, db2. split; assumption.
Defined.

(** ** The cleanup job *)


Lemma is_old_tweet_true (cutoff_date : datetime) (t : ScheduledTweet.t) :
  is_old_tweet cutoff_date t = true
  <-> (exists p, ScheduledTweet.posted_at t = Some p
                 /\ micros p < micros cutoff_date)
      /\ (ScheduledTweet.status t = "posted" \/ ScheduledTweet.status t = "failed").
Proof.
  unfold is_old_tweet, ltb.
  rewrite andb_true_iff, orb_true_iff, !String.eqb_eq.
  destruct (ScheduledTweet.posted_at t) as [p|].
  - rewrite Z.ltb_lt. split.
    + intros [H1 H2]. split; [exists p; auto|assumption].
    + intros [(q & [= <-] & H1) H2]. auto.
  - split; [intros [? _]; discriminate|intros [(q & ? & _) _]; discriminate].
Qed.



(** ** The analytics upsert *)

Lemma find_none_filter {A : Type} (p : A -> bool) (l : list A) :
  List.find p l = None -> List.filter p l = [].
Proof.
  induction l as [|a l IH]; cbn; [reflexivity|].
  destruct (p a); [discriminate|assumption].
Qed.

Lemma find_some_filter {A : Type} (p : A -> bool) (l : list A) (a : A) :
  List.find p l = Some a -> exists rest, List.filter p l = a :: rest.
Proof.
  induction l as [|b l IH]; cbn; [discriminate|].
  destruct (p b); [intros [= ->]; eauto|assumption].
Qed.

Lemma filter_update_first (p : TweetAnalytics.t -> bool)
    (f : TweetAnalytics.t -> TweetAnalytics.t) (l : list TweetAnalytics.t) :
  (forall a, p a = true -> p (f a) = true) ->
  List.filter p (update_first p f l)
  = match List.filter p l with
    | [] => []
    | a :: rest => f a :: rest
    end
  /\ List.filter (fun a => negb (p a)) (update_first p f l)
     = List.filter (fun a => negb (p a)) l
  /\ length (update_first p f l) = length l.
Proof.
  intros Hp. induction l as [|a l (IH1 & IH2 & IH3)]; cbn; [auto|].
  destruct (p a) eqn:E; cbn.
  - rewrite (Hp a E), ?E. cbn. auto.
  - rewrite ?E. cbn. rewrite IH1, IH2, IH3.
    destruct (List.filter p l); auto.
Qed.

Lemma analytics_key_overwrite (now : datetime) (data : gmap string Z)
    (tweet_id : string) (user_id : Z) (a : TweetAnalytics.t) :
  analytics_key tweet_id user_id (overwrite_analytics now data a)
  = analytics_key tweet_id user_id a.
Proof. reflexivity. Qed.

(** One application: the records of the key afterwards, and the rest of
    the table. *)
Lemma update_tweet_analytics_records (now : datetime) (db : database)
    (tweet_id : string) (data : gmap string Z) (user_id : Z)
    (campaign_id : option Z) :
  let db' := update_tweet_analytics now db tweet_id data user_id campaign_id in
  records_for tweet_id user_id db'
  = match records_for tweet_id user_id db with
    | [] => [TweetAnalytics.mk (next_analytics_id (analytics db)) tweet_id
               (dict_get data "likes" 0) (dict_get data "retweets" 0)
               (dict_get data "replies" 0) (dict_get data "impressions" 0)
               (engagement_rate_of data) now campaign_id user_id]
    | a :: rest => overwrite_analytics now data a :: rest
    end
  /\ records_besides tweet_id user_id db' = records_besides tweet_id user_id db.
Proof.
  unfold records_for, records_besides, update_tweet_analytics.
  destruct (List.find (analytics_key tweet_id user_id) (analytics db)) as [a|] eqn:E;
    cbn [analytics with_analytics].
  - destruct (filter_update_first (analytics_key tweet_id user_id)
                (overwrite_analytics now data) (analytics db)) as (H1 & H2 & _).
    { intros b Hb. rewrite analytics_key_overwrite. exact Hb. }
    rewrite H1, H2.
    destruct (find_some_filter _ _ _ E) as [rest ->]. auto.
  - rewrite !List.filter_app, (find_none_filter _ _ E). cbn.
    unfold analytics_key at 1 3. cbn.
    rewrite String.eqb_refl, Z.eqb_refl. cbn. rewrite app_nil_r. auto.
Qed.

(** The table never holds two records of one key: the upsert keeps it so. *)
Lemma update_keeps_records_unique (now : datetime) (db : database)
    (tweet_id : string) (data : gmap string Z) (user_id : Z)
    (campaign_id : option Z) :
  (forall tid uid, (length (records_for tid uid db) <= 1)%nat) ->
  forall tid uid,
    (length (records_for tid uid
               (update_tweet_analytics now db tweet_id data user_id campaign_id))
     <= 1)%nat.
Proof.
  intros Hone tid uid. specialize (Hone tid uid). revert Hone.
  unfold records_for, update_tweet_analytics.
  destruct (List.find (analytics_key tweet_id user_id) (analytics db)) as [a|] eqn:E;
    cbn [analytics with_analytics]; intros Hone.
  - assert (Hlen : forall l,
               length (List.filter (analytics_key tid uid)
                         (update_first (analytics_key tweet_id user_id)
                            (overwrite_analytics now data) l))
               = length (List.filter (analytics_key tid uid) l)).
    { induction l as [|b l IH]; cbn; [reflexivity|].
      destruct (analytics_key tweet_id user_id b); cbn.
      - rewrite analytics_key_overwrite.
        destruct (analytics_key tid uid b); reflexivity.
      - destruct (analytics_key tid uid b); cbn; rewrite IH; reflexivity. }
    rewrite Hlen. exact Hone.
  - rewrite List.filter_app, length_app. cbn [List.filter].
    destruct (analytics_key tid uid _) eqn:Ek; cbn [length]; [|lia].
    unfold analytics_key in Ek. cbn in Ek.
    apply andb_true_iff in Ek. destruct Ek as [E1 E2].
    apply String.eqb_eq in E1. apply Z.eqb_eq in E2. subst tid uid.
    rewrite (find_none_filter _ _ E). cbn. lia.
Qed.

(** C8: on a table with at most one record for the key, one application
    leaves exactly one record for it, with the counters of the data and
    the engagement rate [(likes + retweets + replies) / impressions * 100],
    or 0 when [impressions] is not positive; a second application with the
    same data leaves that one record with the same counters and rate, and
    neither touches the records of other keys. *)
Theorem update_tweet_analytics_idempotent (now1 now2 : datetime) (db : database)
    (tweet_id : string) (data : gmap string Z) (user_id : Z)
    (campaign_id : option Z) :
  (length (records_for tweet_id user_id db) <= 1)%nat ->
  let db1 := update_tweet_analytics now1 db tweet_id data user_id campaign_id in
  let db2 := update_tweet_analytics now2 db1 tweet_id data user_id campaign_id in
  let likes := dict_get data "likes" 0 in
  let retweets := dict_get data "retweets" 0 in
  let replies := dict_get data "replies" 0 in
  let impressions := dict_get data "impressions" 0 in
  let rate := if impressions >? 0
              then fmul_int (truediv (likes + retweets + replies) impressions) 100
              else float_of_int 0 in
  exists r1 r2 : TweetAnalytics.t,
    records_for tweet_id user_id db1 = [r1]
    /\ records_for tweet_id user_id db2 = [r2]
    /\ (TweetAnalytics.likes r1, TweetAnalytics.retweets r1,
        TweetAnalytics.replies r1, TweetAnalytics.impressions r1)
       = (likes, retweets, replies, impressions)
    /\ (TweetAnalytics.likes r2, TweetAnalytics.retweets r2,
        TweetAnalytics.replies r2, TweetAnalytics.impressions r2)
       = (likes, retweets, replies, impressions)
    /\ TweetAnalytics.engagement_rate r1 = rate
    /\ TweetAnalytics.engagement_rate r2 = rate
    /\ (impressions = 0 -> rate = float_of_int 0)
    /\ r2 = overwrite_analytics now2 data r1
    /\ (now2 = now1 -> db2 = db1)
    /\ records_besides tweet_id user_id db1 = records_besides tweet_id user_id db
    /\ records_besides tweet_id user_id db2 = records_besides tweet_id user_id db
    /\ length (analytics db2) = length (analytics db1).
Proof.
  intros Hone db1 db2 likes retweets replies impressions rate.
  destruct (update_tweet_analytics_records now1 db tweet_id data user_id campaign_id)
    as [H1 B1]. fold db1 in H1, B1.
  destruct (update_tweet_analytics_records now2 db1 tweet_id data user_id campaign_id)
    as [H2 B2]. fold db2 in H2, B2.
  assert (Hr1 : exists r1, records_for tweet_id user_id db1 = [r1]
                           /\ (r1 = overwrite_analytics now1 data r1)).
  { rewrite H1. destruct (records_for tweet_id user_id db) as [|a [|b rest]].
    - eexists. split; reflexivity.
    - eexists. split; reflexivity.
    - cbn in Hone. lia. }
  destruct Hr1 as (r1 & E1 & Ho1).
  rewrite E1 in H2.
  exists r1, (overwrite_analytics now2 data r1).
  assert (Hlen : length (analytics db2) = length (analytics db1)
                 /\ (now2 = now1 -> db2 = db1)).
  { subst db2. unfold update_tweet_analytics.
    destruct (List.find (analytics_key tweet_id user_id) (analytics db1)) as [a|] eqn:E.
    - cbn [analytics with_analytics].
      destruct (filter_update_first (analytics_key tweet_id user_id)
                  (overwrite_analytics now2 data) (analytics db1)) as (_ & _ & H3).
      { intros b Hb. rewrite analytics_key_overwrite. exact Hb. }
      split; [assumption|]. intros ->.
      assert (Hfix : update_first (analytics_key tweet_id user_id)
                       (overwrite_analytics now1 data) (analytics db1)
                     = analytics db1).
      { unfold records_for in E1. revert E1. clear -Ho1.
        induction (analytics db1) as [|b l IH]; cbn; [reflexivity|].
        destruct (analytics_key tweet_id user_id b) eqn:Eb.
        - intros [= -> _]. rewrite <- Ho1. reflexivity.
        - intros H. rewrite (IH H). reflexivity. }
      rewrite Hfix. destruct db1; reflexivity.
    - apply find_none_filter in E. unfold records_for in E1. congruence. }
  destruct Hlen as [Hlen Hsame].
  repeat apply conj; try assumption; try reflexivity.
  - rewrite Ho1. reflexivity.
  - rewrite Ho1. reflexivity.
  - intros Hz. subst rate. rewrite Hz. reflexivity.
  - congruence.
Qed.

Lemma update_tweet_analytics_idempotent_witness :
  exists r1 r2 : TweetAnalytics.t,
    records_for "99" 5
      (update_tweet_analytics Examples.morning Examples.db0 "99" Examples.metrics
                              5 (Some 7)) = [r1]
    /\ records_for "99" 5
         (update_tweet_analytics (add_days Examples.morning 1)
            (update_tweet_analytics Examples.morning Examples.db0 "99"
                                    Examples.metrics 5 (Some 7))
            "99" Examples.metrics 5 (Some 7)) = [r2]
    /\ TweetAnalytics.engagement_rate r1 = 50%float
    /\ TweetAnalytics.engagement_rate r2 = 50%float.
Proof.
  destruct (update_tweet_analytics_idempotent Examples.morning
              (add_days Examples.morning 1) Examples.db0 "99" Examples.metrics 5
              (Some 7))
    as (r1 & r2 & H1 & H2 & _ & _ & H5 & H6 & _).
  - cbn. lia.
  - exists r1, r2. split; [exact H1|]. split; [exact H2|].
    split; [rewrite H5|rewrite H6]; vm_compute; reflexivity.
Defined.

(** ** The publish task *)

(** Unfolding of the task monad down to the calls of the environment and
    the lookups of the database. *)
Ltac task_unfold :=
  cbv [run_schedule_tweet_task schedule_tweet_task schedule_tweet_task_body
       post_and_record retry post_tweet validate_credentials commit apply_async
       assign query_get_tweet query_get_user db_op db_down emit raise
       try_except bind ret st_db st_tweet st_trace st_ops option_map max_retries].

(** One case split on what the execution tests next: the first test whose
    subject is not itself the result of a test. *)
Ltac task_case :=
  match goal with
  | |- context [match ?x with _ => _ end] =>
      lazymatch x with
      | context [match _ with _ => _ end] => fail
      | _ => destruct x eqn:?
      end
  end; cbn -[Z.pow Z.mul Z.add Z.ltb String.eqb has_twitter_auth get_tweet get_user].

(** Evaluation of the monad, with the lookups and the arithmetic kept. *)
Ltac task_simpl :=
  cbn -[Z.pow Z.mul Z.add Z.ltb String.eqb has_twitter_auth get_tweet get_user].

Ltac task_cases := task_unfold; task_simpl; repeat task_case.

Lemma get_user_id (db : database) (pk : Z) (u : User.t) :
  get_user db pk = Some u -> User.id u = pk.
Proof.
  unfold get_user. intros H. apply find_some in H. destruct H as [_ H].
  apply Z.eqb_eq in H. exact H.
Qed.

Lemma get_tweet_id (db : database) (pk : Z) (t : ScheduledTweet.t) :
  get_tweet db pk = Some t -> ScheduledTweet.id t = pk /\ In t (tweets db).
Proof.
  unfold get_tweet. intros H. apply find_some in H. destruct H as [Hin H].
  apply Z.eqb_eq in H. auto.
Qed.

Ltac lookup_facts :=
  repeat match goal with
    | H : get_tweet _ _ = Some _ |- _ =>
        apply get_tweet_id in H; destruct H as [? ?]
    | H : get_user _ _ = Some _ |- _ => apply get_user_id in H
    end.

Lemma analytics_follow_commit_split (scheduled_tweet_id : Z) (tr : list event) :
  forall committed : list ScheduledTweet.t,
    analytics_follow_commit scheduled_tweet_id committed tr ->
    forall (tweet_id : string) (user_id : Z) (campaign_id : option Z)
           (countdown : Z) (pre post : list event),
      tr = pre ++ EvSend (collect_tweet_analytics_msg tweet_id user_id campaign_id
                                                       countdown) :: post ->
      countdown = 300
      /\ exists row : ScheduledTweet.t,
          (In row committed
           \/ exists pre1 pre2 : list event, pre = pre1 ++ EvCommit row :: pre2)
          /\ ScheduledTweet.id row = scheduled_tweet_id
          /\ ScheduledTweet.status row = "posted"
          /\ ScheduledTweet.tweet_id row = Some tweet_id
          /\ ScheduledTweet.user_id row = user_id
          /\ ScheduledTweet.campaign_id row = campaign_id.
Proof.
  induction tr as [|ev tr IH]; intros committed Hok tid uid cid cd pre post Htr.
  - destruct pre; discriminate.
  - destruct pre as [|ev' pre]; cbn in Htr; injection Htr as -> Htr.
    + cbn in Hok. destruct Hok as [(Hcd & row & Hin & Hrow) _].
      split; [assumption|]. exists row. auto.
    + assert (Hnext : exists committed',
                 analytics_follow_commit scheduled_tweet_id committed' tr
                 /\ forall row, In row committed' ->
                                In row committed \/ ev' = EvCommit row).
      { destruct ev' as [text|row|[pk n c|tid' uid' cid' cd']|e]; cbn in Hok.
        - exists committed. auto.
        - exists (row :: committed). split; [assumption|].
          intros r [<- | Hr]; auto.
        - exists committed. auto.
        - exists committed. destruct Hok as [_ Hok]. auto.
        - exists committed. auto. }
      destruct Hnext as (committed' & Hok' & Hsub).
      destruct (IH committed' Hok' tid uid cid cd pre post Htr)
        as (Hcd & row & Hin & Hrow).
      split; [assumption|]. exists row. split; [|assumption].
      destruct Hin as [Hin|(pre1 & pre2 & ->)].
      * destruct (Hsub row Hin) as [? | ->]; [auto|].
        right. exists [], pre. reflexivity.
      * right. exists (ev' :: pre1), pre2. reflexivity.
Qed.

Lemma run_analytics_follow_commit (env : environment) (self : request)
    (scheduled_tweet_id : Z) (db : database) :
  analytics_follow_commit scheduled_tweet_id []
    (snd (run_schedule_tweet_task env self scheduled_tweet_id db)).
Proof.
  task_cases; lookup_facts; cbn; auto.
  all: split; [|exact I]; split; [reflexivity|].
  all: eexists; split; [left; reflexivity|]; cbn; auto.
Qed.

(** C5: in every execution of the publish task, whatever Twitter, the
    database and the broker do, a message of the analytics task is sent
    only after a commit that wrote the post in state posted with the
    tweet id of the message; the message carries that tweet id, the
    owner's id and the campaign id, with a countdown of 300 seconds; and
    an execution that commits no posted row sends no such message. *)
Theorem analytics_after_posted_commit (env : environment) (self : request)
    (scheduled_tweet_id : Z) (db db' : database) (tr : list event) :
  run_schedule_tweet_task env self scheduled_tweet_id db = (db', tr) ->
  forall (tweet_id : string) (user_id : Z) (campaign_id : option Z) (countdown : Z)
         (pre post : list event),
    tr = pre ++ EvSend (collect_tweet_analytics_msg tweet_id user_id campaign_id
                                                     countdown) :: post ->
    countdown = 300
    /\ exists (row : ScheduledTweet.t) (pre1 pre2 : list event),
        pre = pre1 ++ EvCommit row :: pre2
        /\ ScheduledTweet.id row = scheduled_tweet_id
        /\ ScheduledTweet.status row = "posted"
        /\ ScheduledTweet.tweet_id row = Some tweet_id
        /\ ScheduledTweet.user_id row = user_id
        /\ ScheduledTweet.campaign_id row = campaign_id.
Proof.
  intros Hrun tid uid cid cd pre post Htr.
  pose proof (run_analytics_follow_commit env self scheduled_tweet_id db) as Hok.
  rewrite Hrun in Hok. cbn [snd] in Hok.
  destruct (analytics_follow_commit_split _ _ _ Hok _ _ _ _ _ _ Htr)
    as (Hcd & row & [[]|(pre1 & pre2 & Hpre)] & Hrow).
  split; [assumption|]. exists row, pre1, pre2. auto.
Qed.

Lemma analytics_after_posted_commit_witness :
  300 = 300
  /\ exists (row : ScheduledTweet.t) (pre1 pre2 : list event),
      [EvCreateTweet "hello"; EvCommit Examples.post1_posted]
      = pre1 ++ EvCommit row :: pre2
      /\ ScheduledTweet.id row = 1
      /\ ScheduledTweet.status row = "posted"
      /\ ScheduledTweet.tweet_id row = Some "99"
      /\ ScheduledTweet.user_id row = 5
      /\ ScheduledTweet.campaign_id row = Some 7.
Proof.
  apply (analytics_after_posted_commit Examples.env_ok (mk_request 0) 1 Examples.db0
           (fst (run_schedule_tweet_task Examples.env_ok (mk_request 0) 1 Examples.db0))
           (snd (run_schedule_tweet_task Examples.env_ok (mk_request 0) 1 Examples.db0))
           eq_refl "99" 5 (Some 7) 300
           [EvCreateTweet "hello"; EvCommit Examples.post1_posted] []).
  reflexivity.
Defined.

Lemma in_write_row (row t : ScheduledTweet.t) (l : list ScheduledTweet.t) :
  In t (write_row row l) -> t = row \/ In t l.
Proof.
  unfold write_row. rewrite in_map_iff. intros (x & Hx & Hin).
  destruct (ScheduledTweet.id x =? ScheduledTweet.id row); subst; auto.
Qed.






(** The hypothesis on the database is needed: when the database is down
    nothing can be written.  Here the lookup of the owner raises; the
    handler logs the error and returns, nothing is sent, and the post
    stays as it was. *)
Lemma database_outage_leaves_post :
  run_schedule_tweet_task Examples.env_db_down (mk_request 0) 1 Examples.db0
  = (Examples.db0, [EvTaskError (OperationalError "database unavailable")]).
Proof. vm_compute. reflexivity. Qed.

(** ** Retries of the publish task *)

Lemma get_tweet_write_row (db : database) (pk : Z) (t row : ScheduledTweet.t) :
  get_tweet db pk = Some t -> ScheduledTweet.id row = pk ->
  get_tweet (with_tweets (write_row row (tweets db)) db) pk = Some row.
Proof.
  unfold get_tweet, write_row. cbn [tweets with_tweets].
  intros Hfind Hid. induction (tweets db) as [|x l IH]; cbn in *; [discriminate|].
  destruct (ScheduledTweet.id x =? pk) eqn:E.
  - apply Z.eqb_eq in E.
    replace (ScheduledTweet.id x =? ScheduledTweet.id row) with true
      by (symmetry; apply Z.eqb_eq; congruence).
    replace (ScheduledTweet.id row =? pk) with true
      by (symmetry; apply Z.eqb_eq; congruence).
    reflexivity.
  - destruct (ScheduledTweet.id x =? ScheduledTweet.id row) eqn:E'.
    + apply Z.eqb_eq in E'. apply Z.eqb_neq in E. congruence.
    + rewrite E. apply IH. assumption.
Qed.

(** One execution in which the call of Twitter raises: the post is
    committed as failed with the error, and the task is sent again with
    one more retry and a countdown of [60 * 2 ^ retries] while
    [retries < 3], and not at all from [retries = 3] on. *)
Lemma publish_failure_backoff (env : environment) (self : request)
    (scheduled_tweet_id : Z) (db db' : database) (tr : list event)
    (t : ScheduledTweet.t) :
  run_schedule_tweet_task env self scheduled_tweet_id db = (db', tr) ->
  get_tweet db scheduled_tweet_id = Some t ->
  ScheduledTweet.status t = "scheduled" ->
  db_fault env = None -> broker_up env = true ->
  credentials_ok env db t = true ->
  publish_raises env db t = true ->
  exists reason : string,
    let row := ScheduledTweet.set_error_message (Some reason)
                 (ScheduledTweet.set_status "failed" t) in
    db' = with_tweets (write_row row (tweets db)) db
    /\ api_calls tr = 1%nat
    /\ sent tr = if retries self <? 3
                 then [schedule_tweet_msg scheduled_tweet_id (retries self + 1)
                                          (60 * 2 ^ retries self)]
                 else [].
Proof.
  intros Hrun Ht Hs Hf Hb Hc Hp.
  unfold credentials_ok in Hc. unfold publish_raises in Hp.
  destruct (get_user db (ScheduledTweet.user_id t)) as [user|] eqn:Hu;
    [|discriminate].
  apply andb_true_iff in Hc. destruct Hc as [Hauth Hme].
  apply String.eqb_eq in Hs.
  replace (retries self <? 3) with (negb (3 <? retries self + 1))
    by (destruct (Z.ltb_spec 3 (retries self + 1)), (Z.ltb_spec (retries self) 3);
        cbn; lia || reflexivity).
  revert Hrun. task_unfold. task_simpl.
  repeat (first [rewrite Hf|rewrite Ht|rewrite Hs|rewrite Hu|rewrite Hauth];
          task_simpl).
  destruct (get_me env _ _); try discriminate Hme. task_simpl.
  destruct (create_tweet env _ _ _); try discriminate Hp; task_simpl;
    repeat (first [rewrite Hf|rewrite Hb]; task_simpl);
    destruct (3 <? retries self + 1); task_simpl;
    repeat (first [rewrite Hf|rewrite Hb]; task_simpl);
    intros [= <- <-]; eexists; repeat split; reflexivity.
Qed.

(** An execution for a post that is not in state scheduled does nothing:
    it calls nothing, sends nothing and leaves the database as it is. *)
Lemma redelivery_skips (env : environment) (self : request)
    (scheduled_tweet_id : Z) (db db' : database) (tr : list event)
    (t : ScheduledTweet.t) :
  run_schedule_tweet_task env self scheduled_tweet_id db = (db', tr) ->
  get_tweet db scheduled_tweet_id = Some t ->
  ScheduledTweet.status t <> "scheduled" ->
  db' = db /\ api_calls tr = O /\ sent tr = [].
Proof.
  intros Hrun Ht Hs. apply String.eqb_neq in Hs.
  revert Hrun. task_unfold. task_simpl.
  destruct (db_fault env) as [n|]; [destruct (n <=? 0)%nat|]; task_simpl;
    rewrite ?Ht; task_simpl; rewrite ?Hs; task_simpl;
    intros [= <- <-]; auto.
Qed.

Lemma api_calls_app (tr1 tr2 : list event) :
  api_calls (tr1 ++ tr2) = (api_calls tr1 + api_calls tr2)%nat.
Proof.
  induction tr1 as [|[] tr1 IH]; cbn; rewrite ?IH; reflexivity.
Qed.

Lemma sent_app (tr1 tr2 : list event) : sent (tr1 ++ tr2) = sent tr1 ++ sent tr2.
Proof.
  induction tr1 as [|[] tr1 IH]; cbn; rewrite ?IH; reflexivity.
Qed.

Lemma worker_empty (fuel : nat) (env : environment) (db : database) :
  worker fuel env db [] = (db, [], []).
Proof. destruct fuel; reflexivity. Qed.

(** For a scheduled post whose publishing raises, the worker calls Twitter
    once: the first execution commits the post as failed and sends the one
    retry, with a countdown of 60; the execution of that retry finds the
    post failed, not scheduled, and returns at the status check, so that
    no later attempt and no later retry happens. *)
Lemma worker_publishes_once (env : environment) (scheduled_tweet_id : Z)
    (db : database) (t : ScheduledTweet.t) (fuel : nat) (countdown : Z) :
  get_tweet db scheduled_tweet_id = Some t ->
  ScheduledTweet.status t = "scheduled" ->
  db_fault env = None -> broker_up env = true ->
  credentials_ok env db t = true ->
  publish_raises env db t = true ->
  exists (reason : string) (tr : list event),
    let row := ScheduledTweet.set_error_message (Some reason)
                 (ScheduledTweet.set_status "failed" t) in
    worker (S (S fuel)) env db [schedule_tweet_msg scheduled_tweet_id 0 countdown]
    = (with_tweets (write_row row (tweets db)) db, tr, [])
    /\ api_calls tr = 1%nat
    /\ sent tr = [schedule_tweet_msg scheduled_tweet_id 1 60].
Proof.
  intros Ht Hs Hf Hb Hc Hp.
  cbn [worker].
  destruct (run_schedule_tweet_task env (mk_request 0) scheduled_tweet_id db)
    as [db1 tr1] eqn:Hrun1.
  destruct (publish_failure_backoff _ _ _ _ _ _ _ Hrun1 Ht Hs Hf Hb Hc Hp)
    as (reason & Hdb1 & Hcalls1 & Hsent1).
  cbn in Hsent1. change (0 + 1) with 1 in Hsent1.
  change (60 * 2 ^ 0) with 60 in Hsent1.
  rewrite Hsent1. cbn [app worker].
  set (row := ScheduledTweet.set_error_message (Some reason)
                (ScheduledTweet.set_status "failed" t)) in *.
  assert (Hrow : get_tweet db1 scheduled_tweet_id = Some row).
  { rewrite Hdb1. apply (get_tweet_write_row db scheduled_tweet_id t row Ht).
    apply get_tweet_id in Ht. destruct Ht as [Hid _]. exact Hid. }
  destruct (run_schedule_tweet_task env (mk_request 1) scheduled_tweet_id db1)
    as [db2 tr2] eqn:Hrun2.
  destruct (redelivery_skips _ _ _ _ _ _ _ Hrun2 Hrow) as (Hdb2 & Hcalls2 & Hsent2).
  { subst row. cbn. discriminate. }
  rewrite Hsent2. cbn [app]. rewrite worker_empty.
  exists reason, (tr1 ++ tr2 ++ []).
  split; [rewrite Hdb2, Hdb1; reflexivity|].
  rewrite !api_calls_app, !sent_app, Hcalls1, Hcalls2, Hsent1, Hsent2.
  split; reflexivity.
Qed.

(** C1, evaluated: Twitter is down and stays down.  The worker executes
    the publish task for the post, then its retry.  The first execution
    calls Twitter, commits the post as failed and sends the retry with a
    countdown of 60; the execution of the retry returns at the status
    check.  Twitter is called once; the retries with countdowns 120 and
    240 and the fourth attempt never happen. *)
Theorem retry_never_republishes :
  worker 5 Examples.env_twitter_down Examples.db0 [schedule_tweet_msg 1 0 0]
  = (mk_db [Examples.alice] [Examples.spring] [Examples.post1_failed] [] [],
     [EvCreateTweet "hello"; EvCommit Examples.post1_failed;
      EvSend (schedule_tweet_msg 1 1 60); EvTaskError (Retry 60)],
     [])
  /\ run_schedule_tweet_task Examples.env_twitter_down (mk_request 1) 1
       (mk_db [Examples.alice] [Examples.spring] [Examples.post1_failed] [] [])
     = (mk_db [Examples.alice] [Examples.spring] [Examples.post1_failed] [] [], []).
Proof. split; vm_compute; reflexivity. Qed.

(** ** The tweet id of a post *)

(** C2, evaluated: Twitter publishes the post as tweet 99 and the broker
    refuses the message of the analytics task.  The posted row is
    committed, the handler of the publish error then commits the row as
    failed, and the post ends in state failed with its tweet id set. *)
Theorem failed_post_keeps_tweet_id :
  run_schedule_tweet_task Examples.env_broker_down (mk_request 0) 1 Examples.db0
  = (mk_db [Examples.alice] [Examples.spring] [Examples.post1_failed_posted] [] [],
     [EvCreateTweet "hello"; EvCommit Examples.post1_posted;
      EvCommit Examples.post1_failed_posted;
      EvTaskError (Reject "broker unavailable")])
  /\ ScheduledTweet.status Examples.post1_failed_posted = "failed"
  /\ ScheduledTweet.tweet_id Examples.post1_failed_posted = Some "99"
  /\ ~ tweet_id_iff_posted Examples.post1_failed_posted.
Proof.
  split; [vm_compute; reflexivity|]. split; [reflexivity|]. split; [reflexivity|].
  unfold tweet_id_iff_posted. cbn. intros [H _].
  assert (Hp : "failed" = "posted") by (apply H; discriminate).
  discriminate Hp.
Qed.

(** While the broker takes the message of the analytics task, an
    execution of the publish task keeps the invariant on every row,
    whatever Twitter and the database do. *)
Lemma publish_task_keeps_tweet_id_iff_posted (env : environment) (self : request)
    (scheduled_tweet_id : Z) (db db' : database) (tr : list event) :
  run_schedule_tweet_task env self scheduled_tweet_id db = (db', tr) ->
  broker_up env = true ->
  (forall t, In t (tweets db) -> tweet_id_iff_posted t) ->
  forall t, In t (tweets db') -> tweet_id_iff_posted t.
Proof.
  intros Hrun Hb Hinv. revert db' tr Hrun.
  task_cases; intros db' tr [= <- <-] row Hrow; try congruence; auto.
  all: lookup_facts.
  all: cbn [tweets with_tweets] in Hrow.
  all: repeat (apply in_write_row in Hrow; destruct Hrow as [-> | Hrow]); auto.
  all: match goal with
       | H : negb (String.eqb (ScheduledTweet.status ?t) _) = false,
           Hin : In ?t (tweets _) |- _ =>
           apply negb_false_iff, String.eqb_eq in H;
           pose proof (Hinv t Hin) as [Hfwd _]
       end.
  all: unfold tweet_id_iff_posted; cbn; split; intros Hx;
    try discriminate; try reflexivity;
    try (apply Hfwd in Hx; congruence).
  all: repeat match goal with
         | H : Some _ = Some _ |- _ => injection H as H
         | H : (_ <=? _)%nat = true |- _ => apply Nat.leb_le in H
         | H : (_ <=? _)%nat = false |- _ => apply Nat.leb_gt in H
         end; lia.
Qed.

Lemma pause_keeps_tweet_id_iff_posted (now : datetime) (db : database)
    (campaign_id : Z) :
  (forall t, In t (tweets db) -> tweet_id_iff_posted t) ->
  forall t, In t (tweets (snd (pause_campaign now db campaign_id))) ->
            tweet_id_iff_posted t.
Proof.
  intros Hinv t. unfold pause_campaign.
  destruct (get_campaign db campaign_id); cbn [snd tweets with_tweets]; [|auto].
  rewrite in_map_iff. intros (x & <- & Hx).
  destruct (pause_selects campaign_id x) eqn:E; [|auto].
  apply pause_selects_true in E. destruct E as [_ Es].
  destruct (Hinv x Hx) as [Hfwd _].
  unfold tweet_id_iff_posted. cbn. split; intros H; [|discriminate].
  apply Hfwd in H. congruence.
Qed.

Lemma resume_keeps_tweet_id_iff_posted (now now' : datetime) (db : database)
    (campaign_id : Z) :
  (forall t, In t (tweets db) -> tweet_id_iff_posted t) ->
  forall t, In t (tweets (snd (resume_campaign now now' db campaign_id))) ->
            tweet_id_iff_posted t.
Proof.
  intros Hinv t. unfold resume_campaign.
  destruct (get_campaign db campaign_id); cbn [snd tweets with_tweets]; [|auto].
  rewrite in_map_iff. intros (x & <- & Hx).
  destruct (resume_selects now campaign_id x) eqn:E; [|auto].
  apply resume_selects_true in E. destruct E as (_ & Es & _).
  destruct (Hinv x Hx) as [Hfwd _].
  unfold tweet_id_iff_posted. cbn. split; intros H; [|discriminate].
  apply Hfwd in H. congruence.
Qed.

Lemma insert_tweets_scheduled (now : datetime) (ps : list pending_tweet) :
  forall (pk : Z) (t : ScheduledTweet.t),
    In t (insert_tweets now pk ps) ->
    ScheduledTweet.status t = "scheduled" /\ ScheduledTweet.tweet_id t = None.
Proof.
  induction ps as [|p ps IH]; intros pk t; cbn; [contradiction|].
  intros [<- | H]; [auto|eauto].
Qed.

Lemma schedule_keeps_tweet_id_iff_posted (json_loads : json_loader)
    (ai : ai_service) (now : datetime) (db : database) (campaign_id : Z)
    (start_date end_date : datetime) (tweets_per_day : option Z) :
  (forall t, In t (tweets db) -> tweet_id_iff_posted t) ->
  forall t,
    In t (tweets (snd (schedule_campaign_tweets json_loads ai now db campaign_id
                         start_date end_date tweets_per_day))) ->
    tweet_id_iff_posted t.
Proof.
  intros Hinv t. unfold schedule_campaign_tweets.
  destruct (schedule_campaign_tweets_body _ _ _ _ _ _ _) as [[n added]|e];
    cbn [snd]; [|auto].
  unfold commit_tweets. cbn [tweets with_tweets]. rewrite in_app_iff.
  intros [H|H]; [auto|].
  apply insert_tweets_scheduled in H. destruct H as [Hs Hn].
  unfold tweet_id_iff_posted. rewrite Hs, Hn. split; intros; [congruence|discriminate].
Qed.

(** * Further properties of the code *)

(** ** The publish task, in every environment *)

(** X1: an execution of the publish task calls Twitter at most once, and
    only for a post that it found in state scheduled, with an owner whose
    credentials are present and accepted; the text it sends is the content
    of that post. *)
Theorem publish_calls_twitter_at_most_once (env : environment) (self : request)
    (scheduled_tweet_id : Z) (db : database) :
  let tr := snd (run_schedule_tweet_task env self scheduled_tweet_id db) in
  (api_calls tr <= 1)%nat
  /\ forall text : string,
      In (EvCreateTweet text) tr ->
      exists t : ScheduledTweet.t,
        get_tweet db scheduled_tweet_id = Some t
        /\ ScheduledTweet.status t = "scheduled"
        /\ credentials_ok env db t = true
        /\ text = ScheduledTweet.content t.
Proof.
  unfold credentials_ok. task_cases; (split; [cbn; lia|]); intros text Hin; cbn in Hin;
    repeat (destruct Hin as [Hin|Hin]; [try discriminate Hin|]);
    try contradiction.
  all: injection Hin as <-.
  all: eexists; split; [reflexivity|].
  all: repeat match goal with
         | H : negb _ = false |- _ => apply negb_false_iff in H
         | H : get_user _ _ = _ |- _ => rewrite H
         | H : has_twitter_auth _ = _ |- _ => rewrite H
         | H : get_me _ _ _ = _ |- _ => rewrite H
         end.
  all: repeat split; try reflexivity; apply String.eqb_eq; assumption.
Qed.

(** X2: an execution of the publish task sends at most one message: the
    message of the analytics task, with a countdown of 300, or its own
    retry, which carries one more retry than the execution, never more
    than [max_retries], and the countdown [60 * 2 ^ retries]. *)
Theorem publish_sends_at_most_one_message (env : environment) (self : request)
    (scheduled_tweet_id : Z) (db : database) :
  let tr := snd (run_schedule_tweet_task env self scheduled_tweet_id db) in
  (length (sent tr) <= 1)%nat
  /\ forall m : message,
      In m (sent tr) ->
      (exists tweet_id user_id campaign_id,
          m = collect_tweet_analytics_msg tweet_id user_id campaign_id 300)
      \/ (m = schedule_tweet_msg scheduled_tweet_id (retries self + 1)
                                 (60 * 2 ^ retries self)
          /\ retries self + 1 <= max_retries).
Proof.
  task_cases; (split; [cbn; lia|]); intros m Hin; cbn in Hin;
    repeat (destruct Hin as [Hin|Hin]; [|]); try contradiction; subst m.
  all: try (left; eexists; eexists; eexists; reflexivity).
  all: right; split; [reflexivity|].
  all: match goal with
       | H : (3 <? _) = false |- _ => apply Z.ltb_ge in H; unfold max_retries; lia
       end.
Qed.

(** The database after an execution is the database before it with the
    committed rows written in order; each of them is the post of the
    execution. *)
Lemma run_writes_commits (env : environment) (self : request)
    (scheduled_tweet_id : Z) (db : database) :
  let '(db', tr) := run_schedule_tweet_task env self scheduled_tweet_id db in
  db' = with_tweets (write_rows (commits tr) (tweets db)) db
  /\ (commits tr = []
      \/ exists t : ScheduledTweet.t,
          get_tweet db scheduled_tweet_id = Some t
          /\ Forall (same_post t) (commits tr)).
Proof.
  task_cases; cbn [commits write_rows fold_left];
    (split; [try reflexivity; destruct db; reflexivity|]);
    try (left; reflexivity); right; eexists; (split; [reflexivity|]);
    repeat constructor.
Qed.

Lemma write_rows_length (rows l : list ScheduledTweet.t) :
  length (write_rows rows l) = length l.
Proof.
  revert l; induction rows as [|row rows IH]; intros l; cbn [write_rows fold_left];
    [reflexivity|].
  fold (write_rows rows (write_row row l)). rewrite IH.
  unfold write_row. apply length_map.
Qed.

Lemma in_write_rows (rows l : list ScheduledTweet.t) (t : ScheduledTweet.t) :
  In t (write_rows rows l) -> In t l \/ In t rows.
Proof.
  revert l; induction rows as [|row rows IH]; intros l; cbn [write_rows fold_left];
    [auto|].
  fold (write_rows rows (write_row row l)). intros H. apply IH in H.
  destruct H as [H|H]; [|cbn; auto].
  apply in_write_row in H. destruct H as [-> | H]; cbn; auto.
Qed.

(** X3: an execution of the publish task leaves the users, the campaigns,
    the metrics and the trends as they are, adds and removes no post, and
    changes of a post neither its id, content, scheduled time, creation
    time, owner nor campaign; a post with another id than the one of the
    execution is left as it is. *)
Theorem publish_changes_only_its_post (env : environment) (self : request)
    (scheduled_tweet_id : Z) (db : database) :
  let db' := fst (run_schedule_tweet_task env self scheduled_tweet_id db) in
  users db' = users db /\ campaigns db' = campaigns db
  /\ analytics db' = analytics db /\ trends db' = trends db
  /\ length (tweets db') = length (tweets db)
  /\ forall t' : ScheduledTweet.t,
      In t' (tweets db') ->
      exists t : ScheduledTweet.t,
        In t (tweets db) /\ same_post t t'
        /\ (ScheduledTweet.id t' <> scheduled_tweet_id -> t' = t).
Proof.
  pose proof (run_writes_commits env self scheduled_tweet_id db) as H.
  destruct (run_schedule_tweet_task env self scheduled_tweet_id db) as [db' tr].
  destruct H as [-> Hrows]. cbn [fst users campaigns analytics trends tweets with_tweets].
  repeat (split; [reflexivity|]).
  split; [apply write_rows_length|].
  intros t' Hin. apply in_write_rows in Hin. destruct Hin as [Hin|Hin].
  - exists t'. split; [assumption|]. split; [unfold same_post; tauto|reflexivity].
  - destruct Hrows as [Hnil|(t & Ht & Hall)]; [rewrite Hnil in Hin; contradiction|].
    apply get_tweet_id in Ht. destruct Ht as [Hid Ht].
    rewrite List.Forall_forall in Hall. specialize (Hall t' Hin).
    exists t. split; [assumption|]. split; [assumption|].
    intros Hne. destruct Hall as [Hid' _]. congruence.
Qed.

(** The run of a successful publish, written out. *)
Lemma publish_success_run (env : environment) (self : request)
    (scheduled_tweet_id : Z) (db : database) (t : ScheduledTweet.t)
    (user : User.t) (tweet_id : string) :
  get_tweet db scheduled_tweet_id = Some t ->
  ScheduledTweet.status t = "scheduled" ->
  db_fault env = None -> broker_up env = true ->
  credentials_ok env db t = true ->
  get_user db (ScheduledTweet.user_id t) = Some user ->
  create_tweet env (ScheduledTweet.content t)
               (str_of (User.twitter_access_token user))
               (str_of (User.twitter_access_token_secret user)) = ApiData tweet_id ->
  let row := ScheduledTweet.mk (ScheduledTweet.id t) (ScheduledTweet.content t)
               (ScheduledTweet.scheduled_time t) "posted" (Some tweet_id) None
               (ScheduledTweet.created_at t) (Some (utcnow env))
               (ScheduledTweet.user_id t) (ScheduledTweet.campaign_id t) in
  run_schedule_tweet_task env self scheduled_tweet_id db
  = (with_tweets (write_row row (tweets db)) db,
     [EvCreateTweet (ScheduledTweet.content t); EvCommit row;
      EvSend (collect_tweet_analytics_msg tweet_id (ScheduledTweet.user_id t)
                                          (ScheduledTweet.campaign_id t) 300)])
  /\ get_tweet (fst (run_schedule_tweet_task env self scheduled_tweet_id db))
               scheduled_tweet_id = Some row.
Proof.
  intros Ht Hs Hf Hb Hc Hu Hp row.
  unfold credentials_ok in Hc. rewrite Hu in Hc.
  apply andb_true_iff in Hc. destruct Hc as [Hauth Hme].
  apply String.eqb_eq in Hs.
  assert (Hrun : run_schedule_tweet_task env self scheduled_tweet_id db
                 = (with_tweets (write_row row (tweets db)) db,
                    [EvCreateTweet (ScheduledTweet.content t); EvCommit row;
                     EvSend (collect_tweet_analytics_msg tweet_id
                               (ScheduledTweet.user_id t)
                               (ScheduledTweet.campaign_id t) 300)])).
  { rewrite <- (get_user_id _ _ _ Hu).
    task_unfold. task_simpl.
    repeat (first [rewrite Hf|rewrite Ht|rewrite Hs|rewrite Hu|rewrite Hauth];
            task_simpl).
    destruct (get_me env _ _); try discriminate Hme. task_simpl.
    repeat (first [rewrite Hf|rewrite Hp|rewrite Hb]; task_simpl).
    reflexivity. }
  split; [exact Hrun|].
  rewrite Hrun. cbn [fst].
  apply (get_tweet_write_row db scheduled_tweet_id t row Ht).
  apply get_tweet_id in Ht. destruct Ht as [Hid _]. exact Hid.
Qed.

(** X4: when the post is scheduled, the owner's credentials are present
    and accepted, Twitter publishes the text and the database and the
    broker work, one execution commits the post as posted, with the tweet
    id Twitter gave, the time of the execution and no error, and then
    sends the analytics task that id, the owner and the campaign with a
    countdown of 300; the retry count plays no part. *)
Theorem publish_success (env : environment) (self : request)
    (scheduled_tweet_id : Z) (db : database) (t : ScheduledTweet.t)
    (user : User.t) (tweet_id : string) :
  get_tweet db scheduled_tweet_id = Some t ->
  ScheduledTweet.status t = "scheduled" ->
  db_fault env = None -> broker_up env = true ->
  credentials_ok env db t = true ->
  get_user db (ScheduledTweet.user_id t) = Some user ->
  create_tweet env (ScheduledTweet.content t)
               (str_of (User.twitter_access_token user))
               (str_of (User.twitter_access_token_secret user)) = ApiData tweet_id ->
  let row := ScheduledTweet.mk (ScheduledTweet.id t) (ScheduledTweet.content t)
               (ScheduledTweet.scheduled_time t) "posted" (Some tweet_id) None
               (ScheduledTweet.created_at t) (Some (utcnow env))
               (ScheduledTweet.user_id t) (ScheduledTweet.campaign_id t) in
  run_schedule_tweet_task env self scheduled_tweet_id db
  = (with_tweets (write_row row (tweets db)) db,
     [EvCreateTweet (ScheduledTweet.content t); EvCommit row;
      EvSend (collect_tweet_analytics_msg tweet_id (ScheduledTweet.user_id t)
                                          (ScheduledTweet.campaign_id t) 300)])
  /\ get_tweet (fst (run_schedule_tweet_task env self scheduled_tweet_id db))
               scheduled_tweet_id = Some row.
Proof.
  exact (publish_success_run env self scheduled_tweet_id db t user tweet_id).
Qed.

Lemma publish_success_witness :
  run_schedule_tweet_task Examples.env_ok (mk_request 2) 1 Examples.db0
  = (mk_db [Examples.alice] [Examples.spring] [Examples.post1_posted] [] [],
     [EvCreateTweet "hello"; EvCommit Examples.post1_posted;
      EvSend (collect_tweet_analytics_msg "99" 5 (Some 7) 300)]).
Proof.
  exact (proj1 (publish_success Examples.env_ok (mk_request 2) 1 Examples.db0
                  Examples.post1 Examples.alice "99"
                  eq_refl eq_refl eq_refl eq_refl eq_refl eq_refl eq_refl)).
Defined.

(** The run for an id without a post in state scheduled. *)
Lemma publish_skip_run (env : environment) (self : request)
    (scheduled_tweet_id : Z) (db : database) :
  (get_tweet db scheduled_tweet_id = None
   \/ exists t : ScheduledTweet.t,
       get_tweet db scheduled_tweet_id = Some t
       /\ ScheduledTweet.status t <> "scheduled") ->
  let '(db', tr) := run_schedule_tweet_task env self scheduled_tweet_id db in
  db' = db /\ api_calls tr = O /\ sent tr = [] /\ commits tr = [].
Proof.
  intros H.
  assert (Hcase : get_tweet db scheduled_tweet_id = None
                  \/ exists t, get_tweet db scheduled_tweet_id = Some t
                               /\ String.eqb (ScheduledTweet.status t) "scheduled"
                                  = false).
  { destruct H as [H|(t & Ht & Hs)]; [auto|].
    right. exists t. split; [assumption|]. apply String.eqb_neq. assumption. }
  clear H. task_unfold. task_simpl.
  destruct (db_fault env) as [n|]; [destruct (n <=? 0)%nat|]; task_simpl;
    destruct Hcase as [Hn|(t & Ht & Hs)];
    rewrite ?Hn, ?Ht; task_simpl; rewrite ?Hs; task_simpl; auto.
Qed.

(** X5: an execution for an id that no post has, or for a post that is not
    in state scheduled (posted, failed, cancelled), calls nothing, sends
    nothing and leaves the database as it is, whatever the environment and
    the retry count: a post is published at most once however often its
    task is delivered. *)
Theorem publish_skips_unscheduled (env : environment) (self : request)
    (scheduled_tweet_id : Z) (db : database) :
  (get_tweet db scheduled_tweet_id = None
   \/ exists t : ScheduledTweet.t,
       get_tweet db scheduled_tweet_id = Some t
       /\ ScheduledTweet.status t <> "scheduled") ->
  let '(db', tr) := run_schedule_tweet_task env self scheduled_tweet_id db in
  db' = db /\ api_calls tr = O /\ sent tr = [] /\ commits tr = [].
Proof.
  exact (publish_skip_run env self scheduled_tweet_id db).
Qed.

Lemma publish_skips_unscheduled_witness :
  fst (run_schedule_tweet_task Examples.env_ok (mk_request 0) 1
         (mk_db [Examples.alice] [Examples.spring] [Examples.post1_posted] [] []))
  = mk_db [Examples.alice] [Examples.spring] [Examples.post1_posted] [] [].
Proof.
  assert (H0 : get_tweet (mk_db [Examples.alice] [Examples.spring] [Examples.post1_posted] [] []) 1 = None
   \/ exists t : ScheduledTweet.t,
       get_tweet (mk_db [Examples.alice] [Examples.spring] [Examples.post1_posted] [] []) 1 = Some t
       /\ ScheduledTweet.status t <> "scheduled").
  { right. exists Examples.post1_posted. split; [reflexivity|discriminate]. }
  pose proof (publish_skips_unscheduled Examples.env_ok (mk_request 0) 1 _ H0) as H.
  destruct (run_schedule_tweet_task Examples.env_ok (mk_request 0) 1
              (mk_db [Examples.alice] [Examples.spring] [Examples.post1_posted] [] []))
    as [db' tr].
  exact (proj1 H).
Defined.

(** X6: when the call of Twitter raises for a scheduled post whose owner's
    credentials are accepted, and the database and the broker work, one
    execution calls Twitter once and commits the post as failed with the
    error; with fewer than three retries behind it, it sends itself again
    with one more retry and a countdown of [60 * 2 ^ retries] seconds (60,
    120, 240), and from the third retry on it sends nothing. *)
Theorem failed_publish_retries_with_backoff (env : environment) (self : request)
    (scheduled_tweet_id : Z) (db : database) (t : ScheduledTweet.t) :
  get_tweet db scheduled_tweet_id = Some t ->
  ScheduledTweet.status t = "scheduled" ->
  db_fault env = None -> broker_up env = true ->
  credentials_ok env db t = true ->
  publish_raises env db t = true ->
  let '(db', tr) := run_schedule_tweet_task env self scheduled_tweet_id db in
  exists reason : string,
    let row := ScheduledTweet.set_error_message (Some reason)
                 (ScheduledTweet.set_status "failed" t) in
    db' = with_tweets (write_row row (tweets db)) db
    /\ get_tweet db' scheduled_tweet_id = Some row
    /\ api_calls tr = 1%nat
    /\ sent tr = if retries self <? 3
                 then [schedule_tweet_msg scheduled_tweet_id (retries self + 1)
                                          (60 * 2 ^ retries self)]
                 else [].
Proof.
  intros Ht Hs Hf Hb Hc Hp.
  destruct (run_schedule_tweet_task env self scheduled_tweet_id db)
    as [db' tr] eqn:Hrun.
  destruct (publish_failure_backoff _ _ _ _ _ _ _ Hrun Ht Hs Hf Hb Hc Hp)
    as (reason & Hdb & Hcalls & Hsent).
  exists reason. cbv zeta in *. repeat split; try assumption.
  rewrite Hdb. apply (get_tweet_write_row db scheduled_tweet_id t); [exact Ht|].
  destruct (get_tweet_id _ _ _ Ht) as [Hid _]. destruct t; exact Hid.
Qed.

Lemma failed_publish_retries_with_backoff_witness :
  sent (snd (run_schedule_tweet_task Examples.env_twitter_down (mk_request 2) 1
               Examples.db0))
  = [schedule_tweet_msg 1 3 240].
Proof.
  pose proof (failed_publish_retries_with_backoff Examples.env_twitter_down
                (mk_request 2) 1 Examples.db0 Examples.post1
                eq_refl eq_refl eq_refl eq_refl eq_refl eq_refl) as H.
  destruct (run_schedule_tweet_task Examples.env_twitter_down (mk_request 2) 1
              Examples.db0) as [db' tr].
  destruct H as (reason & _ & _ & _ & Hsent).
  exact Hsent.
Defined.

(** X7: a publish task delivered twice for the same post publishes it
    once.  When the first execution succeeds, the second one, whatever its
    retry count, finds the post posted and does nothing: Twitter is called
    once and the post keeps the tweet id of the first execution. *)
Theorem duplicate_delivery_posts_once (env : environment)
    (scheduled_tweet_id : Z) (db : database) (t : ScheduledTweet.t)
    (user : User.t) (tweet_id : string) (fuel : nat) (n c1 c2 : Z) :
  get_tweet db scheduled_tweet_id = Some t ->
  ScheduledTweet.status t = "scheduled" ->
  db_fault env = None -> broker_up env = true ->
  credentials_ok env db t = true ->
  get_user db (ScheduledTweet.user_id t) = Some user ->
  create_tweet env (ScheduledTweet.content t)
               (str_of (User.twitter_access_token user))
               (str_of (User.twitter_access_token_secret user)) = ApiData tweet_id ->
  let row := ScheduledTweet.mk (ScheduledTweet.id t) (ScheduledTweet.content t)
               (ScheduledTweet.scheduled_time t) "posted" (Some tweet_id) None
               (ScheduledTweet.created_at t) (Some (utcnow env))
               (ScheduledTweet.user_id t) (ScheduledTweet.campaign_id t) in
  exists tr : list event,
    worker (S (S (S fuel))) env db
           [schedule_tweet_msg scheduled_tweet_id 0 c1;
            schedule_tweet_msg scheduled_tweet_id n c2]
    = (with_tweets (write_row row (tweets db)) db, tr, [])
    /\ api_calls tr = 1%nat
    /\ commits tr = [row].
Proof.
  intros Ht Hs Hf Hb Hc Hu Hp row.
  destruct (publish_success_run env (mk_request 0) scheduled_tweet_id db t user tweet_id
              Ht Hs Hf Hb Hc Hu Hp) as [Hrun1 Hrow]. fold row in Hrun1, Hrow.
  rewrite Hrun1 in Hrow. cbn [fst] in Hrow.
  cbn [worker]. rewrite Hrun1. cbn [sent app].
  set (db1 := with_tweets (write_row row (tweets db)) db) in *.
  assert (Hskip : get_tweet db1 scheduled_tweet_id = None
                  \/ exists t1, get_tweet db1 scheduled_tweet_id = Some t1
                                /\ ScheduledTweet.status t1 <> "scheduled").
  { right. exists row. split; [assumption|]. subst row. cbn. discriminate. }
  pose proof (publish_skip_run env (mk_request n) scheduled_tweet_id db1
                Hskip) as H2.
  destruct (run_schedule_tweet_task env (mk_request n) scheduled_tweet_id db1)
    as [db2 tr2].
  destruct H2 as (-> & Hcalls2 & Hsent2 & Hcommits2).
  rewrite Hsent2. cbn [app]. rewrite worker_empty.
  eexists. split; [reflexivity|].
  rewrite !app_nil_r.
  change ([EvCreateTweet (ScheduledTweet.content t); EvCommit row;
           EvSend (collect_tweet_analytics_msg tweet_id (ScheduledTweet.user_id t)
                     (ScheduledTweet.campaign_id t) 300)] ++ tr2)
    with (EvCreateTweet (ScheduledTweet.content t) :: EvCommit row
          :: EvSend (collect_tweet_analytics_msg tweet_id (ScheduledTweet.user_id t)
                       (ScheduledTweet.campaign_id t) 300) :: tr2).
  cbn [api_calls commits]. rewrite Hcalls2, Hcommits2. split; reflexivity.
Qed.

Lemma duplicate_delivery_posts_once_witness :
  exists tr : list event,
    worker 3 Examples.env_ok Examples.db0
           [schedule_tweet_msg 1 0 0; schedule_tweet_msg 1 0 0]
    = (mk_db [Examples.alice] [Examples.spring] [Examples.post1_posted] [] [], tr, [])
    /\ api_calls tr = 1%nat
    /\ commits tr = [Examples.post1_posted].
Proof.
  exact (duplicate_delivery_posts_once Examples.env_ok 1 Examples.db0
           Examples.post1 Examples.alice "99" 0 0 0 0
           eq_refl eq_refl eq_refl eq_refl eq_refl eq_refl eq_refl).
Defined.

(** ** Content generation *)

Lemma str_len_append (s1 s2 : string) :
  str_len (s1 ++ s2) = (str_len s1 + str_len s2)%nat.
Proof.
  induction s1 as [|c s1 IH]; simpl; [reflexivity|].
  destruct (is_continuation c); rewrite IH; reflexivity.
Qed.

Lemma str_len_prefix (s : string) :
  forall n : nat, str_len (str_prefix n s) = Nat.min n (str_len s).
Proof.
  induction s as [|c s IH]; intros n; simpl; [lia|].
  destruct (is_continuation c) eqn:E.
  - simpl. rewrite E. apply IH.
  - destruct n as [|n]; simpl; [reflexivity|]. rewrite E, IH. reflexivity.
Qed.


(** What [generate_tweet_content] returns, by the length of the response. *)
Lemma generate_tweet_content_length (strip : string -> string)
    (response : result (option string)) :
  match generate_tweet_content strip response with
  | Ok content =>
      exists text : option string,
        response = Ok text
        /\ (str_len content <= 280)%nat
        /\ ((str_len (response_content strip text) <= 280)%nat ->
            content = response_content strip text)
        /\ ((280 < str_len (response_content strip text))%nat ->
            content = (str_prefix 277 (response_content strip text) ++ "...")%string
            /\ str_len content = 280%nat)
  | Raise e =>
      exists e' : exn,
        response = Raise e'
        /\ e = Exception ("Failed to generate content: " ++ exn_str e')%string
  end.
Proof.
  destruct response as [text|e']; cbn [generate_tweet_content]; [|eauto].
  destruct (Nat.ltb_spec 280 (str_len (response_content strip text)))
    as [Hlong|Hshort].
  - exists text. split; [reflexivity|].
    assert (Hlen : str_len
                     (str_prefix 277 (response_content strip text) ++ "...")%string
                   = 280%nat).
    { rewrite str_len_append, str_len_prefix. cbn [str_len is_continuation andb negb].
      lia. }
    split; [lia|]. split; [lia|]. auto.
  - exists text. split; [reflexivity|]. split; [assumption|].
    split; [reflexivity|lia].
Qed.

(** X8: a text that [generate_tweet_content] returns has at most 280
    characters, counted as Python counts them, in code points: it is the
    stripped text of the response when that has at most 280 characters,
    and otherwise its first 277 characters followed by three dots, 280
    characters in all; an exception of the model becomes the exception
    "Failed to generate content". *)
Theorem generate_tweet_content_bounded (strip : string -> string)
    (response : result (option string)) :
  match generate_tweet_content strip response with
  | Ok content =>
      exists text : option string,
        response = Ok text
        /\ (str_len content <= 280)%nat
        /\ ((str_len (response_content strip text) <= 280)%nat ->
            content = response_content strip text)
        /\ ((280 < str_len (response_content strip text))%nat ->
            content = (str_prefix 277 (response_content strip text) ++ "...")%string
            /\ str_len content = 280%nat)
  | Raise e =>
      exists e' : exn,
        response = Raise e'
        /\ e = Exception ("Failed to generate content: " ++ exn_str e')%string
  end.
Proof.
  exact (generate_tweet_content_length strip response).
Qed.

(** Lengths are those of Python: a text of 150 accented letters, 300
    bytes in UTF-8, is within the limit; the generator returns it as it
    is and the form handler accepts it. *)
Lemma accented_text_is_within_the_limit :
  String.length Examples.accented = 300%nat
  /\ str_len Examples.accented = 150%nat
  /\ generate_tweet_content (fun s => s) (Ok (Some Examples.accented))
     = Ok Examples.accented
  /\ flashed (fst (schedule_tweet (fun _ => false) true true Examples.morning 5
                     Examples.accented (Ok (add_days Examples.morning 1)) None
                     Examples.db0))
     = ("Tweet scheduled successfully!", "success").
Proof. repeat split; vm_compute; reflexivity. Qed.

Lemma str_in_true (s : string) (l : list string) : str_in s l = true <-> In s l.
Proof.
  unfold str_in. rewrite existsb_exists. split.
  - intros (x & Hx & E). apply String.eqb_eq in E. subst. assumption.
  - intros H. exists s. split; [assumption|apply String.eqb_refl].
Qed.

Lemma generate_loop_texts (ai : ai_service) (n : nat) :
  forall (i : nat) (acc l : list string),
    generate_loop ai n i acc = Ok l ->
    (List.NoDup acc -> List.NoDup l)
    /\ (~ In "" acc -> ~ In "" l)
    /\ (forall s, In s l ->
                  In s acc \/ exists j, (i <= j < i + n)%nat /\ ai j = Ok s).
Proof.
  induction n as [|n IH]; intros i acc l; cbn [generate_loop].
  - intros [= <-]. auto.
  - destruct (ai i) as [content|e] eqn:Ei; [|discriminate].
    destruct (String.eqb content "") eqn:Ee; cbn [negb andb].
    + intros H. destruct (IH _ _ _ H) as (H1 & H2 & H3).
      split; [assumption|]. split; [assumption|].
      intros s Hs. destruct (H3 s Hs) as [?|(j & Hj & Hai)]; [auto|].
      right. exists j. split; [lia|assumption].
    + destruct (str_in content acc) eqn:Ein; cbn [negb].
      * intros H. destruct (IH _ _ _ H) as (H1 & H2 & H3).
        split; [assumption|]. split; [assumption|].
        intros s Hs. destruct (H3 s Hs) as [?|(j & Hj & Hai)]; [auto|].
        right. exists j. split; [lia|assumption].
      * intros H. destruct (IH _ _ _ H) as (H1 & H2 & H3).
        assert (Hnin : ~ In content acc).
        { intros Hc. apply str_in_true in Hc. congruence. }
        apply String.eqb_neq in Ee.
        split; [|split].
        -- intros Hnd. apply H1.
           apply List.NoDup_app; [assumption|repeat constructor; cbn; tauto|].
           intros x Hx [<- | []]. contradiction.
        -- intros Hne. apply H2. rewrite in_app_iff. intros [Hc|[Hc|[]]]; congruence.
        -- intros s Hs. destruct (H3 s Hs) as [Hacc|(j & Hj & Hai)].
           ++ apply in_app_iff in Hacc. destruct Hacc as [?|[<- |[]]]; [auto|].
              right. exists i. split; [lia|assumption].
           ++ right. exists j. split; [lia|assumption].
Qed.

Lemma generate_call_ok (ai : ai_service) (keywords hashtags : json_value)
    (j : nat) (s : string) :
  generate_call ai keywords hashtags j = Ok s -> ai j = Ok s.
Proof.
  unfold generate_call.
  destruct (join ", " keywords); [|discriminate].
  destruct (join ", " hashtags); [|discriminate]. auto.
Qed.

Lemma generate_call_raises (ai : ai_service) (keywords hashtags : json_value)
    (j : nat) (e : exn) :
  ai j = Raise e -> exists e' : exn, generate_call ai keywords hashtags j = Raise e'.
Proof.
  unfold generate_call. intros H.
  destruct (join ", " keywords); [|eauto].
  destruct (join ", " hashtags); eauto.
Qed.

Lemma generate_call_joined (ai : ai_service) (keywords hashtags : json_value)
    (k h : string) (j : nat) :
  join ", " keywords = Ok k -> join ", " hashtags = Ok h ->
  generate_call ai keywords hashtags j = ai j.
Proof. unfold generate_call. intros -> ->. reflexivity. Qed.

(** The texts [generate_campaign_content] returns. *)
Lemma generate_campaign_content_texts (json_loads : json_loader)
    (ai : ai_service) (db : database) (campaign_id num_tweets : Z) :
  let texts := generate_campaign_content json_loads ai db campaign_id num_tweets in
  List.NoDup texts
  /\ ~ In "" texts
  /\ (length texts <= Z.to_nat num_tweets)%nat
  /\ forall s : string,
      In s texts -> exists j : nat, (j < Z.to_nat num_tweets)%nat /\ ai j = Ok s.
Proof.
  cbv zeta.
  split; [|split; [|split; [apply generate_campaign_content_length|]]];
    unfold generate_campaign_content;
    (destruct (get_campaign db campaign_id) as [campaign|];
     [|cbn; try constructor; tauto]);
    (destruct (loads_or_empty json_loads (Campaign.keywords campaign))
       as [keywords|]; [|cbn; try constructor; tauto]);
    (destruct (loads_or_empty json_loads (Campaign.hashtags campaign))
       as [hashtags|]; [|cbn; try constructor; tauto]);
    (destruct (generate_loop _ (Z.to_nat num_tweets) 0 []) as [l|e] eqn:E;
     [|cbn; try constructor; tauto]);
    destruct (generate_loop_texts _ _ _ _ _ E) as (H1 & H2 & H3).
  - apply H1. constructor.
  - apply H2. cbn. tauto.
  - intros s Hs. destruct (H3 s Hs) as [[]|(j & Hj & Hai)].
    exists j. split; [lia|]. eapply generate_call_ok. eassumption.
Qed.

(** X9: the texts [generate_campaign_content] returns are pairwise
    different and not empty, there are at most [num_tweets] of them, and
    each is the text one of the first [num_tweets] calls of the generator
    returned. *)
Theorem generate_campaign_content_distinct (json_loads : json_loader)
    (ai : ai_service) (db : database) (campaign_id num_tweets : Z) :
  let texts := generate_campaign_content json_loads ai db campaign_id num_tweets in
  List.NoDup texts
  /\ ~ In "" texts
  /\ (length texts <= Z.to_nat num_tweets)%nat
  /\ forall s : string,
      In s texts -> exists j : nat, (j < Z.to_nat num_tweets)%nat /\ ai j = Ok s.
Proof.
  exact (generate_campaign_content_texts json_loads ai db campaign_id num_tweets).
Qed.

Lemma generate_loop_raises (ai : ai_service) (n : nat) :
  forall (i j : nat) (acc : list string) (e : exn),
    (i <= j < i + n)%nat -> ai j = Raise e ->
    exists e' : exn, generate_loop ai n i acc = Raise e'.
Proof.
  induction n as [|n IH]; intros i j acc e Hj Hai; [lia|].
  cbn [generate_loop].
  destruct (ai i) as [content|e0] eqn:Ei; [|eauto].
  assert (Hj' : (S i <= j < S i + n)%nat).
  { destruct (Nat.eq_dec i j) as [->|?]; [congruence|lia]. }
  destruct (negb (String.eqb content "") && negb (str_in content acc));
    eapply IH; eassumption.
Qed.

(** X10: when the campaign does not exist, or one of the first
    [num_tweets] calls of the generator raises, [generate_campaign_content]
    returns the empty list: the texts generated before the failing call
    are lost with it. *)
Theorem generate_campaign_content_all_or_nothing (json_loads : json_loader)
    (ai : ai_service) (db : database) (campaign_id num_tweets : Z) :
  (get_campaign db campaign_id = None
   \/ exists (j : nat) (e : exn), (j < Z.to_nat num_tweets)%nat /\ ai j = Raise e) ->
  generate_campaign_content json_loads ai db campaign_id num_tweets = [].
Proof.
  unfold generate_campaign_content. intros [H|(j & e & Hj & Hai)].
  - rewrite H. reflexivity.
  - destruct (get_campaign db campaign_id) as [campaign|]; [|reflexivity].
    destruct (loads_or_empty json_loads (Campaign.keywords campaign))
      as [keywords|]; [|reflexivity].
    destruct (loads_or_empty json_loads (Campaign.hashtags campaign))
      as [hashtags|]; [|reflexivity].
    destruct (generate_call_raises ai keywords hashtags j e Hai) as [e0 Hcall].
    destruct (generate_loop_raises (generate_call ai keywords hashtags)
                (Z.to_nat num_tweets) 0 j [] e0) as [e' He'];
      [lia|assumption|].
    rewrite He'. reflexivity.
Qed.

Lemma generate_loop_complete (ai : ai_service) (texts : list string) :
  forall (i : nat) (acc : list string),
    List.NoDup (acc ++ texts) -> ~ In "" texts ->
    (forall (j : nat) (s : string), texts !! j = Some s -> ai (i + j)%nat = Ok s) ->
    generate_loop ai (length texts) i acc = Ok (acc ++ texts).
Proof.
  induction texts as [|s texts IH]; intros i acc Hnd Hne Hai; cbn [length generate_loop].
  - rewrite app_nil_r. reflexivity.
  - rewrite <- (Nat.add_0_r i) at 1. rewrite (Hai 0%nat s eq_refl).
    assert (Hs : String.eqb s "" = false).
    { apply String.eqb_neq. intros ->. apply Hne. left. reflexivity. }
    assert (Hin : str_in s acc = false).
    { destruct (str_in s acc) eqn:E; [|reflexivity].
      apply str_in_true in E. apply List.NoDup_remove_2 in Hnd.
      exfalso. apply Hnd. apply in_app_iff. auto. }
    rewrite Hs, Hin. cbn [negb andb].
    rewrite (IH (S i) (acc ++ [s])).
    + rewrite <- app_assoc. reflexivity.
    + rewrite <- app_assoc. exact Hnd.
    + intros H. apply Hne. right. assumption.
    + intros j s' Hj. replace (S i + j)%nat with (i + S j)%nat by lia.
      apply Hai. exact Hj.
Qed.

(** X11: when the campaign exists, its keywords and its hashtags are
    empty or load as JSON values that [', '.join] accepts, and the
    generator returns, call after call, texts that are not empty and
    pairwise different, then [generate_campaign_content] asked for as
    many returns exactly these texts, in the order of the calls. *)
Theorem generate_campaign_content_complete (json_loads : json_loader)
    (ai : ai_service) (db : database) (campaign_id : Z) (campaign : Campaign.t)
    (keywords hashtags : json_value) (k h : string) (texts : list string) :
  get_campaign db campaign_id = Some campaign ->
  loads_or_empty json_loads (Campaign.keywords campaign) = Ok keywords ->
  loads_or_empty json_loads (Campaign.hashtags campaign) = Ok hashtags ->
  join ", " keywords = Ok k -> join ", " hashtags = Ok h ->
  List.NoDup texts -> ~ In "" texts ->
  (forall (j : nat) (s : string), texts !! j = Some s -> ai j = Ok s) ->
  generate_campaign_content json_loads ai db campaign_id
                            (Z.of_nat (length texts)) = texts.
Proof.
  intros Hc Hk Hh Hjk Hjh Hnd Hne Hai. unfold generate_campaign_content.
  rewrite Hc, Hk, Hh, Nat2Z.id.
  rewrite (generate_loop_complete (generate_call ai keywords hashtags) texts 0 []);
    [reflexivity|exact Hnd|exact Hne|].
  intros j s Hj. rewrite (generate_call_joined ai keywords hashtags k h _ Hjk Hjh).
  apply Hai. exact Hj.
Qed.

Lemma generate_campaign_content_all_or_nothing_witness :
  generate_campaign_content Examples.loads
    (fun n => match n with
              | 2%nat => Raise (Exception "Failed to generate content: quota")
              | _ => Examples.six_texts n
              end)
    Examples.db_empty 7 6 = [].
Proof.
  apply generate_campaign_content_all_or_nothing.
  right. exists 2%nat, (Exception "Failed to generate content: quota").
  split; [vm_compute; lia|reflexivity].
Defined.

Lemma generate_campaign_content_complete_witness :
  generate_campaign_content Examples.loads Examples.six_texts Examples.db_empty 7 6
  = ["one"; "two"; "three"; "four"; "five"; "six"].
Proof.
  apply (generate_campaign_content_complete Examples.loads Examples.six_texts
           Examples.db_empty 7 Examples.spring (JsonList []) (JsonList []) "" ""
           ["one"; "two"; "three"; "four"; "five"; "six"]).
  - reflexivity.
  - reflexivity.
  - reflexivity.
  - reflexivity.
  - reflexivity.
  - repeat constructor; cbn; intuition discriminate.
  - cbn. intuition discriminate.
  - intros [|[|[|[|[|[|j]]]]]] s; cbn; intros [= <-]; reflexivity.
Defined.

(** ** The batch scheduler, for every frequency *)

Lemma schedule_day_inv (campaign : Campaign.t) (campaign_id frequency : Z)
    (tweet_contents : list string) (current_date : datetime) (idxs : list Z) :
  forall st st' : sched_state,
    schedule_day campaign campaign_id frequency tweet_contents current_date idxs st
    = Ok st' ->
    sched_inv campaign campaign_id tweet_contents st ->
    sched_inv campaign campaign_id tweet_contents st'.
Proof.
  induction idxs as [|i idxs IH]; intros st st'; cbn [schedule_day].
  - intros [= <-]. auto.
  - destruct (nth_error tweet_contents (content_index st)) as [text|] eqn:E;
      [|intros [= <-]; auto].
    destruct (hour_offset frequency i) as [h|e]; [|discriminate].
    unfold replace_hour.
    destruct (Z.leb_spec 0 h) as [Hh0|?]; [|discriminate].
    destruct (Z.leb_spec h 23) as [Hh1|?]; [|discriminate].
    cbn [andb]. intros Hday [Hcount Hrows]. apply (IH _ _ Hday).
    split; cbn [session scheduled_count].
    + rewrite length_app. cbn. lia.
    + apply List.Forall_app. split; [assumption|].
      constructor; [|constructor].
      unfold campaign_row. cbn.
      split; [eapply nth_error_In; eassumption|]. repeat split; auto; lia.
Qed.

Lemma schedule_loop_inv (campaign : Campaign.t) (campaign_id frequency : Z)
    (tweet_contents : list string) (end_date : datetime) (D : nat) :
  forall (current_date : datetime) (st st' : sched_state),
    days_left end_date current_date = D ->
    schedule_loop campaign campaign_id frequency tweet_contents end_date
                  current_date st = Ok st' ->
    sched_inv campaign campaign_id tweet_contents st ->
    sched_inv campaign campaign_id tweet_contents st'.
Proof.
  induction D as [|D IH]; intros current_date st st' HD; rewrite schedule_loop_step;
    unfold sched_continue.
  - rewrite (days_left_zero _ _ HD). cbn [andb]. intros [= <-]. auto.
  - destruct (days_left_succ _ _ _ HD) as [Hle HD']. rewrite Hle. cbn [andb].
    destruct (content_index st <? length tweet_contents)%nat;
      [|intros [= <-]; auto].
    destruct (schedule_day campaign campaign_id frequency tweet_contents
                current_date (range frequency) st) as [st1|e] eqn:E;
      [|discriminate].
    unfold next_day.
    destruct (day current_date + 1 <=? max_ordinal); [|discriminate].
    intros H Hinv. apply (IH _ _ _ HD' H).
    apply (schedule_day_inv _ _ _ _ _ _ _ _ E Hinv).
Qed.

Lemma insert_tweets_rows (now : datetime) (ps : list pending_tweet) :
  forall (pk : Z) (t : ScheduledTweet.t),
    In t (insert_tweets now pk ps) ->
    exists (p : pending_tweet) (k : Z),
      In p ps /\ t = insert_tweet now k p /\ pk <= k.
Proof.
  induction ps as [|p ps IH]; intros pk t; cbn; [contradiction|].
  intros [<- | H].
  - exists p, pk. split; [auto|]. split; [reflexivity|lia].
  - destruct (IH _ _ H) as (q & k & Hq & -> & Hk).
    exists q, k. split; [auto|]. split; [reflexivity|lia].
Qed.

Lemma insert_tweets_length (now : datetime) (ps : list pending_tweet) (pk : Z) :
  length (insert_tweets now pk ps) = length ps.
Proof. revert pk; induction ps as [|p ps IH]; intros pk; cbn; auto. Qed.

Lemma next_tweet_id_above (l : list ScheduledTweet.t) (t : ScheduledTweet.t) :
  In t l -> ScheduledTweet.id t < next_tweet_id l.
Proof.
  unfold next_tweet_id. induction l as [|x l IH]; cbn; [contradiction|].
  intros [<- | H]; [lia|]. specialize (IH H). lia.
Qed.

(** The rows a run of [schedule_campaign_tweets] adds. *)
Lemma schedule_campaign_tweets_rows (json_loads : json_loader) (ai : ai_service)
    (now : datetime) (db db' : database) (campaign_id : Z)
    (start_date end_date : datetime) (tweets_per_day : option Z) (n : Z) :
  schedule_campaign_tweets json_loads ai now db campaign_id start_date end_date
                           tweets_per_day
  = (Ok n, db') ->
  exists (campaign : Campaign.t) (frequency : Z) (added : list ScheduledTweet.t),
    get_campaign db campaign_id = Some campaign
    /\ py_or tweets_per_day (Campaign.tweet_frequency campaign) = Some frequency
    /\ db' = with_tweets (tweets db ++ added) db
    /\ n = Z.of_nat (length added)
    /\ forall t : ScheduledTweet.t,
        In t added ->
        ScheduledTweet.status t = "scheduled"
        /\ ScheduledTweet.tweet_id t = None
        /\ ScheduledTweet.error_message t = None
        /\ ScheduledTweet.posted_at t = None
        /\ ScheduledTweet.created_at t = now
        /\ In (ScheduledTweet.content t)
              (generate_campaign_content json_loads ai db campaign_id
                 ((sub_days end_date start_date + 1) * frequency))
        /\ ScheduledTweet.user_id t = Campaign.user_id campaign
        /\ ScheduledTweet.campaign_id t = Some campaign_id
        /\ 0 <= hour (ScheduledTweet.scheduled_time t) <= 23
        /\ minute (ScheduledTweet.scheduled_time t) = 0
        /\ second (ScheduledTweet.scheduled_time t) = 0
        /\ forall t0 : ScheduledTweet.t,
            In t0 (tweets db) -> ScheduledTweet.id t0 < ScheduledTweet.id t.
Proof.
  unfold schedule_campaign_tweets, schedule_campaign_tweets_body.
  destruct (get_campaign db campaign_id) as [campaign|] eqn:Ec; [|discriminate].
  destruct (py_or tweets_per_day (Campaign.tweet_frequency campaign))
    as [frequency|] eqn:Ef; [|discriminate].
  cbv zeta.
  set (texts := generate_campaign_content json_loads ai db campaign_id
                  ((sub_days end_date start_date + 1) * frequency)).
  destruct texts as [|text rest] eqn:Et; [discriminate|]. rewrite <- Et.
  destruct (schedule_loop campaign campaign_id frequency texts end_date start_date
              (mk_sched [] 0 0)) as [st|e] eqn:El; [|discriminate].
  intros [= <- <-].
  destruct (schedule_loop_inv campaign campaign_id frequency texts end_date
              (days_left end_date start_date) start_date (mk_sched [] 0 0) st
              eq_refl El) as [Hcount Hrows].
  { split; [reflexivity|constructor]. }
  exists campaign, frequency,
    (insert_tweets now (next_tweet_id (tweets db)) (session st)).
  split; [reflexivity|]. split; [exact Ef|]. split; [reflexivity|].
  split; [rewrite insert_tweets_length; exact Hcount|].
  intros t Ht. apply insert_tweets_rows in Ht.
  destruct Ht as (p & k & Hp & -> & Hk).
  rewrite List.Forall_forall in Hrows.
  destruct (Hrows p Hp) as (H1 & H2 & H3 & H4 & H5 & H6).
  cbn. repeat split; auto; try lia.
  intros t0 Ht0. apply next_tweet_id_above in Ht0. lia.
Qed.

(** X12: whatever the frequency and the dates, when
    [schedule_campaign_tweets] returns a count, it has left the users, the
    campaigns, the metrics, the trends and the posts there were as they
    are and added that many posts after them; each added post is in state
    scheduled, without tweet id, error or posting time, created at the
    time of the commit, with a text of the generated ones, the campaign's
    id and the campaign's owner, a scheduled time on the hour and a new id
    above every id there was. *)
Theorem schedule_campaign_tweets_adds_scheduled_rows (json_loads : json_loader)
    (ai : ai_service) (now : datetime) (db db' : database) (campaign_id : Z)
    (start_date end_date : datetime) (tweets_per_day : option Z) (n : Z) :
  schedule_campaign_tweets json_loads ai now db campaign_id start_date end_date
                           tweets_per_day
  = (Ok n, db') ->
  exists (campaign : Campaign.t) (frequency : Z) (added : list ScheduledTweet.t),
    get_campaign db campaign_id = Some campaign
    /\ py_or tweets_per_day (Campaign.tweet_frequency campaign) = Some frequency
    /\ db' = with_tweets (tweets db ++ added) db
    /\ n = Z.of_nat (length added)
    /\ forall t : ScheduledTweet.t,
        In t added ->
        ScheduledTweet.status t = "scheduled"
        /\ ScheduledTweet.tweet_id t = None
        /\ ScheduledTweet.error_message t = None
        /\ ScheduledTweet.posted_at t = None
        /\ ScheduledTweet.created_at t = now
        /\ In (ScheduledTweet.content t)
              (generate_campaign_content json_loads ai db campaign_id
                 ((sub_days end_date start_date + 1) * frequency))
        /\ ScheduledTweet.user_id t = Campaign.user_id campaign
        /\ ScheduledTweet.campaign_id t = Some campaign_id
        /\ 0 <= hour (ScheduledTweet.scheduled_time t) <= 23
        /\ minute (ScheduledTweet.scheduled_time t) = 0
        /\ second (ScheduledTweet.scheduled_time t) = 0
        /\ forall t0 : ScheduledTweet.t,
            In t0 (tweets db) -> ScheduledTweet.id t0 < ScheduledTweet.id t.
Proof.
  exact (schedule_campaign_tweets_rows json_loads ai now db db' campaign_id
           start_date end_date tweets_per_day n).
Qed.

Lemma schedule_campaign_tweets_adds_scheduled_rows_witness :
  exists (campaign : Campaign.t) (frequency : Z) (added : list ScheduledTweet.t),
    get_campaign Examples.db_empty 7 = Some campaign
    /\ py_or None (Campaign.tweet_frequency campaign) = Some frequency
    /\ fst (schedule_campaign_tweets Examples.loads Examples.six_texts
              Examples.morning Examples.db_empty 7 Examples.morning
              (add_days Examples.morning 1) None)
       = Ok (Z.of_nat (length added)).
Proof.
  destruct (schedule_campaign_tweets_adds_scheduled_rows Examples.loads
              Examples.six_texts Examples.morning Examples.db_empty
              (snd (schedule_campaign_tweets Examples.loads Examples.six_texts
                      Examples.morning Examples.db_empty 7 Examples.morning
                      (add_days Examples.morning 1) None))
              7 Examples.morning (add_days Examples.morning 1) None 6 eq_refl)
    as (campaign & frequency & added & H1 & H2 & _ & H4 & _).
  exists campaign, frequency, added.
  split; [exact H1|]. split; [exact H2|]. rewrite <- H4. reflexivity.
Defined.

(** X13: for a frequency of at least one, a range whose end is before its
    start makes [schedule_campaign_tweets] raise "Failed to schedule
    tweets" and leave the database as it is: no text is asked of the
    generator. *)
Theorem schedule_reversed_range_raises (json_loads : json_loader)
    (ai : ai_service) (now : datetime) (db : database) (campaign_id : Z)
    (start_date end_date : datetime) (tweets_per_day : option Z)
    (campaign : Campaign.t) (frequency : Z) :
  get_campaign db campaign_id = Some campaign ->
  py_or tweets_per_day (Campaign.tweet_frequency campaign) = Some frequency ->
  1 <= frequency ->
  micros end_date < micros start_date ->
  schedule_campaign_tweets json_loads ai now db campaign_id start_date end_date
                           tweets_per_day
  = (Raise (Exception "Failed to schedule tweets"), db).
Proof.
  intros Hc Hf HN Hlt.
  unfold schedule_campaign_tweets, schedule_campaign_tweets_body.
  rewrite Hc, Hf. cbv zeta.
  assert (Hdays : sub_days end_date start_date + 1 <= 0).
  { unfold sub_days.
    assert ((micros end_date - micros start_date) / us_per_day < 0)
      by (apply Z.div_lt_upper_bound; unfold us_per_day; lia).
    lia. }
  unfold generate_campaign_content. rewrite Hc.
  destruct (loads_or_empty json_loads (Campaign.keywords campaign));
    [|reflexivity].
  destruct (loads_or_empty json_loads (Campaign.hashtags campaign));
    [|reflexivity].
  replace (Z.to_nat ((sub_days end_date start_date + 1) * frequency)) with O
    by (symmetry; apply Z2Nat.nonpos; nia).
  reflexivity.
Qed.

Lemma schedule_reversed_range_raises_witness :
  schedule_campaign_tweets Examples.loads Examples.six_texts Examples.morning
    Examples.db_empty 7 Examples.morning (add_days Examples.morning (-1)) (Some 2)
  = (Raise (Exception "Failed to schedule tweets"), Examples.db_empty).
Proof.
  apply (schedule_reversed_range_raises Examples.loads Examples.six_texts
           Examples.morning Examples.db_empty 7 Examples.morning
           (add_days Examples.morning (-1)) (Some 2) Examples.spring 2);
    [reflexivity|reflexivity|lia|].
  vm_compute. reflexivity.
Defined.

(** X26: a campaign whose keywords or hashtags are a text that
    [json.loads] rejects, as the raw text of a form field is, or a JSON
    value that [', '.join] rejects, gets no content, however many texts
    are asked for, and scheduling it raises "Failed to schedule tweets"
    and leaves the database as it is, whatever the dates and the
    frequency. *)
Theorem unusable_campaign_data_blocks_scheduling (json_loads : json_loader)
    (ai : ai_service) (db : database) (campaign_id : Z) (campaign : Campaign.t)
    (column : option string) (e : exn) :
  get_campaign db campaign_id = Some campaign ->
  column = Campaign.keywords campaign \/ column = Campaign.hashtags campaign ->
  loads_or_empty json_loads column = Raise e
  \/ (exists v : json_value,
         loads_or_empty json_loads column = Ok v /\ join ", " v = Raise e) ->
  (forall num_tweets : Z,
      generate_campaign_content json_loads ai db campaign_id num_tweets = [])
  /\ (forall (now start_date end_date : datetime) (tweets_per_day : option Z),
         schedule_campaign_tweets json_loads ai now db campaign_id start_date
                                  end_date tweets_per_day
         = (Raise (Exception "Failed to schedule tweets"), db)).
Proof.
  intros Hc Hcol Hbad.
  assert (Hgen : forall num_tweets : Z,
             generate_campaign_content json_loads ai db campaign_id num_tweets = []).
  { intros num_tweets. unfold generate_campaign_content. rewrite Hc.
    destruct (loads_or_empty json_loads (Campaign.keywords campaign))
      as [keywords|ek] eqn:Ek; [|reflexivity].
    destruct (loads_or_empty json_loads (Campaign.hashtags campaign))
      as [hashtags|eh] eqn:Eh; [|reflexivity].
    assert (Hcall : forall i : nat,
               exists e' : exn, generate_call ai keywords hashtags i = Raise e').
    { intros i. unfold generate_call.
      destruct Hbad as [Hload|(v & Hload & Hjoin)];
        destruct Hcol as [-> | ->]; try congruence.
      - rewrite Ek in Hload. injection Hload as <-. rewrite Hjoin. eauto.
      - rewrite Eh in Hload. injection Hload as <-.
        destruct (join ", " keywords); [rewrite Hjoin|]; eauto. }
    destruct (Z.to_nat num_tweets) as [|n]; [reflexivity|].
    cbn [generate_loop]. destruct (Hcall 0%nat) as [e' ->]. reflexivity. }
  split; [exact Hgen|].
  intros now start_date end_date tweets_per_day.
  unfold schedule_campaign_tweets, schedule_campaign_tweets_body. rewrite Hc.
  destruct (py_or tweets_per_day (Campaign.tweet_frequency campaign));
    [|reflexivity].
  cbv zeta. rewrite Hgen. reflexivity.
Qed.

Lemma unusable_campaign_data_blocks_scheduling_witness :
  schedule_campaign_tweets Examples.loads Examples.six_texts Examples.morning
    Examples.db_summer 8 Examples.morning (add_days Examples.morning 1) None
  = (Raise (Exception "Failed to schedule tweets"), Examples.db_summer).
Proof.
  apply (proj2 (unusable_campaign_data_blocks_scheduling Examples.loads
                  Examples.six_texts Examples.db_summer 8 Examples.summer
                  (Some "python, ai")
                  (ValueError "Expecting value: line 1 column 1 (char 0)")
                  eq_refl (or_introl eq_refl) (or_introl eq_refl))).
Defined.

(** X14: the posts that the batch scheduler adds from the texts of
    [generate_tweet_content] have at most 280 characters each, counted in
    code points. *)
Theorem scheduled_campaign_content_bounded (json_loads : json_loader)
    (strip : string -> string) (responses : nat -> result (option string))
    (now : datetime) (db db' : database) (campaign_id : Z)
    (start_date end_date : datetime) (tweets_per_day : option Z) (n : Z) :
  schedule_campaign_tweets json_loads (ai_of strip responses) now db campaign_id
                           start_date end_date tweets_per_day = (Ok n, db') ->
  forall t : ScheduledTweet.t,
    In t (tweets db') ->
    In t (tweets db) \/ (str_len (ScheduledTweet.content t) <= 280)%nat.
Proof.
  intros Hrun t Ht.
  destruct (schedule_campaign_tweets_rows _ _ _ _ _ _ _ _ _ _ Hrun)
    as (campaign & frequency & added & _ & _ & -> & _ & Hadded).
  cbn [tweets with_tweets] in Ht. apply in_app_iff in Ht.
  destruct Ht as [Ht|Ht]; [left; assumption|right].
  destruct (Hadded t Ht) as (_ & _ & _ & _ & _ & Hin & _).
  destruct (generate_campaign_content_texts json_loads (ai_of strip responses) db
              campaign_id ((sub_days end_date start_date + 1) * frequency))
    as (_ & _ & _ & Hsrc).
  destruct (Hsrc _ Hin) as (j & _ & Hj).
  unfold ai_of in Hj.
  pose proof (generate_tweet_content_length strip (responses j)) as Hb.
  rewrite Hj in Hb. destruct Hb as (text & _ & Hlen & _). exact Hlen.
Qed.

Lemma scheduled_campaign_content_bounded_witness :
  let t0 := ScheduledTweet.mk 1 "one" (mk_datetime 739000 6 0 0 0) "scheduled"
              None None Examples.morning None 5 (Some 7) in
  In t0 (tweets Examples.db_empty)
  \/ (str_len (ScheduledTweet.content t0) <= 280)%nat.
Proof.
  intros t0.
  apply (scheduled_campaign_content_bounded Examples.loads (fun s => s)
           (fun n => match Examples.six_texts n with
                     | Ok s => Ok (Some s)
                     | Raise e => Raise e
                     end)
           Examples.morning Examples.db_empty
           (snd (schedule_campaign_tweets Examples.loads
                   (ai_of (fun s => s)
                      (fun n => match Examples.six_texts n with
                                | Ok s => Ok (Some s)
                                | Raise e => Raise e
                                end))
                   Examples.morning Examples.db_empty 7 Examples.morning
                   (add_days Examples.morning 1) None))
           7 Examples.morning (add_days Examples.morning 1) None 6 eq_refl t0).
  left. reflexivity.
Defined.

(** ** Pausing and resuming, composed *)

Lemma set_status_same (t : ScheduledTweet.t) :
  ScheduledTweet.set_status (ScheduledTweet.status t) t = t.
Proof. destruct t; reflexivity. Qed.

Lemma map_map_id {A : Type} (f g : A -> A) (l : list A) :
  (forall x, In x l -> g (f x) = f x) -> map g (map f l) = map f l.
Proof.
  intros H. rewrite map_map. apply map_ext_in. exact H.
Qed.

Lemma update_is_active_twice (now1 now2 : datetime) (b : bool) (c : Campaign.t) :
  update_is_active now2 b (update_is_active now1 b c) = update_is_active now1 b c.
Proof.
  unfold update_is_active.
  destruct (Bool.eqb (Campaign.is_active c) b) eqn:E; [rewrite E; reflexivity|].
  cbn. rewrite Bool.eqb_reflx. reflexivity.
Qed.

(** X15: pausing a campaign twice is pausing it once, and resuming it
    twice at the same time is resuming it once: the second call returns
    the same flag and leaves the database of the first, the campaign's
    [updated_at] included, whenever the second commit happens. *)
Theorem pause_resume_idempotent (paused_at paused_again : datetime)
    (now resumed_at resumed_again : datetime) (db : database) (campaign_id : Z) :
  pause_campaign paused_again (snd (pause_campaign paused_at db campaign_id))
                 campaign_id
  = pause_campaign paused_at db campaign_id
  /\ resume_campaign now resumed_again
                     (snd (resume_campaign now resumed_at db campaign_id))
                     campaign_id
     = resume_campaign now resumed_at db campaign_id.
Proof.
  split.
  - unfold pause_campaign at 2 3.
    destruct (get_campaign db campaign_id) as [campaign|] eqn:Ec; cbn [snd].
    + unfold pause_campaign, get_campaign. cbn [campaigns tweets with_tweets with_campaigns].
      rewrite find_campaign_map
        by (intros c; destruct (Campaign.id c =? Campaign.id campaign);
            [apply update_is_active_id|reflexivity]).
      unfold get_campaign in Ec. rewrite Ec. cbn [option_map].
      rewrite Z.eqb_refl, update_is_active_id.
      f_equal. unfold with_tweets, with_campaigns. cbn. f_equal.
      * apply map_map_id. intros c _.
        destruct (Campaign.id c =? Campaign.id campaign) eqn:E.
        -- rewrite update_is_active_id, E. apply update_is_active_twice.
        -- rewrite E. reflexivity.
      * apply map_map_id. intros t _.
        destruct (pause_selects campaign_id t) eqn:E; [|rewrite E; reflexivity].
        unfold pause_selects. cbn. rewrite andb_false_r. reflexivity.
    + unfold pause_campaign. rewrite Ec. reflexivity.
  - unfold resume_campaign at 2 3.
    destruct (get_campaign db campaign_id) as [campaign|] eqn:Ec; cbn [snd].
    + unfold resume_campaign, get_campaign. cbn [campaigns tweets with_tweets with_campaigns].
      rewrite find_campaign_map
        by (intros c; destruct (Campaign.id c =? Campaign.id campaign);
            [apply update_is_active_id|reflexivity]).
      unfold get_campaign in Ec. rewrite Ec. cbn [option_map].
      rewrite Z.eqb_refl, update_is_active_id.
      f_equal. unfold with_tweets, with_campaigns. cbn. f_equal.
      * apply map_map_id. intros c _.
        destruct (Campaign.id c =? Campaign.id campaign) eqn:E.
        -- rewrite update_is_active_id, E. apply update_is_active_twice.
        -- rewrite E. reflexivity.
      * apply map_map_id. intros t _.
        destruct (resume_selects now campaign_id t) eqn:E; [|rewrite E; reflexivity].
        unfold resume_selects. cbn. rewrite andb_false_r. reflexivity.
    + unfold resume_campaign. rewrite Ec. reflexivity.
Qed.

(** X16: pausing and then resuming a campaign gives back the posts there
    were and every other row but the campaign's own, which is as it was
    except for its [updated_at], now the time of the resume; this when
    the campaign was active, none of its posts was cancelled before, and
    each of its scheduled posts is still due after the time of the
    resume. *)
Theorem resume_undoes_pause (paused_at now resumed_at : datetime) (db : database)
    (campaign_id : Z) (campaign : Campaign.t) :
  get_campaign db campaign_id = Some campaign ->
  (forall c : Campaign.t,
      In c (campaigns db) -> Campaign.id c = Campaign.id campaign ->
      Campaign.is_active c = true) ->
  (forall t : ScheduledTweet.t,
      In t (tweets db) -> ScheduledTweet.campaign_id t = Some campaign_id ->
      ScheduledTweet.status t <> "cancelled"
      /\ (ScheduledTweet.status t = "scheduled" ->
          micros now < micros (ScheduledTweet.scheduled_time t))) ->
  resume_campaign now resumed_at (snd (pause_campaign paused_at db campaign_id))
                  campaign_id
  = (true,
     mk_db (users db)
           (map (fun c => if Campaign.id c =? campaign_id
                          then Campaign.mk (Campaign.id c) (Campaign.keywords c)
                                 (Campaign.hashtags c) (Campaign.tweet_frequency c)
                                 (Campaign.is_active c) resumed_at
                                 (Campaign.user_id c)
                          else c)
                (campaigns db))
           (tweets db) (analytics db) (trends db)).
Proof.
  intros Hc Hactive Hposts.
  assert (Hid : Campaign.id campaign = campaign_id).
  { unfold get_campaign in Hc. apply find_some in Hc. destruct Hc as [_ Hc].
    apply Z.eqb_eq in Hc. exact Hc. }
  unfold pause_campaign. rewrite Hc. cbn [snd].
  unfold resume_campaign, get_campaign.
  cbn [campaigns tweets with_tweets with_campaigns].
  rewrite find_campaign_map
    by (intros c; destruct (Campaign.id c =? Campaign.id campaign);
        [apply update_is_active_id|reflexivity]).
  unfold get_campaign in Hc. rewrite Hc. cbn [option_map].
  rewrite Z.eqb_refl, update_is_active_id.
  f_equal. unfold with_tweets, with_campaigns. cbn.
  destruct db as [us cs ts an tr]. cbn in *. f_equal.
  - rewrite map_map. apply map_ext_in. intros c Hin. rewrite Hid.
    destruct (Campaign.id c =? campaign_id) eqn:E.
    + rewrite update_is_active_id, E.
      apply Z.eqb_eq in E. rewrite <- Hid in E. specialize (Hactive c Hin E).
      unfold update_is_active. rewrite Hactive. cbn. reflexivity.
    + rewrite E. reflexivity.
  - rewrite map_map. rewrite <- (map_id ts) at 2. apply map_ext_in. intros t Hin.
    destruct (pause_selects campaign_id t) eqn:E.
    + apply pause_selects_true in E. destruct E as [E1 E2].
      destruct (Hposts t Hin E1) as [_ Hfuture]. specialize (Hfuture E2).
      rewrite (proj2 (resume_selects_true now campaign_id
                        (ScheduledTweet.set_status "cancelled" t)))
        by (cbn; auto).
      destruct t; cbn in *. subst. reflexivity.
    + destruct (resume_selects now campaign_id t) eqn:E'; [|reflexivity].
      apply resume_selects_true in E'. destruct E' as (E1 & E2 & _).
      destruct (Hposts t Hin E1) as [Hnc _]. contradiction.
Qed.

Lemma resume_undoes_pause_witness :
  resume_campaign (add_days Examples.morning (-1)) (add_days Examples.morning (-1))
    (snd (pause_campaign (add_days Examples.morning (-2)) Examples.db0 7)) 7
  = (true,
     mk_db [Examples.alice]
           [Campaign.mk 7 (Some "[]") None (Some 3) true
                        (add_days Examples.morning (-1)) 5]
           [Examples.post1] [] []).
Proof.
  apply (resume_undoes_pause (add_days Examples.morning (-2))
           (add_days Examples.morning (-1)) (add_days Examples.morning (-1))
           Examples.db0 7 Examples.spring eq_refl).
  - intros c [<- | []] _. reflexivity.
  - intros t [<- | []] _. split; [discriminate|]. intros _. vm_compute. reflexivity.
Defined.

(** ** The cleanup job, beyond the posts *)

Lemma filter_filter_implied {A : Type} (p q : A -> bool) (l : list A) :
  (forall x, p x = true -> q x = true) ->
  List.filter p (List.filter q l) = List.filter p l.
Proof.
  intros H. induction l as [|x l IH]; cbn; [reflexivity|].
  destruct (q x) eqn:Eq; cbn.
  - rewrite IH. reflexivity.
  - destruct (p x) eqn:Ep; [|assumption].
    rewrite (H x Ep) in Eq. discriminate.
Qed.

(** X17: one run of the cleanup keeps a trend exactly when it was updated
    less than 24 hours before the run or exactly then, in the order there
    was, and leaves the users, the campaigns and the metrics as they
    are. *)
Theorem cleanup_trends (now now' : datetime) (db : database) :
  let db' := cleanup_old_data now now' db in
  users db' = users db /\ campaigns db' = campaigns db
  /\ analytics db' = analytics db
  /\ trends db'
     = List.filter (fun h => micros now' - us_per_day
                             <=? micros (TrendingHashtag.updated_at h))
                   (trends db)
  /\ forall h : TrendingHashtag.t,
      In h (trends db') <->
      In h (trends db)
      /\ micros now' - us_per_day <= micros (TrendingHashtag.updated_at h).
Proof.
  cbv zeta. unfold cleanup_old_data.
  cbn [users campaigns analytics trends with_trends with_tweets].
  assert (Hext : forall h,
             negb (is_old_trend (add_days now' (-1)) h)
             = (micros now' - us_per_day <=? micros (TrendingHashtag.updated_at h))).
  { intros h. unfold is_old_trend, ltb.
    replace (micros (add_days now' (-1))) with (micros now' - us_per_day)
      by (unfold micros, add_days, us_per_day;
          cbn [day hour minute second microsecond]; lia).
    rewrite Z.ltb_antisym, negb_involutive. reflexivity. }
  repeat (split; [reflexivity|]).
  split; [apply List.filter_ext; exact Hext|].
  intros h. rewrite filter_In, Hext, Z.leb_le. reflexivity.
Qed.

Lemma is_old_tweet_monotone (c1 c2 : datetime) (t : ScheduledTweet.t) :
  micros c1 <= micros c2 -> is_old_tweet c1 t = true -> is_old_tweet c2 t = true.
Proof.
  intros Hle H. apply is_old_tweet_true in H. apply is_old_tweet_true.
  destruct H as [(p & Hp & Hlt) Hs]. split; [|assumption].
  exists p. split; [assumption|lia].
Qed.

(** X18: a run of the cleanup after an earlier run leaves what it would
    leave without the earlier run; in particular a second run at the same
    time changes nothing. *)
Theorem cleanup_absorbs_earlier_run (now1 now1' now2 now2' : datetime)
    (db : database) :
  micros now1 <= micros now2 -> micros now1' <= micros now2' ->
  cleanup_old_data now2 now2' (cleanup_old_data now1 now1' db)
  = cleanup_old_data now2 now2' db.
Proof.
  intros H1 H2. unfold cleanup_old_data.
  cbn [users campaigns analytics trends tweets with_trends with_tweets].
  unfold with_trends, with_tweets. cbn. f_equal.
  - apply filter_filter_implied. intros t Ht.
    apply negb_true_iff in Ht. apply negb_true_iff.
    destruct (is_old_tweet (add_days now1 (-30)) t) eqn:E; [|reflexivity].
    rewrite (is_old_tweet_monotone (add_days now1 (-30)) (add_days now2 (-30)) t)
      in Ht; [discriminate| |assumption].
    unfold micros, add_days in *. cbn [day hour minute second microsecond] in *. lia.
  - apply filter_filter_implied. intros h Hh.
    apply negb_true_iff in Hh. apply negb_true_iff.
    unfold is_old_trend, ltb in *. apply Z.ltb_ge in Hh. apply Z.ltb_ge.
    unfold micros, add_days in *. cbn [day hour minute second microsecond] in *. lia.
Qed.

Lemma cleanup_absorbs_earlier_run_witness :
  cleanup_old_data (add_days Examples.morning 40) (add_days Examples.morning 40)
    (cleanup_old_data Examples.morning Examples.morning
       (mk_db [] [] [Examples.post1_posted; Examples.post1] [] []))
  = cleanup_old_data (add_days Examples.morning 40) (add_days Examples.morning 40)
      (mk_db [] [] [Examples.post1_posted; Examples.post1] [] []).
Proof.
  apply cleanup_absorbs_earlier_run; vm_compute; discriminate.
Defined.

(** ** The analytics upsert, composed *)

Lemma update_first_compose (p : TweetAnalytics.t -> bool)
    (f g : TweetAnalytics.t -> TweetAnalytics.t) (l : list TweetAnalytics.t) :
  (forall a, p a = true -> p (f a) = true) ->
  update_first p g (update_first p f l) = update_first p (fun a => g (f a)) l.
Proof.
  intros Hp. induction l as [|a l IH]; cbn; [reflexivity|].
  destruct (p a) eqn:E; cbn.
  - rewrite (Hp a E). reflexivity.
  - rewrite E, IH. reflexivity.
Qed.

Lemma update_first_none (p : TweetAnalytics.t -> bool)
    (f : TweetAnalytics.t -> TweetAnalytics.t) (l : list TweetAnalytics.t) :
  List.find p l = None -> update_first p f l = l.
Proof.
  induction l as [|a l IH]; cbn; [reflexivity|].
  destruct (p a); [discriminate|]. intros H. rewrite (IH H). reflexivity.
Qed.

Lemma update_first_app_none (p : TweetAnalytics.t -> bool)
    (f : TweetAnalytics.t -> TweetAnalytics.t) (l l' : list TweetAnalytics.t) :
  List.find p l = None -> update_first p f (l ++ l') = l ++ update_first p f l'.
Proof.
  induction l as [|a l IH]; cbn; [reflexivity|].
  destruct (p a); [discriminate|]. intros H. rewrite (IH H). reflexivity.
Qed.

Lemma find_app_none {A : Type} (p : A -> bool) (l l' : list A) :
  List.find p l = None -> List.find p (l ++ l') = List.find p l'.
Proof.
  induction l as [|a l IH]; cbn; [reflexivity|].
  destruct (p a); [discriminate|assumption].
Qed.

Lemma find_update_first (p : TweetAnalytics.t -> bool)
    (f : TweetAnalytics.t -> TweetAnalytics.t) (l : list TweetAnalytics.t)
    (a : TweetAnalytics.t) :
  (forall b, p b = true -> p (f b) = true) ->
  List.find p l = Some a -> List.find p (update_first p f l) = Some (f a).
Proof.
  intros Hp. induction l as [|b l IH]; cbn; [discriminate|].
  destruct (p b) eqn:E; cbn.
  - intros [= ->]. rewrite (Hp a E). reflexivity.
  - rewrite E. exact IH.
Qed.

(** X19: the last update wins.  Two updates of the same tweet and owner
    leave the database that the second alone would leave: the counters,
    the rate and the time are those of the second.  The campaign is the
    one given to the first, should it have created the record; the
    campaign given to an update of an existing record is ignored. *)
Theorem update_tweet_analytics_last_wins (now1 now2 : datetime) (db : database)
    (tweet_id : string) (data1 data2 : gmap string Z) (user_id : Z)
    (campaign_id campaign_id' : option Z) :
  update_tweet_analytics now2
    (update_tweet_analytics now1 db tweet_id data1 user_id campaign_id)
    tweet_id data2 user_id campaign_id'
  = update_tweet_analytics now2 db tweet_id data2 user_id campaign_id.
Proof.
  unfold update_tweet_analytics at 2 3.
  destruct (List.find (analytics_key tweet_id user_id) (analytics db)) as [a|] eqn:E.
  - unfold update_tweet_analytics. cbn [analytics with_analytics].
    rewrite (find_update_first _ _ _ a);
      [|intros b Hb; rewrite analytics_key_overwrite; exact Hb|exact E].
    unfold with_analytics. cbn. f_equal.
    rewrite update_first_compose
      by (intros b Hb; rewrite analytics_key_overwrite; exact Hb).
    clear. induction (analytics db) as [|b l IH]; cbn; [reflexivity|].
    destruct (analytics_key tweet_id user_id b); [reflexivity|]. rewrite IH. reflexivity.
  - unfold update_tweet_analytics. cbn [analytics with_analytics].
    rewrite (find_app_none _ _ _ E). cbn [List.find].
    unfold analytics_key at 1. cbn [TweetAnalytics.tweet_id TweetAnalytics.user_id].
    rewrite String.eqb_refl, Z.eqb_refl. cbn [andb].
    unfold with_analytics. cbn. f_equal.
    rewrite (update_first_app_none _ _ _ _ E). cbn [update_first].
    unfold analytics_key at 1. cbn [TweetAnalytics.tweet_id TweetAnalytics.user_id].
    rewrite String.eqb_refl, Z.eqb_refl. cbn [andb]. reflexivity.
Qed.

(** ** Scheduling one tweet through the web form *)

Lemma find_tweet_fresh (l : list ScheduledTweet.t) (row : ScheduledTweet.t) :
  ScheduledTweet.id row = next_tweet_id l ->
  List.find (fun t => ScheduledTweet.id t =? ScheduledTweet.id row) (l ++ [row])
  = Some row.
Proof.
  intros Hid. rewrite find_app_none.
  - cbn. rewrite Z.eqb_refl. reflexivity.
  - destruct (List.find _ l) as [t|] eqn:E; [|reflexivity].
    apply find_some in E. destruct E as [Hin E]. apply Z.eqb_eq in E.
    apply next_tweet_id_above in Hin. lia.
Qed.

(** X20: the form handler adds at most one post and queues at most one
    publish task.  It adds the post exactly when the time parses, the
    content has at most 280 characters, counted in code points, the spam
    check does not flag it and the commit goes through; the post is then
    appended in state scheduled under a new id, with the content, time,
    user and campaign of the form, and looking that id up gives the post.
    It queues the task, for that id and with the scheduled time as [eta],
    exactly when in addition the broker takes it; when the broker
    refuses, the post stays in the database, scheduled, with no task
    queued, and the user is told that scheduling failed.  When the commit
    raises, the database is as it was, nothing is queued and the user is
    told the same. *)
Theorem schedule_tweet_adds_one_post (check_spam_content : string -> bool)
    (database_accepts broker_accepts : bool) (now : datetime)
    (current_user_id : Z) (content : string) (scheduled_time : result datetime)
    (campaign_id : option Z) (db : database) :
  let '(res, db') := schedule_tweet check_spam_content database_accepts
                       broker_accepts now current_user_id content scheduled_time
                       campaign_id db in
  let accepted :=
    match scheduled_time with
    | Ok _ => (str_len content <=? 280)%nat && negb (check_spam_content content)
              && database_accepts
    | Raise _ => false
    end in
  (accepted = false -> db' = db /\ queued res = [] /\ snd (flashed res) <> "success")
  /\ (accepted = true ->
      exists (due : datetime) (row : ScheduledTweet.t),
        scheduled_time = Ok due
        /\ row = ScheduledTweet.mk (next_tweet_id (tweets db)) content due "scheduled"
                   None None now None current_user_id campaign_id
        /\ db' = with_tweets (tweets db ++ [row]) db
        /\ get_tweet db' (ScheduledTweet.id row) = Some row
        /\ (forall t, In t (tweets db) -> ScheduledTweet.id t < ScheduledTweet.id row)
        /\ (broker_accepts = true ->
            queued res = [(ScheduledTweet.id row, due)]
            /\ snd (flashed res) = "success")
        /\ (broker_accepts = false ->
            queued res = [] /\ snd (flashed res) = "error"))
  /\ (forall due : datetime,
         scheduled_time = Ok due -> (str_len content <= 280)%nat ->
         check_spam_content content = false -> database_accepts = false ->
         flashed res = ("Failed to schedule tweet. Please try again.", "error")).
Proof.
  unfold schedule_tweet.
  destruct scheduled_time as [due|e]; cbn [fst snd];
    [|split; [intros _; repeat split; cbn; discriminate
             |split; [discriminate|intros due' Hd; discriminate Hd]]].
  destruct (Nat.ltb_spec 280 (str_len content)) as [Hlong|Hshort].
  - replace (str_len content <=? 280)%nat with false
      by (symmetry; apply Nat.leb_gt; lia).
    cbn [andb]. split; [intros _; repeat split; cbn; discriminate|].
    split; [discriminate|]. intros due' _ Hle. lia.
  - replace (str_len content <=? 280)%nat with true
      by (symmetry; apply Nat.leb_le; lia).
    cbn [andb]. destruct (check_spam_content content); cbn [negb andb].
    + split; [intros _; repeat split; cbn; discriminate|].
      split; [discriminate|]. intros due' _ _ Hs. discriminate Hs.
    + destruct database_accepts; cbn [negb].
      2: { split; [intros _; repeat split; cbn; discriminate|].
           split; [discriminate|]. intros due' _ _ _ _. reflexivity. }
      assert (Hfound :
                get_tweet
                  (commit_tweets now
                     [mk_pending content due current_user_id campaign_id] db)
                  (next_tweet_id (tweets db))
                = Some (ScheduledTweet.mk (next_tweet_id (tweets db)) content due
                          "scheduled" None None now None current_user_id
                          campaign_id)).
      { unfold get_tweet, commit_tweets. cbn [tweets with_tweets insert_tweets].
        exact (find_tweet_fresh (tweets db)
                 (ScheduledTweet.mk (next_tweet_id (tweets db)) content due
                    "scheduled" None None now None current_user_id campaign_id)
                 eq_refl). }
      destruct broker_accepts; (split; [discriminate|]);
        (split; [|intros due' _ _ _ Hd; discriminate Hd]); intros _;
        eexists; eexists; (split; [reflexivity|]); (split; [reflexivity|]);
        (split; [reflexivity|]); (split; [exact Hfound|]);
        (split; [intros t Ht; apply next_tweet_id_above in Ht; exact Ht|]);
        split; intros Hb; try discriminate Hb; split; reflexivity.
Qed.



(** ** The analytics task *)

Lemma dict_truthy_get_tweet_analytics (response : metrics_response) :
  dict_truthy (get_tweet_analytics response)
  = match response with
    | MetricsData _ => true
    | _ => false
    end.
Proof.
  unfold dict_truthy. destruct response as [m| |msg]; cbn [get_tweet_analytics].
  - rewrite bool_decide_eq_false_2; [reflexivity|].
    intros H. apply (f_equal (fun d => d !! "likes")) in H.
    rewrite lookup_insert_eq, lookup_empty in H. discriminate.
  - rewrite bool_decide_eq_true_2; reflexivity.
  - rewrite bool_decide_eq_true_2; reflexivity.
Qed.

Lemma update_tweet_analytics_frame (now : datetime) (db : database)
    (tweet_id : string) (data : gmap string Z) (user_id : Z)
    (campaign_id : option Z) :
  let db' := update_tweet_analytics now db tweet_id data user_id campaign_id in
  users db' = users db /\ campaigns db' = campaigns db
  /\ tweets db' = tweets db /\ trends db' = trends db.
Proof.
  cbv zeta. unfold update_tweet_analytics.
  destruct (List.find _ (analytics db)); cbn; auto.
Qed.

Ltac collect_unfold :=
  cbv [run_collect_tweet_analytics collect_tweet_analytics retry_collect
       update_tweet_analytics_in_task apply_async query_get_user db_op db_down
       emit raise try_except bind ret st_db st_tweet st_trace st_ops
       collect_max_retries].

Ltac collect_simpl :=
  cbn -[Z.ltb Z.add String.eqb has_twitter_auth get_user update_tweet_analytics
        get_tweet_analytics dict_truthy].

(** The runs of the analytics task, case by case. *)
Lemma run_collect_cases (env : environment)
    (metrics_api : string -> string -> string -> metrics_response)
    (self : request) (tweet_id : string) (user_id : Z) (campaign_id : option Z)
    (db : database) :
  let '(r, db', tr) := run_collect_tweet_analytics env metrics_api self tweet_id
                         user_id campaign_id db in
  users db' = users db /\ campaigns db' = campaigns db
  /\ tweets db' = tweets db /\ trends db' = trends db
  /\ (db' = db
      \/ exists (user : User.t) (metrics : gmap string Z),
          get_user db user_id = Some user
          /\ has_twitter_auth user = true
          /\ metrics_api tweet_id (str_of (User.twitter_access_token user))
                         (str_of (User.twitter_access_token_secret user))
             = MetricsData metrics
          /\ db' = update_tweet_analytics (utcnow env) db tweet_id
                     (get_tweet_analytics (MetricsData metrics)) user_id campaign_id)
  /\ (length (sent tr) <= 1)%nat
  /\ forall m : message,
      In m (sent tr) ->
      m = collect_tweet_analytics_msg tweet_id user_id campaign_id 300
      /\ retries self < 2 /\ db' = db /\ r = Raise (Retry 300).
Proof.
  collect_unfold. collect_simpl.
  destruct (db_fault env) as [k|] eqn:Hf; collect_simpl.
  - destruct (k <=? 0)%nat eqn:Hk0; collect_simpl.
    + destruct (Z.ltb_spec (retries self) 2); collect_simpl.
      * destruct (Z.ltb_spec 2 (retries self + 1)); [lia|]. collect_simpl.
        destruct (broker_up env); collect_simpl;
          repeat (split; [reflexivity|]); (split; [left; reflexivity|]);
          (split; [cbn; lia|]); intros m Hm; cbn in Hm; [|contradiction].
        destruct Hm as [<- | []]. auto.
      * repeat (split; [reflexivity|]). split; [left; reflexivity|].
        split; [cbn; lia|]. intros m Hm; cbn in Hm; contradiction.
    + destruct (get_user db user_id) as [user|] eqn:Hu; collect_simpl.
      2: { repeat (split; [reflexivity|]). split; [left; destruct db; reflexivity|].
           split; [cbn; lia|]. intros m Hm; cbn in Hm; contradiction. }
      destruct (has_twitter_auth user) eqn:Hauth; collect_simpl.
      2: { repeat (split; [reflexivity|]). split; [left; destruct db; reflexivity|].
           split; [cbn; lia|]. intros m Hm; cbn in Hm; contradiction. }
      rewrite dict_truthy_get_tweet_analytics.
      destruct (metrics_api tweet_id _ _) as [metrics| |msg] eqn:Hapi; collect_simpl;
        rewrite ?Hf; collect_simpl.
      2,3: repeat (split; [reflexivity|]); (split; [left; destruct db; reflexivity|]);
           (split; [cbn; lia|]); intros m Hm; cbn in Hm; contradiction.
      destruct (k <=? 1)%nat; collect_simpl; rewrite ?Hf; collect_simpl.
      { repeat (split; [reflexivity|]). split; [left; destruct db; reflexivity|].
        split; [cbn; lia|]. intros m Hm; cbn in Hm; contradiction. }
      destruct (k <=? 2)%nat; collect_simpl.
      { repeat (split; [reflexivity|]). split; [left; destruct db; reflexivity|].
        split; [cbn; lia|]. intros m Hm; cbn in Hm; contradiction. }
      destruct (update_tweet_analytics_frame (utcnow env) db tweet_id
                  (get_tweet_analytics (MetricsData metrics)) user_id campaign_id)
        as (F1 & F2 & F3 & F4).
      repeat (split; [assumption|]).
      split; [right; exists user, metrics; auto|].
      split; [cbn; lia|]. intros m Hm; cbn in Hm; contradiction.
  - destruct (get_user db user_id) as [user|] eqn:Hu; collect_simpl.
    2: { repeat (split; [reflexivity|]). split; [left; destruct db; reflexivity|].
         split; [cbn; lia|]. intros m Hm; cbn in Hm; contradiction. }
    destruct (has_twitter_auth user) eqn:Hauth; collect_simpl.
    2: { repeat (split; [reflexivity|]). split; [left; destruct db; reflexivity|].
         split; [cbn; lia|]. intros m Hm; cbn in Hm; contradiction. }
    rewrite dict_truthy_get_tweet_analytics.
    destruct (metrics_api tweet_id _ _) as [metrics| |msg] eqn:Hapi; collect_simpl;
      rewrite ?Hf; collect_simpl.
    2,3: repeat (split; [reflexivity|]); (split; [left; destruct db; reflexivity|]);
         (split; [cbn; lia|]); intros m Hm; cbn in Hm; contradiction.
    destruct (update_tweet_analytics_frame (utcnow env) db tweet_id
                (get_tweet_analytics (MetricsData metrics)) user_id campaign_id)
      as (F1 & F2 & F3 & F4).
    repeat (split; [assumption|]).
    split; [right; exists user, metrics; auto|].
    split; [cbn; lia|]. intros m Hm; cbn in Hm; contradiction.
Qed.

(** X22: an execution of the analytics task leaves the users, the
    campaigns, the posts and the trends as they are; the metrics are as
    they were or updated once with the counters Twitter gave for the
    tweet.  It sends at most one message, its own retry with a countdown
    of 300, and only with fewer than two retries behind it and after
    leaving the database as it was; then it raises [Retry]. *)
Theorem collect_changes_only_metrics (env : environment)
    (metrics_api : string -> string -> string -> metrics_response)
    (self : request) (tweet_id : string) (user_id : Z) (campaign_id : option Z)
    (db : database) :
  let '(r, db', tr) := run_collect_tweet_analytics env metrics_api self tweet_id
                         user_id campaign_id db in
  users db' = users db /\ campaigns db' = campaigns db
  /\ tweets db' = tweets db /\ trends db' = trends db
  /\ (db' = db
      \/ exists (user : User.t) (metrics : gmap string Z),
          get_user db user_id = Some user
          /\ has_twitter_auth user = true
          /\ metrics_api tweet_id (str_of (User.twitter_access_token user))
                         (str_of (User.twitter_access_token_secret user))
             = MetricsData metrics
          /\ db' = update_tweet_analytics (utcnow env) db tweet_id
                     (get_tweet_analytics (MetricsData metrics)) user_id campaign_id)
  /\ (length (sent tr) <= 1)%nat
  /\ forall m : message,
      In m (sent tr) ->
      m = collect_tweet_analytics_msg tweet_id user_id campaign_id 300
      /\ retries self < 2 /\ db' = db /\ r = Raise (Retry 300).
Proof.
  exact (run_collect_cases env metrics_api self tweet_id user_id campaign_id db).
Qed.

(** X23: an execution of the analytics task keeps the table of metrics
    free of duplicates: when no tweet and owner have two records before
    it, none have two after it, whatever Twitter answers and whether or
    not the database or the broker fails. *)
Theorem collect_keeps_records_unique (env : environment)
    (metrics_api : string -> string -> string -> metrics_response)
    (self : request) (tweet_id : string) (user_id : Z) (campaign_id : option Z)
    (db : database) :
  (forall tid uid, (length (records_for tid uid db) <= 1)%nat) ->
  let '(_, db', _) := run_collect_tweet_analytics env metrics_api self tweet_id
                        user_id campaign_id db in
  forall tid uid, (length (records_for tid uid db') <= 1)%nat.
Proof.
  intros Hone.
  pose proof (run_collect_cases env metrics_api self tweet_id user_id
                campaign_id db) as Hrun.
  destruct (run_collect_tweet_analytics env metrics_api self tweet_id user_id
              campaign_id db) as [[r db'] tr].
  destruct Hrun as (_ & _ & _ & _ & [-> | (user & metrics & _ & _ & _ & ->)] & _).
  - exact Hone.
  - apply update_keeps_records_unique. exact Hone.
Qed.

Lemma collect_keeps_records_unique_witness :
  let db' := snd (fst (run_collect_tweet_analytics Examples.env_ok
                         (fun _ _ _ => MetricsData Examples.public_metrics)
                         (mk_request 0) "99" 5 (Some 7) Examples.db0)) in
  (length (records_for "99" 5%Z db') <= 1)%nat.
Proof.
  cbv zeta.
  assert (H0 : forall tid uid,
             (length (records_for tid uid Examples.db0) <= 1)%nat).
  { intros tid uid. cbn. lia. }
  pose proof (collect_keeps_records_unique Examples.env_ok
                (fun _ _ _ => MetricsData Examples.public_metrics)
                (mk_request 0) "99" 5 (Some 7) Examples.db0 H0) as H.
  destruct (run_collect_tweet_analytics Examples.env_ok
              (fun _ _ _ => MetricsData Examples.public_metrics)
              (mk_request 0) "99" 5 (Some 7) Examples.db0) as [[r db'] tr].
  exact (H "99" 5).
Defined.

Lemma get_tweet_analytics_counters (metrics : gmap string Z) :
  let d := get_tweet_analytics (MetricsData metrics) in
  dict_get d "likes" 0 = dict_get metrics "like_count" 0
  /\ dict_get d "retweets" 0 = dict_get metrics "retweet_count" 0
  /\ dict_get d "replies" 0 = dict_get metrics "reply_count" 0
  /\ dict_get d "impressions" 0 = dict_get metrics "impression_count" 0.
Proof.
  cbv zeta. unfold get_tweet_analytics, dict_get at 1 3 5 7.
  repeat split; simplify_map_eq; reflexivity.
Qed.

(** X24: the analytics task that a successful publish sent stores the
    metrics of the published tweet.  Executed with the arguments of the
    message, while the database works and Twitter gives the public metrics
    of the tweet, it returns normally, sends nothing, leaves the posts as
    the publish left them and, there being no record of the tweet yet,
    adds the one record of the tweet and the owner of the post, for the
    campaign of the post, whose likes, retweets, replies and impressions
    are the like, retweet, reply and impression counts of Twitter, 0 for a
    count Twitter left out. *)
Theorem published_tweet_gets_metrics (env : environment)
    (metrics_api : string -> string -> string -> metrics_response)
    (self self' : request) (scheduled_tweet_id : Z) (db : database)
    (t : ScheduledTweet.t) (user : User.t) (tweet_id : string)
    (metrics : gmap string Z) :
  get_tweet db scheduled_tweet_id = Some t ->
  ScheduledTweet.status t = "scheduled" ->
  db_fault env = None -> broker_up env = true ->
  credentials_ok env db t = true ->
  get_user db (ScheduledTweet.user_id t) = Some user ->
  create_tweet env (ScheduledTweet.content t)
               (str_of (User.twitter_access_token user))
               (str_of (User.twitter_access_token_secret user)) = ApiData tweet_id ->
  metrics_api tweet_id (str_of (User.twitter_access_token user))
              (str_of (User.twitter_access_token_secret user))
  = MetricsData metrics ->
  records_for tweet_id (ScheduledTweet.user_id t) db = [] ->
  let '(db1, tr1) := run_schedule_tweet_task env self scheduled_tweet_id db in
  sent tr1 = [collect_tweet_analytics_msg tweet_id (ScheduledTweet.user_id t)
                (ScheduledTweet.campaign_id t) 300]
  /\ let '(r, db2, tr2) :=
       run_collect_tweet_analytics env metrics_api self' tweet_id
         (ScheduledTweet.user_id t) (ScheduledTweet.campaign_id t) db1 in
     r = Ok tt /\ tr2 = [] /\ tweets db2 = tweets db1
     /\ exists record : TweetAnalytics.t,
         records_for tweet_id (ScheduledTweet.user_id t) db2 = [record]
         /\ TweetAnalytics.likes record = dict_get metrics "like_count" 0
         /\ TweetAnalytics.retweets record = dict_get metrics "retweet_count" 0
         /\ TweetAnalytics.replies record = dict_get metrics "reply_count" 0
         /\ TweetAnalytics.impressions record
            = dict_get metrics "impression_count" 0
         /\ TweetAnalytics.campaign_id record = ScheduledTweet.campaign_id t
         /\ TweetAnalytics.last_updated record = utcnow env.
Proof.
  intros Ht Hs Hf Hb Hc Hu Hp Hm Hnone.
  destruct (publish_success_run env self scheduled_tweet_id db t user tweet_id
              Ht Hs Hf Hb Hc Hu Hp) as [Hrun _].
  rewrite Hrun. split; [reflexivity|].
  match goal with
  | |- context [run_collect_tweet_analytics _ _ _ _ _ _ ?d] => set (db1 := d)
  end.
  assert (Hu1 : get_user db1 (ScheduledTweet.user_id t) = Some user) by exact Hu.
  assert (Hauth : has_twitter_auth user = true).
  { unfold credentials_ok in Hc. rewrite Hu in Hc.
    apply andb_true_iff in Hc. tauto. }
  assert (Hrun2 : run_collect_tweet_analytics env metrics_api self' tweet_id
                    (ScheduledTweet.user_id t) (ScheduledTweet.campaign_id t) db1
                  = (Ok tt,
                     update_tweet_analytics (utcnow env) db1 tweet_id
                       (get_tweet_analytics (MetricsData metrics))
                       (ScheduledTweet.user_id t) (ScheduledTweet.campaign_id t),
                     [])).
  { collect_unfold. collect_simpl.
    repeat (first [rewrite Hf|rewrite Hu1|rewrite Hauth|rewrite Hm
                  |rewrite dict_truthy_get_tweet_analytics];
            collect_simpl).
    reflexivity. }
  rewrite Hrun2. split; [reflexivity|]. split; [reflexivity|].
  destruct (update_tweet_analytics_frame (utcnow env) db1 tweet_id
              (get_tweet_analytics (MetricsData metrics))
              (ScheduledTweet.user_id t) (ScheduledTweet.campaign_id t))
    as (_ & _ & F3 & _).
  split; [exact F3|].
  destruct (update_tweet_analytics_records (utcnow env) db1 tweet_id
              (get_tweet_analytics (MetricsData metrics))
              (ScheduledTweet.user_id t) (ScheduledTweet.campaign_id t))
    as [Hrec _].
  assert (Hnone1 : records_for tweet_id (ScheduledTweet.user_id t) db1 = [])
    by exact Hnone.
  rewrite Hnone1 in Hrec.
  destruct (get_tweet_analytics_counters metrics) as (C1 & C2 & C3 & C4).
  eexists. split; [exact Hrec|]. cbn. repeat split; assumption.
Qed.

Lemma published_tweet_gets_metrics_witness :
  sent (snd (run_schedule_tweet_task Examples.env_ok (mk_request 0) 1 Examples.db0))
  = [collect_tweet_analytics_msg "99" 5 (Some 7) 300].
Proof.
  pose proof (published_tweet_gets_metrics Examples.env_ok
                (fun _ _ _ => MetricsData Examples.public_metrics)
                (mk_request 0) (mk_request 0) 1 Examples.db0 Examples.post1
                Examples.alice "99" Examples.public_metrics
                eq_refl eq_refl eq_refl eq_refl eq_refl eq_refl eq_refl eq_refl
                eq_refl) as H.
  destruct (run_schedule_tweet_task Examples.env_ok (mk_request 0) 1 Examples.db0)
    as [db1 tr1].
  exact (proj1 H).
Defined.

(** ** Recommendations *)

(** X25: for a campaign with a frequency, the recommendations are never
    empty and never more than three; the three default recommendations
    are given exactly when no measure calls for another: the engagement is
    neither below 2 nor above 5, the frequency is between 2 and 5, and
    there are no tweets or at least 5 likes a tweet. *)
Theorem recommendations_never_empty (campaign : Campaign.t)
    (avg_engagement : PrimFloat.float) (tweet_count likes frequency : Z) :
  Campaign.tweet_frequency campaign = Some frequency ->
  exists recommendations : list string,
    get_campaign_recommendations campaign avg_engagement tweet_count likes
    = Ok recommendations
    /\ (1 <= length recommendations <= 3)%nat
    /\ (recommendations
        = ["Continue monitoring campaign performance regularly";
           "Experiment with different posting times";
           "Engage with your audience through replies and interactions"]
        <-> PrimFloat.ltb avg_engagement 2%float = false
            /\ PrimFloat.ltb 5%float avg_engagement = false
            /\ 2 <= frequency <= 5
            /\ (tweet_count <= 0
                \/ PrimFloat.ltb (truediv likes tweet_count) (float_of_int 5)
                   = false)).
Proof.
  intros Hf. unfold get_campaign_recommendations. rewrite Hf.
  destruct (PrimFloat.ltb avg_engagement 2%float) eqn:E1;
    [|destruct (PrimFloat.ltb 5%float avg_engagement) eqn:E2];
    (destruct (Z.ltb_spec frequency 2); [|destruct (Z.ltb_spec 5 frequency)]);
    (destruct (Z.ltb_spec 0 tweet_count);
     [destruct (PrimFloat.ltb (truediv likes tweet_count) (float_of_int 5)) eqn:E3|]);
    cbn [app]; eexists; (split; [reflexivity|]); (split; [cbn; lia|]);
    (split; [intros Hd; try discriminate Hd; repeat split; auto; lia
            |intros (Hd1 & Hd2 & Hd3 & Hd4); try discriminate; try lia;
             try (destruct Hd4 as [Hd4|Hd4]; [lia|discriminate]); reflexivity]).
Qed.

Lemma recommendations_never_empty_witness :
  exists recommendations : list string,
    get_campaign_recommendations Examples.spring 3%float 10 80 = Ok recommendations
    /\ (1 <= length recommendations <= 3)%nat.
Proof.
  destruct (recommendations_never_empty Examples.spring 3%float 10 80 3 eq_refl)
    as (recommendations & H1 & H2 & _).
  exists recommendations. split; assumption.
Defined.
